(** * addi_serial: probe module for 8250/16550-type PCI ADDI-DATA serial ports

    A shallow embedding of [addi_serial.c] and the properties of its quirk
    dispatch, per-port address resolution, board heuristic and port
    lifecycle.

    Conventions of the embedding.
    - C integers are [Z]; every conversion the C code performs implicitly is
      written out with [to_uint] (unsigned int, 32 bits), [to_int] (int),
      [to_u64] (resource_size_t, unsigned long and pointers on an LP64
      kernel) and [to_u8] (unsigned char).
    - Calls that leave the file (the 8250 core, the PCI core, the allocator
      and the quirk hooks reached through function pointers) are recorded in
      a log, and their return values are read from an oracle that may depend
      on everything that happened before.  Theorems hold for every oracle.
    - A driver function is a state transformer on that log and on the
      device's driver data; it yields nothing where C leaves the behaviour
      undefined.
    - [find_quirk] and the functions calling it take the quirk table as an
      argument; the table of the driver is [pci_serial_quirks].
    - A pointer is modelled by what it points to, together with what decides
      whether reading through it is defined: a board pointer says whether it
      points into the frame of the probe, and the driver data is a session
      or an error value stored in its place.

    The file has three parts: the driver, the vocabulary of the statements
    with the sample inputs, and the properties. *)

From Stdlib Require Import ZArith Lia Bool.
From stdpp Require Import base numbers list.

Local Open Scope Z_scope.

(** ** Integer conversions *)

Definition to_uint (z : Z) : Z := z mod 2 ^ 32.
Definition to_u64 (z : Z) : Z := z mod 2 ^ 64.
Definition to_u8 (z : Z) : Z := z mod 2 ^ 8.
Definition to_int (z : Z) : Z := (z + 2 ^ 31) mod 2 ^ 32 - 2 ^ 31.

(** C truth value of an integer expression. *)
Definition truthy (z : Z) : bool := negb (z =? 0).

(** ** Constants of the kernel headers

    [addi_serial.c] takes these from <linux/8250_pci.h>, <linux/pci.h>,
    <linux/pci_ids.h>, <linux/ioport.h>, <linux/serial_core.h> and
    <uapi/asm-generic/errno-base.h>; the values are the ones of the Linux
    tree the driver is built against. *)

Definition FL_BASE_MASK : Z := 0x0007.
Definition FL_BASE0 : Z := 0x0000.
Definition FL_BASE1 : Z := 0x0001.
Definition FL_GET_BASE (x : Z) : Z := Z.land x FL_BASE_MASK.
Definition FL_BASE_BARS : Z := 0x0008.
Definition FL_NOIRQ : Z := 0x0080.
Definition FL_REGION_SZ_CAP : Z := 0x0100.

Definition PCI_ANY_ID : Z := 0xffffffff.
Definition PCI_VENDOR_ID_AMCC : Z := 0x10e8.

Definition PCI_CLASS_COMMUNICATION_SERIAL : Z := 0x0700.
Definition PCI_CLASS_COMMUNICATION_MULTISERIAL : Z := 0x0702.
Definition PCI_CLASS_COMMUNICATION_MODEM : Z := 0x0703.

Definition IORESOURCE_IO : Z := 0x00000100.
Definition IORESOURCE_MEM : Z := 0x00000200.

Definition UPF_SKIP_TEST : Z := Z.shiftl 1 6.
Definition UPF_BOOT_AUTOCONF : Z := Z.shiftl 1 28.
Definition UPF_SHARE_IRQ : Z := Z.shiftl 1 24.

Definition ENOMEM : Z := 12.
Definition ENODEV : Z := 19.
Definition EINVAL : Z := 22.

(** Constants the driver defines itself. *)

Definition PCI_NUM_BAR_RESOURCES : Z := 6.
Definition PCI_DEVICE_ID_AMCC_ADDIDATA_APCI7800 : Z := 0x818e.
Definition PCI_DEVICE_ID_AMCC_ADDIDATA_APCI7500_d3 : Z := 0x7003.

(** ** Data model *)

(** One entry of [dev->resource[]], seen through the accessors
    [pci_resource_start], [pci_resource_len] and [pci_resource_flags]. *)
Record resource : Type := {
  res_start : Z;
  res_len : Z;
  res_flags : Z
}.

(** The fields of [struct pci_dev] the driver reads.  [dev_resource] is
    total: the driver indexes the array before any bound check, so the model
    lets a device say what every slot reads as. *)
Record pci_dev : Type := {
  dev_vendor : Z;
  dev_device : Z;
  dev_subsystem_vendor : Z;
  dev_subsystem_device : Z;
  dev_class : Z;
  dev_irq : Z;
  dev_resource : Z -> resource
}.

Definition pci_resource_start (dev : pci_dev) (bar : Z) : Z :=
  res_start (dev_resource dev bar).
Definition pci_resource_len (dev : pci_dev) (bar : Z) : Z :=
  res_len (dev_resource dev bar).
Definition pci_resource_flags (dev : pci_dev) (bar : Z) : Z :=
  res_flags (dev_resource dev bar).

(** [struct pciserial_board]; every field is an unsigned int. *)
Record pciserial_board : Type := {
  flags : Z;
  num_ports : Z;
  base_baud : Z;
  uart_offset : Z;
  reg_shift : Z;
  first_offset : Z
}.

(** A quirk hook reached through a function pointer that is not a function
    of this file; [None] is the NULL pointer. *)
Definition hook : Type := nat.

(** The [setup] member points to one of the two setup functions below. *)
Inductive setup_fn : Type :=
| SETUP_addidata_apci7800
| SETUP_pci_default.

Record pci_serial_quirk : Type := {
  vendor : Z;
  device : Z;
  subvendor : Z;
  subdevice : Z;
  probe : option hook;
  init : option hook;
  setup : setup_fn;
  exit : option hook
}.

(** A [const struct pciserial_board *]: the board it points to, and whether
    the storage is [tmp], the local of [pciserial_init_one], which is gone
    once the probe has returned.  Every other board the driver points to is
    an entry of [pci_boards]. *)
Record board_ptr : Type := {
  pointee :> pciserial_board;
  in_frame : bool
}.

(** [&pci_boards[i]], or storage of another caller that outlives the
    session. *)
Definition static_board (b : pciserial_board) : board_ptr :=
  {| pointee := b; in_frame := false |}.

(** [&tmp] in [pciserial_init_one]. *)
Definition tmp_board (b : pciserial_board) : board_ptr :=
  {| pointee := b; in_frame := true |}.

(** [struct serial_private]; [priv_addr] is the address [kzalloc] returned,
    [line] the trailing array, allocated with one slot per nominal port;
    [board] is the pointer the attach was called with. *)
Record serial_private : Type := {
  priv_addr : Z;
  dev : pci_dev;
  nr : Z;
  quirk : pci_serial_quirk;
  board : board_ptr;
  line : list Z
}.

(** What the device's driver data can hold besides NULL: a session, or
    [ERR_PTR(rc)] for an [rc] that [IS_ERR] does not recognise. *)
Inductive session_ptr : Type :=
| session (priv : serial_private)
| err_ptr (rc : Z).

(** [UPIO_PORT] is 0, the value [memset] leaves in [uart.port.iotype]. *)
Inductive iotype_t : Type := UPIO_PORT | UPIO_MEM.

(** The members of [struct uart_8250_port] the driver writes ([port.flags]
    and [port.irq] are [uart_flags] and [uart_irq]). *)
Record uart_8250_port : Type := {
  iotype : iotype_t;
  iobase : Z;
  mapbase : Z;
  membase : Z;
  regshift : Z;
  uart_flags : Z;
  uartclk : Z;
  uart_irq : Z
}.

(** ** The world outside the file

    A [call] is one call that leaves the file; an [event] is a call with the
    value it returned (0 for functions returning void).  The [kernel] is the
    oracle giving the return value of a call after a given history. *)

Inductive call : Type :=
| quirk_probe (h : hook)
| quirk_init (h : hook)
| quirk_exit (h : hook)
| pcim_iomap (bar : Z)
| pcim_iomap_table
| pcim_iomap_table_at (bar : Z)
| kzalloc (size : Z)
| kfree (p : Z)
| serial8250_register_8250_port (uart : uart_8250_port)
| serial8250_unregister_port (l : Z)
| serial8250_suspend_port (l : Z)
| serial8250_resume_port (l : Z)
| pcim_enable_device
| pci_save_state
| dev_err.

Definition event : Type := call * Z.

Definition kernel : Type := list event -> call -> Z.

(** The state the driver functions thread: the history of calls and the
    device's [driver_data] pointer ([pci_get_drvdata] / [pci_set_drvdata]). *)
Record world : Type := {
  log : list event;
  drvdata : option session_ptr
}.

(** A computation either ends with a value and a new world, or is undefined
    in C ([None]): the quirk scan leaving its table, an access outside
    [line] or outside the allocated block, a read through a dangling
    pointer or through a value that is no pointer. *)
Definition M (A : Type) : Type := world -> option (A * world).

Definition ret {A} (a : A) : M A := fun w => Some (a, w).

Definition bind {A B} (m : M A) (k : A -> M B) : M B :=
  fun w => match m w with
           | Some (a, w') => k a w'
           | None => None
           end.

Definition undefined {A} : M A := fun _ => None.

Declare Scope drv_scope.
Delimit Scope drv_scope with drv.
Notation "x <- m ;; k" := (bind m (fun x => k))
  (at level 100, m at next level, right associativity) : drv_scope.
Notation "m ;;; k" := (bind m (fun _ => k))
  (at level 100, right associativity) : drv_scope.
Local Open Scope drv_scope.

(** The world after some more events. *)
Definition emit (w : world) (evs : list event) : world :=
  {| log := log w ++ evs; drvdata := drvdata w |}.

(** An outside call whose result is used: ask the oracle, log the answer. *)
Definition extern (K : kernel) (c : call) : M Z :=
  fun w => let r := K (log w) c in Some (r, emit w [(c, r)]).

(** An outside call returning void. *)
Definition notify (c : call) : M unit :=
  fun w => Some (tt, emit w [(c, 0)]).

Definition pci_get_drvdata : M (option session_ptr) :=
  fun w => Some (drvdata w, w).

Definition pci_set_drvdata (p : session_ptr) : M unit :=
  fun w => Some (tt, {| log := log w; drvdata := Some p |}).

(** [for (i = from; i < from + n; i++) body(i)] *)
Fixpoint for_loop (n : nat) (i : Z) (body : Z -> M unit) : M unit :=
  match n with
  | O => ret tt
  | S n' => body i ;;; for_loop n' (i + 1) body
  end.

(** [hook] if it is not NULL. *)
Definition call_hook (h : option hook) (c : hook -> call) : M unit :=
  match h with
  | Some f => notify (c f)
  | None => ret tt
  end.

(** ** Port address resolution *)

Section Driver.

Variable K : kernel.

Definition setup_port (priv : serial_private) (port : uart_8250_port)
    (bar offset regshift : Z) : M (Z * uart_8250_port) :=
  let dev := dev priv in
  if PCI_NUM_BAR_RESOURCES <=? bar then ret (- EINVAL, port)
  else if truthy (Z.land (pci_resource_flags dev bar) IORESOURCE_MEM) then
    p <- extern K (pcim_iomap bar) ;;
    t <- (if p =? 0 then extern K pcim_iomap_table else ret 1) ;;
    if (p =? 0) && (t =? 0) then ret (- ENOMEM, port)
    else
      m <- extern K (pcim_iomap_table_at bar) ;;
      ret (0, {| iotype := UPIO_MEM;
                 iobase := 0;
                 mapbase := to_u64 (pci_resource_start dev bar + offset);
                 membase := to_u64 (m + offset);
                 regshift := to_u8 regshift;
                 uart_flags := uart_flags port;
                 uartclk := uartclk port;
                 uart_irq := uart_irq port |})
  else
    ret (0, {| iotype := UPIO_PORT;
               iobase := to_u64 (pci_resource_start dev bar + offset);
               mapbase := 0;
               membase := 0;
               regshift := 0;
               uart_flags := uart_flags port;
               uartclk := uartclk port;
               uart_irq := uart_irq port |}).

(** ADDI-DATA GmbH communication cards: two ports per BAR.  [bar] and
    [offset] are unsigned ints, converted to int at the call. *)
Definition addidata_apci7800_setup (priv : serial_private)
    (board : pciserial_board) (port : uart_8250_port) (idx : Z)
    : M (Z * uart_8250_port) :=
  let offset := first_offset board in
  let bar := FL_GET_BASE (flags board) in
  let '(bar, offset) :=
    if idx <? 2 then
      (bar, to_uint (offset + idx * uart_offset board))
    else if (2 <=? idx) && (idx <? 4) then
      (to_uint (bar + 1), to_uint (offset + (idx - 2) * uart_offset board))
    else if (4 <=? idx) && (idx <? 6) then
      (to_uint (bar + 2), to_uint (offset + (idx - 4) * uart_offset board))
    else if 6 <=? idx then
      (to_uint (bar + 3), to_uint (offset + (idx - 6) * uart_offset board))
    else (bar, offset) in
  setup_port priv port (to_int bar) (to_int offset) (to_int (reg_shift board)).

(** [maxnr] of [pci_default_setup]: the subtraction and the shift are done
    in resource_size_t, the result is stored in an unsigned int.  (C leaves
    a shift by 64 or more undefined; no board of the table comes near.) *)
Definition default_maxnr (dev : pci_dev) (board : pciserial_board) (bar : Z)
    : Z :=
  to_uint (Z.shiftr (to_u64 (pci_resource_len dev bar - first_offset board))
                    (to_uint (reg_shift board + 3))).

(** The BAR and the offset [pci_default_setup] works with, both unsigned
    ints. *)
Definition default_target (board : pciserial_board) (idx : Z) : Z * Z :=
  let offset := first_offset board in
  let bar := FL_GET_BASE (flags board) in
  if truthy (Z.land (flags board) FL_BASE_BARS) then
    (to_uint (bar + idx), offset)
  else
    (bar, to_uint (offset + idx * uart_offset board)).

Definition pci_default_setup (priv : serial_private)
    (board : pciserial_board) (port : uart_8250_port) (idx : Z)
    : M (Z * uart_8250_port) :=
  let '(bar, offset) := default_target board idx in
  let maxnr := default_maxnr (dev priv) board bar in
  if truthy (Z.land (flags board) FL_REGION_SZ_CAP) && (maxnr <=? to_uint idx)
  then ret (1, port)
  else
    setup_port priv port (to_int bar) (to_int offset) (to_int (reg_shift board)).

(** [quirk->setup(priv, board, &uart, i)] *)
Definition call_setup (f : setup_fn) :
    serial_private -> pciserial_board -> uart_8250_port -> Z ->
    M (Z * uart_8250_port) :=
  match f with
  | SETUP_addidata_apci7800 => addidata_apci7800_setup
  | SETUP_pci_default => pci_default_setup
  end.

End Driver.

(** ** The quirk table *)

Definition pci_serial_quirks : list pci_serial_quirk :=
  [ (* ADDI-DATA GmbH communication cards *)
    {| vendor := PCI_VENDOR_ID_AMCC;
       device := PCI_DEVICE_ID_AMCC_ADDIDATA_APCI7800;
       subvendor := PCI_ANY_ID;
       subdevice := PCI_ANY_ID;
       probe := None; init := None;
       setup := SETUP_addidata_apci7800;
       exit := None |};
    (* Default match-everything terminator entry *)
    {| vendor := PCI_ANY_ID;
       device := PCI_ANY_ID;
       subvendor := PCI_ANY_ID;
       subdevice := PCI_ANY_ID;
       probe := None; init := None;
       setup := SETUP_pci_default;
       exit := None |} ].

Definition quirk_id_matches (quirk_id dev_id : Z) : bool :=
  (quirk_id =? PCI_ANY_ID) || (quirk_id =? dev_id).

(** The condition of the scan in [find_quirk]. *)
Definition quirk_matches (quirk : pci_serial_quirk) (dev : pci_dev) : bool :=
  quirk_id_matches (vendor quirk) (dev_vendor dev) &&
  quirk_id_matches (device quirk) (dev_device dev) &&
  quirk_id_matches (subvendor quirk) (dev_subsystem_vendor dev) &&
  quirk_id_matches (subdevice quirk) (dev_subsystem_device dev).

(** [for (quirk = table;; quirk++) if (...) break;]: the scan has no bound of
    its own; past the last entry it is out of the array. *)
Fixpoint scan_quirks (table : list pci_serial_quirk) (dev : pci_dev)
    : option pci_serial_quirk :=
  match table with
  | [] => None
  | quirk :: rest =>
      if quirk_matches quirk dev then Some quirk else scan_quirks rest dev
  end.

Definition find_quirk (table : list pci_serial_quirk) (dev : pci_dev)
    : M pci_serial_quirk :=
  match scan_quirks table dev with
  | Some quirk => ret quirk
  | None => undefined
  end.

Definition get_pci_irq (dev : pci_dev) (board : pciserial_board) : Z :=
  if truthy (Z.land (flags board) FL_NOIRQ) then 0 else to_int (dev_irq dev).

(** ** The board table

    [pci_boards] in the order of [enum pci_board_num_t]; members an
    initialiser leaves out are zero. *)

Definition board_entry (f n baud stride first : Z) : pciserial_board :=
  {| flags := f; num_ports := n; base_baud := baud; uart_offset := stride;
     reg_shift := 0; first_offset := first |}.

Definition pbn_default : Z := 0.

Definition pci_boards : list pciserial_board :=
  [ board_entry FL_BASE0 1 115200 8 0;      (* pbn_default *)
    board_entry FL_BASE0 1 115200 8 0;      (* pbn_b0_1_115200 *)
    board_entry FL_BASE0 2 115200 8 0;      (* pbn_b0_2_115200 *)
    board_entry FL_BASE0 4 115200 8 0;      (* pbn_b0_4_115200 *)
    board_entry FL_BASE0 5 115200 8 0;      (* pbn_b0_5_115200 *)
    board_entry FL_BASE0 8 115200 8 0;      (* pbn_b0_8_115200 *)
    board_entry FL_BASE0 1 921600 8 0;      (* pbn_b0_1_921600 *)
    board_entry FL_BASE0 2 921600 8 0;      (* pbn_b0_2_921600 *)
    board_entry FL_BASE0 4 921600 8 0;      (* pbn_b0_4_921600 *)
    board_entry FL_BASE0 2 1130000 8 0;     (* pbn_b0_2_1130000 *)
    board_entry FL_BASE0 4 1152000 8 0;     (* pbn_b0_4_1152000 *)
    board_entry FL_BASE0 4 1250000 8 0;     (* pbn_b0_4_1250000 *)
    board_entry FL_BASE0 2 1843200 8 0;     (* pbn_b0_2_1843200 *)
    board_entry FL_BASE0 4 1843200 8 0;     (* pbn_b0_4_1843200 *)
    board_entry FL_BASE0 1 4000000 8 0;     (* pbn_b0_1_4000000 *)
    board_entry (Z.lor FL_BASE0 FL_BASE_BARS) 1 115200 8 0; (* pbn_b0_bt_1_115200 *)
    board_entry (Z.lor FL_BASE0 FL_BASE_BARS) 2 115200 8 0; (* pbn_b0_bt_2_115200 *)
    board_entry (Z.lor FL_BASE0 FL_BASE_BARS) 4 115200 8 0; (* pbn_b0_bt_4_115200 *)
    board_entry (Z.lor FL_BASE0 FL_BASE_BARS) 8 115200 8 0; (* pbn_b0_bt_8_115200 *)
    board_entry (Z.lor FL_BASE0 FL_BASE_BARS) 1 460800 8 0; (* pbn_b0_bt_1_460800 *)
    board_entry (Z.lor FL_BASE0 FL_BASE_BARS) 2 460800 8 0; (* pbn_b0_bt_2_460800 *)
    board_entry (Z.lor FL_BASE0 FL_BASE_BARS) 4 460800 8 0; (* pbn_b0_bt_4_460800 *)
    board_entry (Z.lor FL_BASE0 FL_BASE_BARS) 1 921600 8 0; (* pbn_b0_bt_1_921600 *)
    board_entry (Z.lor FL_BASE0 FL_BASE_BARS) 2 921600 8 0; (* pbn_b0_bt_2_921600 *)
    board_entry (Z.lor FL_BASE0 FL_BASE_BARS) 4 921600 8 0; (* pbn_b0_bt_4_921600 *)
    board_entry (Z.lor FL_BASE0 FL_BASE_BARS) 8 921600 8 0; (* pbn_b0_bt_8_921600 *)
    board_entry 0 0 0 0 0;                  (* pbn_b1_8_115200: no initialiser *)
    board_entry FL_BASE0 1 3906250 0x200 0x1000; (* pbn_ADDIDATA_PCIe_1_3906250 *)
    board_entry FL_BASE0 2 3906250 0x200 0x1000; (* pbn_ADDIDATA_PCIe_2_3906250 *)
    board_entry FL_BASE0 4 3906250 0x200 0x1000; (* pbn_ADDIDATA_PCIe_4_3906250 *)
    board_entry FL_BASE0 8 3906250 0x200 0x1000  (* pbn_ADDIDATA_PCIe_8_3906250 *)
  ].

(** ** The board heuristic *)

Definition serial_pci_is_class_communication (dev : pci_dev) : Z :=
  if (negb (Z.shiftr (dev_class dev) 8 =? PCI_CLASS_COMMUNICATION_SERIAL) &&
      negb (Z.shiftr (dev_class dev) 8 =? PCI_CLASS_COMMUNICATION_MULTISERIAL) &&
      negb (Z.shiftr (dev_class dev) 8 =? PCI_CLASS_COMMUNICATION_MODEM))
     || (6 <? Z.land (dev_class dev) 0xff)
  then - ENODEV
  else 0.

(** The BAR indices a [for (i = 0; i < PCI_NUM_BAR_RESOURCES; i++)] loop
    visits. *)
Definition bars : list Z := seqZ 0 PCI_NUM_BAR_RESOURCES.

(** Body of the first loop of [serial_pci_guess_board], on
    [(num_iomem, num_port, first_port)]. *)
Definition guess_count (dev : pci_dev) (st : Z * Z * Z) (i : Z) : Z * Z * Z :=
  let '(num_iomem, num_port, first_port) := st in
  let '(num_port, first_port) :=
    if truthy (Z.land (pci_resource_flags dev i) IORESOURCE_IO) then
      (num_port + 1, if first_port =? -1 then i else first_port)
    else (num_port, first_port) in
  let num_iomem :=
    if truthy (Z.land (pci_resource_flags dev i) IORESOURCE_MEM) then
      num_iomem + 1
    else num_iomem in
  (num_iomem, num_port, first_port).

(** Body of the second loop, on [(num_port, first_port)]. *)
Definition guess_run (dev : pci_dev) (st : Z * Z) (i : Z) : Z * Z :=
  let '(num_port, first_port) := st in
  if truthy (Z.land (pci_resource_flags dev i) IORESOURCE_IO) &&
     (pci_resource_len dev i =? 8) &&
     ((first_port =? -1) || (first_port + num_port =? i))
  then (num_port + 1, if first_port =? -1 then i else first_port)
  else (num_port, first_port).

(** Returns the return code and the board as the function leaves it. *)
Definition serial_pci_guess_board (dev : pci_dev) (board : pciserial_board)
    : Z * pciserial_board :=
  let rc := serial_pci_is_class_communication dev in
  if truthy rc then (rc, board)
  else if Z.shiftr (dev_class dev) 8 =? PCI_CLASS_COMMUNICATION_MULTISERIAL
  then (- ENODEV, board)
  else
    let '(num_iomem, num_port, first_port) :=
      fold_left (guess_count dev) bars (0, 0, -1) in
    if (num_iomem <=? 1) && (num_port =? 1) then
      (0, {| flags := to_uint first_port;
             num_ports := to_uint (pci_resource_len dev first_port / 8);
             base_baud := base_baud board;
             uart_offset := uart_offset board;
             reg_shift := reg_shift board;
             first_offset := first_offset board |})
    else
      let '(num_port, first_port) := fold_left (guess_run dev) bars (0, -1) in
      if 1 <? num_port then
        (0, {| flags := to_uint (Z.lor first_port FL_BASE_BARS);
               num_ports := to_uint num_port;
               base_baud := base_baud board;
               uart_offset := uart_offset board;
               reg_shift := reg_shift board;
               first_offset := first_offset board |})
      else (- ENODEV, board).

Definition serial_pci_matches (board guessed : pciserial_board) : bool :=
  (num_ports board =? num_ports guessed) &&
  (base_baud board =? base_baud guessed) &&
  (uart_offset board =? uart_offset guessed) &&
  (reg_shift board =? reg_shift guessed) &&
  (first_offset board =? first_offset guessed).

(** ** Port lifecycle *)

(** [sizeof(struct serial_private)] on LP64: three pointers and an unsigned
    int, padded; the [line] array follows. *)
Definition sizeof_serial_private : Z := 32.

Definition MAX_ERRNO : Z := 4095.

(** [IS_ERR(ERR_PTR(rc))] *)
Definition IS_ERR_VALUE (rc : Z) : bool := (- MAX_ERRNO <=? rc) && (rc <? 0).

Section Lifecycle.

Variable K : kernel.

(** The table [find_quirk] scans; the driver's own is [pci_serial_quirks]. *)
Variable quirks : list pci_serial_quirk.

(** [priv->line[i]] *)
Definition line_at (priv : serial_private) (i : Z) : M Z :=
  match line priv !! Z.to_nat i with
  | Some l => ret l
  | None => undefined
  end.

Definition set_line (priv : serial_private) (i l : Z) : serial_private :=
  {| priv_addr := priv_addr priv; dev := dev priv; nr := nr priv;
     quirk := quirk priv; board := board priv;
     line := <[Z.to_nat i := l]> (line priv) |}.

(** The attach loop of [addi_pciserial_init_ports], [n] iterations left at
    index [i]; returns the index the loop stops at and the session. *)
Fixpoint attach_loop (n : nat) (i : Z) (quirk : pci_serial_quirk)
    (board : pciserial_board) (priv : serial_private) (uart : uart_8250_port)
    : M (Z * serial_private) :=
  match n with
  | O => ret (i, priv)
  | S n' =>
      r <- call_setup K (setup quirk) priv board uart i ;;
      let uart := snd r in
      if truthy (fst r) then ret (i, priv)
      else
        l <- extern K (serial8250_register_8250_port uart) ;;
        let priv := set_line priv i l in
        if l <? 0 then
          notify dev_err ;;; ret (i, priv)
        else attach_loop n' (i + 1) quirk board priv uart
  end.

(** The session right after [kzalloc] and the stores of [dev] and [quirk]:
    zeroed [nr] and [line].  [priv->board] is stored after the loop, and
    nothing reads it before that. *)
Definition new_priv (p : Z) (dev : pci_dev) (quirk : pci_serial_quirk)
    (board : board_ptr) (nr_ports : Z) : serial_private :=
  {| priv_addr := p; dev := dev; nr := 0; quirk := quirk; board := board;
     line := replicate (Z.to_nat nr_ports) 0 |}.

(** [uart] after the [memset] and the four stores before the loop. *)
Definition new_uart (dev : pci_dev) (board : pciserial_board)
    : uart_8250_port :=
  {| iotype := UPIO_PORT; iobase := 0; mapbase := 0; membase := 0;
     regshift := 0;
     uart_flags := Z.lor (Z.lor UPF_SKIP_TEST UPF_BOOT_AUTOCONF) UPF_SHARE_IRQ;
     uartclk := to_uint (base_baud board * 16);
     uart_irq := to_uint (get_pci_irq dev board) |}.

(** [addi_pciserial_init_ports] from the allocation on; [inl rc] is
    [ERR_PTR(rc)].  The size is computed in size_t, and a result of
    [kzalloc] other than NULL is the address of a block of that size.  With
    a negative [nr_ports] that leaves less than the header (-8 to -1), the
    stores of [dev], [quirk], [nr] and [board] into the block reach beyond
    it. *)
Definition init_ports_alloc (dev : pci_dev) (board : board_ptr)
    (quirk : pci_serial_quirk) (nr_ports : Z) : M (Z + serial_private) :=
  p <- extern K (kzalloc (to_u64 (sizeof_serial_private + 4 * nr_ports))) ;;
  if p =? 0 then
    (* err_deinit *)
    call_hook (exit quirk) quirk_exit ;;;
    ret (inl (- ENOMEM))
  else if (nr_ports <? 0) &&
          (to_u64 (sizeof_serial_private + 4 * nr_ports)
           <? sizeof_serial_private) then
    undefined
  else
    r <- attach_loop (Z.to_nat nr_ports) 0 quirk board
           (new_priv p dev quirk board nr_ports) (new_uart dev board) ;;
    let priv := snd r in
    ret (inr {| priv_addr := priv_addr priv; dev := dev;
                nr := fst r; quirk := quirk; board := board;
                line := line priv |}).

Definition addi_pciserial_init_ports (dev : pci_dev)
    (board : board_ptr) : M (Z + serial_private) :=
  let nr_ports := to_int (num_ports board) in
  quirk <- find_quirk quirks dev ;;
  match init quirk with
  | Some h =>
      rc <- extern K (quirk_init h) ;;
      if rc <? 0 then ret (inl rc)      (* goto err_out *)
      else init_ports_alloc dev board quirk
             (if truthy rc then rc else nr_ports)
  | None => init_ports_alloc dev board quirk nr_ports
  end.

Definition pciserial_detach_ports (priv : serial_private) : M unit :=
  for_loop (Z.to_nat (nr priv)) 0
    (fun i => l <- line_at priv i ;;
              notify (serial8250_unregister_port l)) ;;;
  quirk <- find_quirk quirks (dev priv) ;;
  call_hook (exit quirk) quirk_exit.

Definition addi_pciserial_remove_ports (priv : serial_private) : M unit :=
  pciserial_detach_ports priv ;;;
  notify (kfree (priv_addr priv)).

Definition addi_pciserial_suspend_ports (priv : serial_private) : M unit :=
  for_loop (Z.to_nat (nr priv)) 0
    (fun i => l <- line_at priv i ;;
              if 0 <=? l then notify (serial8250_suspend_port l)
              else ret tt) ;;;
  call_hook (exit (quirk priv)) quirk_exit.

Definition addi_pciserial_resume_ports (priv : serial_private) : M unit :=
  match init (quirk priv) with
  | Some h => extern K (quirk_init h) ;;; ret tt
  | None => ret tt
  end ;;;
  for_loop (Z.to_nat (nr priv)) 0
    (fun i => l <- line_at priv i ;;
              if 0 <=? l then notify (serial8250_resume_port l)
              else ret tt).

(** [moan_device] only prints. *)
Definition moan_device : M unit := notify dev_err.

(** The end of [pciserial_init_one], from the call of
    [addi_pciserial_init_ports] on.  An [ERR_PTR(rc)] that [IS_ERR] does not
    recognise (an init hook's [rc] below [-MAX_ERRNO]) is stored like a
    session. *)
Definition init_one_attach (dev : pci_dev) (board : board_ptr) : M Z :=
  priv <- addi_pciserial_init_ports dev board ;;
  match priv with
  | inl rc =>
      if IS_ERR_VALUE rc then ret rc
      else pci_set_drvdata (err_ptr rc) ;;; ret 0
  | inr priv => pci_set_drvdata (session priv) ;;; ret 0
  end.

(** Probe one serial board; [driver_data] is [ent->driver_data], an
    unsigned long. *)
Definition pciserial_init_one (dev : pci_dev) (driver_data : Z) : M Z :=
  quirk <- find_quirk quirks dev ;;
  rc <- match probe quirk with
        | Some h => extern K (quirk_probe h)
        | None => ret 0
        end ;;
  if truthy rc then ret rc
  else if Z.of_nat (length pci_boards) <=? driver_data then
    notify dev_err ;;; ret (- EINVAL)
  else
    match pci_boards !! Z.to_nat driver_data,
          pci_boards !! Z.to_nat pbn_default with
    | Some board, Some dflt =>
        rc <- extern K pcim_enable_device ;;
        notify pci_save_state ;;;
        if truthy rc then ret rc
        else if driver_data =? pbn_default then
          (* tmp, a copy of the entry, is filled in by the heuristic;
             board = &tmp *)
          let g := serial_pci_guess_board dev board in
          if truthy (fst g) then ret (fst g)
          else init_one_attach dev (tmp_board (snd g))
        else
          (* tmp is a copy of the default entry and is dropped;
             board = &pci_boards[driver_data] *)
          let g := serial_pci_guess_board dev dflt in
          (if (fst g =? 0) && serial_pci_matches board (snd g)
           then moan_device else ret tt) ;;;
          init_one_attach dev (static_board board)
    | _, _ => undefined
    end.

(** The [resume] member of the PCI error handlers.  [priv->board] is read
    through: a pointer to the [tmp] of the probe dangles by now, and so does
    the board of a driver data that is no session. *)
Definition serial8250_io_resume (dev : pci_dev) : M unit :=
  priv <- pci_get_drvdata ;;
  match priv with
  | None => ret tt
  | Some (err_ptr _) => undefined
  | Some (session priv) =>
      if in_frame (board priv) then undefined
      else
        new <- addi_pciserial_init_ports dev (board priv) ;;
        match new with
        | inl rc =>
            if IS_ERR_VALUE rc then ret tt
            else
              pci_set_drvdata (err_ptr rc) ;;;
              notify (kfree (priv_addr priv))
        | inr new =>
            pci_set_drvdata (session new) ;;;
            notify (kfree (priv_addr priv))
        end
  end.

End Lifecycle.

(** ** Bus callbacks

    The callbacks the driver registers with the PCI core for removal, power
    management and error recovery.  [pci_disable_device], [pci_enable_device]
    and [pci_restore_state] are calls into the PCI core that are not among
    the logged ones; they are taken as they come, as state transformers. *)

Inductive pci_channel_state_t : Type :=
| pci_channel_io_normal
| pci_channel_io_frozen
| pci_channel_io_perm_failure.

(** The three results the error handlers return. *)
Inductive pci_ers_result_t : Type :=
| PCI_ERS_RESULT_NEED_RESET
| PCI_ERS_RESULT_DISCONNECT
| PCI_ERS_RESULT_RECOVERED.

Section Callbacks.

Variable K : kernel.
Variable quirks : list pci_serial_quirk.
Variable pci_disable_device : M unit.
Variable pci_enable_device : M Z.
Variable pci_restore_state : M unit.

(** [priv] is used without a NULL check. *)
Definition pciserial_remove_one : M unit :=
  priv <- pci_get_drvdata ;;
  match priv with
  | Some (session priv) => addi_pciserial_remove_ports quirks priv
  | Some (err_ptr _) | None => undefined
  end.



Definition serial8250_io_error_detected (state : pci_channel_state_t)
    : M pci_ers_result_t :=
  priv <- pci_get_drvdata ;;
  match state with
  | pci_channel_io_perm_failure => ret PCI_ERS_RESULT_DISCONNECT
  | _ =>
      match priv with
      | Some (session priv) => pciserial_detach_ports quirks priv
      | Some (err_ptr _) => undefined
      | None => ret tt
      end ;;;
      pci_disable_device ;;;
      ret PCI_ERS_RESULT_NEED_RESET
  end.

Definition serial8250_io_slot_reset : M pci_ers_result_t :=
  rc <- pci_enable_device ;;
  if truthy rc then ret PCI_ERS_RESULT_DISCONNECT
  else
    pci_restore_state ;;;
    notify pci_save_state ;;;
    ret PCI_ERS_RESULT_RECOVERED.

End Callbacks.

(** ** The device table

    [serial_pci_tbl] without its closing zero entry; the identifiers are
    those of <linux/pci_ids.h>. *)

Definition PCI_VENDOR_ID_ADDIDATA : Z := 0x15b8.
Definition PCI_DEVICE_ID_ADDIDATA_APCI7500 : Z := 0x7000.
Definition PCI_DEVICE_ID_ADDIDATA_APCI7420 : Z := 0x7001.
Definition PCI_DEVICE_ID_ADDIDATA_APCI7300 : Z := 0x7002.
Definition PCI_DEVICE_ID_ADDIDATA_APCI7500_2 : Z := 0x7009.
Definition PCI_DEVICE_ID_ADDIDATA_APCI7420_2 : Z := 0x700a.
Definition PCI_DEVICE_ID_ADDIDATA_APCI7300_2 : Z := 0x700b.
Definition PCI_DEVICE_ID_ADDIDATA_APCI7500_3 : Z := 0x700c.
Definition PCI_DEVICE_ID_ADDIDATA_APCI7420_3 : Z := 0x700d.
Definition PCI_DEVICE_ID_ADDIDATA_APCI7300_3 : Z := 0x700e.
Definition PCI_DEVICE_ID_ADDIDATA_APCI7800_3 : Z := 0x700f.
Definition PCI_DEVICE_ID_ADDIDATA_APCIe7300 : Z := 0x7010.
Definition PCI_DEVICE_ID_ADDIDATA_APCIe7420 : Z := 0x7011.
Definition PCI_DEVICE_ID_ADDIDATA_APCIe7500 : Z := 0x7012.
Definition PCI_DEVICE_ID_ADDIDATA_APCIe7800 : Z := 0x7013.
Definition PCI_VENDOR_ID_NETMOS : Z := 0x9710.
Definition PCI_DEVICE_ID_NETMOS_9835 : Z := 0x9835.
Definition PCI_VENDOR_ID_IBM : Z := 0x1014.

(** The values of [enum pci_board_num_t] the table uses. *)
Definition pbn_b0_1_115200 : Z := 1.
Definition pbn_b0_2_115200 : Z := 2.
Definition pbn_b0_4_115200 : Z := 3.
Definition pbn_b0_8_115200 : Z := 5.
Definition pbn_b0_bt_2_115200 : Z := 16.
Definition pbn_b1_8_115200 : Z := 26.
Definition pbn_ADDIDATA_PCIe_1_3906250 : Z := 27.
Definition pbn_ADDIDATA_PCIe_2_3906250 : Z := 28.
Definition pbn_ADDIDATA_PCIe_4_3906250 : Z := 29.
Definition pbn_ADDIDATA_PCIe_8_3906250 : Z := 30.

(** The members of [struct pci_device_id] the table sets to non-zero
    values. *)
Record pci_device_id : Type := {
  id_vendor : Z;
  id_device : Z;
  id_subvendor : Z;
  id_subdevice : Z;
  driver_data : Z
}.

Definition tbl_entry (v d sv sd data : Z) : pci_device_id :=
  {| id_vendor := v; id_device := d; id_subvendor := sv; id_subdevice := sd;
     driver_data := data |}.

Definition serial_pci_tbl : list pci_device_id :=
  [ tbl_entry PCI_VENDOR_ID_ADDIDATA PCI_DEVICE_ID_ADDIDATA_APCI7500
      PCI_ANY_ID PCI_ANY_ID pbn_b0_4_115200;
    tbl_entry PCI_VENDOR_ID_ADDIDATA PCI_DEVICE_ID_AMCC_ADDIDATA_APCI7500_d3
      PCI_ANY_ID PCI_ANY_ID pbn_b0_4_115200;
    tbl_entry PCI_VENDOR_ID_ADDIDATA PCI_DEVICE_ID_ADDIDATA_APCI7420
      PCI_ANY_ID PCI_ANY_ID pbn_b0_2_115200;
    tbl_entry PCI_VENDOR_ID_ADDIDATA PCI_DEVICE_ID_ADDIDATA_APCI7300
      PCI_ANY_ID PCI_ANY_ID pbn_b0_1_115200;
    tbl_entry PCI_VENDOR_ID_AMCC PCI_DEVICE_ID_AMCC_ADDIDATA_APCI7800
      PCI_ANY_ID PCI_ANY_ID pbn_b1_8_115200;
    tbl_entry PCI_VENDOR_ID_ADDIDATA PCI_DEVICE_ID_ADDIDATA_APCI7500_2
      PCI_ANY_ID PCI_ANY_ID pbn_b0_4_115200;
    tbl_entry PCI_VENDOR_ID_ADDIDATA PCI_DEVICE_ID_ADDIDATA_APCI7420_2
      PCI_ANY_ID PCI_ANY_ID pbn_b0_2_115200;
    tbl_entry PCI_VENDOR_ID_ADDIDATA PCI_DEVICE_ID_ADDIDATA_APCI7300_2
      PCI_ANY_ID PCI_ANY_ID pbn_b0_1_115200;
    tbl_entry PCI_VENDOR_ID_ADDIDATA PCI_DEVICE_ID_ADDIDATA_APCI7500_3
      PCI_ANY_ID PCI_ANY_ID pbn_b0_4_115200;
    tbl_entry PCI_VENDOR_ID_ADDIDATA PCI_DEVICE_ID_ADDIDATA_APCI7420_3
      PCI_ANY_ID PCI_ANY_ID pbn_b0_2_115200;
    tbl_entry PCI_VENDOR_ID_ADDIDATA PCI_DEVICE_ID_ADDIDATA_APCI7300_3
      PCI_ANY_ID PCI_ANY_ID pbn_b0_1_115200;
    tbl_entry PCI_VENDOR_ID_ADDIDATA PCI_DEVICE_ID_ADDIDATA_APCI7800_3
      PCI_ANY_ID PCI_ANY_ID pbn_b0_8_115200;
    tbl_entry PCI_VENDOR_ID_ADDIDATA PCI_DEVICE_ID_ADDIDATA_APCIe7500
      PCI_ANY_ID PCI_ANY_ID pbn_ADDIDATA_PCIe_4_3906250;
    tbl_entry PCI_VENDOR_ID_ADDIDATA PCI_DEVICE_ID_ADDIDATA_APCIe7420
      PCI_ANY_ID PCI_ANY_ID pbn_ADDIDATA_PCIe_2_3906250;
    tbl_entry PCI_VENDOR_ID_ADDIDATA PCI_DEVICE_ID_ADDIDATA_APCIe7300
      PCI_ANY_ID PCI_ANY_ID pbn_ADDIDATA_PCIe_1_3906250;
    tbl_entry PCI_VENDOR_ID_ADDIDATA PCI_DEVICE_ID_ADDIDATA_APCIe7800
      PCI_ANY_ID PCI_ANY_ID pbn_ADDIDATA_PCIe_8_3906250;
    tbl_entry PCI_VENDOR_ID_NETMOS PCI_DEVICE_ID_NETMOS_9835
      PCI_VENDOR_ID_IBM 0x0299 pbn_b0_bt_2_115200 ].

(** * Vocabulary of the statements *)

(** The mapping of [bar] is refused when [pcim_iomap] returns NULL and there
    is no iomap table either. *)
Definition map_refused (K : kernel) (w : world) (bar : Z) : bool :=
  (K (log w) (pcim_iomap bar) =? 0) &&
  (K (log w ++ [(pcim_iomap bar, 0)]) pcim_iomap_table =? 0).

(** What [setup_port] returns for a BAR and the state it is called in. *)
Definition setup_port_rc (K : kernel) (priv : serial_private) (w : world)
    (bar : Z) : Z :=
  if PCI_NUM_BAR_RESOURCES <=? bar then - EINVAL
  else if truthy (Z.land (pci_resource_flags (dev priv) bar) IORESOURCE_MEM)
          && map_refused K w bar
  then - ENOMEM
  else 0.

(** The BAR-indexed bit of a board. *)
Definition bar_indexed (board : pciserial_board) : bool :=
  truthy (Z.land (flags board) FL_BASE_BARS).

(** The capacity-capped bit of a board. *)
Definition capped (board : pciserial_board) : bool :=
  truthy (Z.land (flags board) FL_REGION_SZ_CAP).

(** The matching rule, field by field. *)
Definition id_ok (quirk_id dev_id : Z) : Prop :=
  quirk_id = PCI_ANY_ID \/ quirk_id = dev_id.

(** An entry whose four fields are the wildcard. *)
Definition is_terminator (quirk : pci_serial_quirk) : Prop :=
  vendor quirk = PCI_ANY_ID /\ device quirk = PCI_ANY_ID /\
  subvendor quirk = PCI_ANY_ID /\ subdevice quirk = PCI_ANY_ID.

Definition is_io (dev : pci_dev) (i : Z) : bool :=
  truthy (Z.land (pci_resource_flags dev i) IORESOURCE_IO).

Definition is_mem (dev : pci_dev) (i : Z) : bool :=
  truthy (Z.land (pci_resource_flags dev i) IORESOURCE_MEM).

(** The I/O regions and the memory regions among the six BARs. *)
Definition io_regions (dev : pci_dev) : list Z := List.filter (is_io dev) bars.
Definition mem_regions (dev : pci_dev) : list Z := List.filter (is_mem dev) bars.

(** [line[0 .. nr-1]], the handles of the attached ports in attachment
    order. *)
Definition attached_lines (priv : serial_private) : list Z :=
  take (Z.to_nat (nr priv)) (line priv).

(** The events of calling [c] on every non-negative line of [ls]. *)
Definition port_events (c : Z -> call) (ls : list Z) : list event :=
  map (fun l => (c l, 0)) (List.filter (Z.leb 0) ls).

(** The events of calling an optional void hook. *)
Definition hook_events (h : option hook) (c : hook -> call) : list event :=
  match h with
  | Some f => [(c f, 0)]
  | None => []
  end.

(** The events of the init hook in [addi_pciserial_resume_ports]. *)
Definition resume_init_events (K : kernel) (priv : serial_private)
    (w : world) : list event :=
  match init (quirk priv) with
  | Some h => [(quirk_init h, K (log w) (quirk_init h))]
  | None => []
  end.

(** The invariant of a session: [nr] slots of [line] are in use and hold
    non-negative lines. *)
Definition session_ok (priv : serial_private) : Prop :=
  0 <= nr priv /\
  (Z.to_nat (nr priv) <= length (line priv))%nat /\
  forall i, 0 <= i < nr priv ->
    exists l, line priv !! Z.to_nat i = Some l /\ 0 <= l.

(** The size passed to [kzalloc]. *)
Definition alloc_size (nr_ports : Z) : Z :=
  to_u64 (sizeof_serial_private + 4 * nr_ports).

(** The nominal port count and the world once the init hook, if any, has
    returned without error. *)
Definition init_outcome (K : kernel) (q : pci_serial_quirk)
    (b : pciserial_board) (w : world) : Z * world :=
  match init q with
  | Some h =>
      let rc := K (log w) (quirk_init h) in
      (if truthy rc then rc else to_int (num_ports b),
       emit w [(quirk_init h, rc)])
  | None => (to_int (num_ports b), w)
  end.

(** No event of [evs] is a port registration. *)
Definition no_registration (evs : list event) : Prop :=
  forall uart l, ~ In (serial8250_register_8250_port uart, l) evs.

(** The world of [pciserial_init_one] once the probe hook, if any, has
    returned. *)
Definition after_probe (K : kernel) (q : pci_serial_quirk) (w : world)
    : world :=
  match probe q with
  | Some h => emit w [(quirk_probe h, K (log w) (quirk_probe h))]
  | None => w
  end.

(** The line a registration event handed out, if it did. *)
Definition registered_line (e : event) : option Z :=
  match e with
  | (serial8250_register_8250_port _, l) => if 0 <=? l then Some l else None
  | _ => None
  end.

(** The lines handed out by the registrations among [evs], in order. *)
Definition registered (evs : list event) : list Z := omap registered_line evs.

(** The events of [pciserial_detach_ports] for a session whose device
    matches quirk [q]: every attached line is unregistered, then the exit
    hook of [q] is called. *)
Definition detach_events (q : pci_serial_quirk) (priv : serial_private)
    : list event :=
  map (fun l => (serial8250_unregister_port l, 0)) (attached_lines priv)
  ++ hook_events (exit q) quirk_exit.

(** BAR [i] is an I/O region of exactly 8 bytes. *)
Definition qualifies (d : pci_dev) (i : Z) : bool :=
  is_io d i && (pci_resource_len d i =? 8).

(** Every BAR of [from .. from + n - 1] qualifies. *)
Definition run_of (d : pci_dev) (from n : Z) : Prop :=
  forall i, from <= i < from + n -> qualifies d i = true.

(** The device passes the class gate and is not multiport. *)
Definition guessable_class (d : pci_dev) : Prop :=
  (Z.shiftr (dev_class d) 8 = PCI_CLASS_COMMUNICATION_SERIAL \/
   Z.shiftr (dev_class d) 8 = PCI_CLASS_COMMUNICATION_MODEM) /\
  Z.land (dev_class d) 0xff <= 6.

(** The condition of phase 1. *)
Definition packed_layout (d : pci_dev) : Prop :=
  (length (mem_regions d) <= 1)%nat /\ length (io_regions d) = 1%nat.

(** The board with [flags] and [num_ports] replaced. *)
Definition guessed (b : pciserial_board) (f n : Z) : pciserial_board :=
  {| flags := f; num_ports := n; base_baud := base_baud b;
     uart_offset := uart_offset b; reg_shift := reg_shift b;
     first_offset := first_offset b |}.

(** A port as the attach loop hands it to the 8250 core for device [d] and
    board [b]: flags, clock and interrupt are those stored before the loop,
    and the address fields of the other I/O type are cleared. *)
Definition port_of (d : pci_dev) (b : pciserial_board) (u : uart_8250_port)
    : Prop :=
  uart_flags u = Z.lor (Z.lor UPF_SKIP_TEST UPF_BOOT_AUTOCONF) UPF_SHARE_IRQ /\
  uartclk u = to_uint (base_baud b * 16) /\
  uart_irq u = to_uint (get_pci_irq d b) /\
  match iotype u with
  | UPIO_PORT => mapbase u = 0 /\ membase u = 0 /\ regshift u = 0
  | UPIO_MEM => iobase u = 0 /\ regshift u = to_u8 (to_int (reg_shift b))
  end.

(** Every port registration among [evs] is of a port that satisfies [P]. *)
Definition registrations (P : uart_8250_port -> Prop) (evs : list event)
    : Prop :=
  forall u l, In (serial8250_register_8250_port u, l) evs -> P u.

(** The steps of the attach loop for a quirk [q] and a board [b]. *)

Section AttachSteps.

Variable K : kernel.
Variable q : pci_serial_quirk.
Variable b : pciserial_board.

(** Iteration [i] attaches a port: [setup] answers 0 and the registration
    returns a non-negative line, stored in [line[i]]. *)
Definition attaches (i : Z) (priv : serial_private) (uart : uart_8250_port)
    (w : world) (priv' : serial_private) (uart' : uart_8250_port)
    (w' : world) : Prop :=
  exists w1,
    call_setup K (setup q) priv b uart i w = Some ((0, uart'), w1) /\
    let l := K (log w1) (serial8250_register_8250_port uart') in
    0 <= l /\ priv' = set_line priv i l /\
    w' = emit w1 [(serial8250_register_8250_port uart', l)].

(** Iteration [i] fails: [setup] answers non-zero ("not present" or an
    error), or it answers 0 and the registration returns a negative value.
    [w'] is the world right after the failing call (and its [dev_err]). *)
Definition fails_at (i : Z) (priv : serial_private) (uart : uart_8250_port)
    (w : world) (priv' : serial_private) (w' : world) : Prop :=
  (exists rc uart',
     call_setup K (setup q) priv b uart i w = Some ((rc, uart'), w') /\
     rc <> 0 /\ priv' = priv) \/
  (exists uart' w1,
     call_setup K (setup q) priv b uart i w = Some ((0, uart'), w1) /\
     let l := K (log w1) (serial8250_register_8250_port uart') in
     l < 0 /\ priv' = set_line priv i l /\
     w' = emit w1 [(serial8250_register_8250_port uart', l); (dev_err, 0)]).

(** Ports [i .. k-1] attach one after the other. *)
Inductive attached_to :
    Z -> serial_private -> uart_8250_port -> world ->
    Z -> serial_private -> uart_8250_port -> world -> Prop :=
| attached_none i priv uart w :
    attached_to i priv uart w i priv uart w
| attached_next i priv uart w priv1 uart1 w1 k priv2 uart2 w2 :
    attaches i priv uart w priv1 uart1 w1 ->
    attached_to (i + 1) priv1 uart1 w1 k priv2 uart2 w2 ->
    attached_to i priv uart w k priv2 uart2 w2.

End AttachSteps.

(** * Sample devices, boards, sessions and kernels *)

(** A card with one 64-byte region in BAR 0 and nothing else. *)
Definition one_region (f : Z) : Z -> resource :=
  fun i => if i =? 0 then {| res_start := 0xd000; res_len := 64; res_flags := f |}
           else {| res_start := 0; res_len := 0; res_flags := 0 |}.

Definition sample_dev (class f : Z) : pci_dev :=
  {| dev_vendor := 0x15b8; dev_device := 0x7010;
     dev_subsystem_vendor := 0x15b8; dev_subsystem_device := 0x7010;
     dev_class := class; dev_irq := 11;
     dev_resource := one_region f |}.

(** A capacity-capped board with its ports packed into BAR 0. *)
Definition capped_board : pciserial_board :=
  board_entry (Z.lor FL_BASE0 FL_REGION_SZ_CAP) 16 115200 8 0.

Definition default_quirk : pci_serial_quirk :=
  {| vendor := PCI_ANY_ID; device := PCI_ANY_ID; subvendor := PCI_ANY_ID;
     subdevice := PCI_ANY_ID; probe := None; init := None;
     setup := SETUP_pci_default; exit := None |}.

Definition sample_priv (d : pci_dev) (b : pciserial_board) : serial_private :=
  {| priv_addr := 0x1000; dev := d; nr := 0; quirk := default_quirk;
     board := static_board b; line := replicate (Z.to_nat (num_ports b)) 0 |}.

Definition blank_port : uart_8250_port :=
  {| iotype := UPIO_PORT; iobase := 0; mapbase := 0; membase := 0;
     regshift := 0; uart_flags := 0; uartclk := 0; uart_irq := 0 |}.

Definition fresh : world := {| log := []; drvdata := None |}.

(** A kernel in which every allocation and mapping fails. *)
Definition failing_kernel : kernel := fun _ _ => 0.

(** A quirk that matches everything and has an init (hook 1) and an exit
    (hook 2), and the table made of it. *)
Definition hooked_quirk : pci_serial_quirk :=
  {| vendor := PCI_ANY_ID; device := PCI_ANY_ID; subvendor := PCI_ANY_ID;
     subdevice := PCI_ANY_ID; probe := None; init := Some 1%nat;
     setup := SETUP_pci_default; exit := Some 2%nat |}.

Definition hooked_quirks : list pci_serial_quirk := [hooked_quirk].

(** A kernel in which every init hook fails with -EIO; allocations succeed
    and registrations hand out line 0. *)
Definition init_failing_kernel : kernel :=
  fun _ c => match c with
             | quirk_init _ => -5
             | kzalloc _ => 0x1000
             | _ => 0
             end.

(** The four-port board [pbn_b0_4_115200]. *)
Definition four_ports : pciserial_board := board_entry FL_BASE0 4 115200 8 0.

(** A kernel that allocates, hands out lines 0 and 1 and refuses every later
    registration with -ENOSPC. *)
Definition two_lines_kernel : kernel :=
  fun hist c =>
    match c with
    | kzalloc _ => 0x1000
    | serial8250_register_8250_port _ =>
        if (length hist <? 3)%nat then Z.of_nat (length hist) - 1 else -28
    | _ => 0
    end.

(** A kernel that allocates and refuses every registration. *)
Definition no_line_kernel : kernel :=
  fun _ c => match c with
             | kzalloc _ => 0x1000
             | serial8250_register_8250_port _ => -28
             | _ => 0
             end.

(** A session with two attached ports on lines 3 and 4 and two unused
    slots. *)
Definition two_port_session : serial_private :=
  {| priv_addr := 0x1000; dev := sample_dev 0x070002 IORESOURCE_IO; nr := 2;
     quirk := hooked_quirk; board := static_board four_ports;
     line := [3; 4; 0; 0] |}.

(** A card whose BARs listed in [io8] are 8-byte I/O regions and whose other
    BARs are empty. *)
Definition io8_dev (class : Z) (io8 : list Z) : pci_dev :=
  {| dev_vendor := 0x9710; dev_device := 0x9835;
     dev_subsystem_vendor := 0x1014; dev_subsystem_device := 0x0299;
     dev_class := class; dev_irq := 5;
     dev_resource := fun i =>
       if bool_decide (i ∈ io8)
       then {| res_start := 0xe000 + 0x10 * i; res_len := 8;
               res_flags := IORESOURCE_IO |}
       else {| res_start := 0; res_len := 0; res_flags := 0 |} |}.

(** A kernel that allocates at 0x1000, maps every memory BAR at
    0xffffc90000000000 plus 0x1000 per BAR and numbers the lines by the
    count of the registrations so far. *)
Definition obliging_kernel : kernel :=
  fun hist c =>
    match c with
    | kzalloc _ => 0x1000
    | pcim_iomap bar | pcim_iomap_table_at bar =>
        0xffffc90000000000 + 0x1000 * bar
    | pcim_iomap_table => 0xffff888000000000
    | serial8250_register_8250_port _ =>
        Z.of_nat (length (omap (fun e => match fst e with
                                         | serial8250_register_8250_port _ =>
                                             Some tt
                                         | _ => None
                                         end) hist))
    | _ => 0
    end.

(** A kernel in which [pcim_iomap] returns NULL although the iomap table
    exists and holds a mapping for every BAR. *)
Definition remapping_kernel : kernel :=
  fun _ c =>
    match c with
    | pcim_iomap _ => 0
    | pcim_iomap_table => 0xffff888000000000
    | pcim_iomap_table_at bar => 0xffffc90000000000 + 0x1000 * bar
    | _ => 0
    end.

(** A kernel like [obliging_kernel] whose init hooks announce two ports. *)
Definition announcing_kernel : kernel :=
  fun hist c => match c with
                | quirk_init _ => 2
                | _ => obliging_kernel hist c
                end.

(** A quirk that matches everything and has a probe hook (hook 3), the table
    made of it, and a kernel whose probe hooks answer -EACCES. *)
Definition guarded_quirk : pci_serial_quirk :=
  {| vendor := PCI_ANY_ID; device := PCI_ANY_ID; subvendor := PCI_ANY_ID;
     subdevice := PCI_ANY_ID; probe := Some 3%nat; init := None;
     setup := SETUP_pci_default; exit := None |}.

Definition guarded_quirks : list pci_serial_quirk := [guarded_quirk].

Definition vetoing_kernel : kernel :=
  fun _ c => match c with
             | quirk_probe _ => -13
             | _ => 0
             end.

(** A kernel like [obliging_kernel] in which the device cannot be enabled
    (-EIO). *)
Definition disabled_kernel : kernel :=
  fun hist c => match c with
                | pcim_enable_device => -5
                | _ => obliging_kernel hist c
                end.

(** A kernel like [obliging_kernel] whose init hooks answer -5000, below
    [-MAX_ERRNO]. *)
Definition wild_init_kernel : kernel :=
  fun hist c => match c with
                | quirk_init _ => -5000
                | _ => obliging_kernel hist c
                end.

(** * Properties *)

(** ** Integer conversions and flag fields *)

Lemma to_uint_small z : 0 <= z < 2 ^ 32 -> to_uint z = z.
Proof. intros H. unfold to_uint. apply Z.mod_small. lia. Qed.

Lemma to_int_small z : - 2 ^ 31 <= z < 2 ^ 31 -> to_int z = z.
Proof. intros H. unfold to_int. rewrite Z.mod_small; lia. Qed.

Lemma FL_GET_BASE_mod x : FL_GET_BASE x = x mod 8.
Proof.
  unfold FL_GET_BASE, FL_BASE_MASK.
  change 7 with (Z.ones 3). now rewrite Z.land_ones by lia.
Qed.

Lemma FL_GET_BASE_range x : 0 <= FL_GET_BASE x <= 7.
Proof.
  rewrite FL_GET_BASE_mod. pose proof (Z.mod_pos_bound x 8). lia.
Qed.

Lemma FL_GET_BASE_small x : 0 <= x <= 7 -> FL_GET_BASE x = x.
Proof.
  intros H. rewrite FL_GET_BASE_mod. apply Z.mod_small. lia.
Qed.

Lemma truthy_false z : truthy z = false <-> z = 0.
Proof. unfold truthy. destruct (Z.eqb_spec z 0); simpl; split; congruence. Qed.

Lemma truthy_true z : truthy z = true <-> z <> 0.
Proof. unfold truthy. destruct (Z.eqb_spec z 0); simpl; split; congruence. Qed.

(** ** The two-ports-per-BAR setup *)

(** C6.  For every port index [idx] in [0,8), [addidata_apci7800_setup]
    hands [setup_port] the BAR [base BAR + idx / 2] and the offset
    [first_offset + (idx mod 2) * uart_offset]; the offset is computed in
    unsigned int and is that very number whenever the sum fits an int. *)
Theorem addidata_apci7800_setup_target K priv board port idx :
  0 <= idx < 8 ->
  addidata_apci7800_setup K priv board port idx =
    setup_port K priv port
      (FL_GET_BASE (flags board) + idx / 2)
      (to_int (to_uint (first_offset board + idx mod 2 * uart_offset board)))
      (to_int (reg_shift board))
  /\ (0 <= first_offset board -> 0 <= uart_offset board ->
      first_offset board + uart_offset board < 2 ^ 31 ->
      to_int (to_uint (first_offset board + idx mod 2 * uart_offset board)) =
      first_offset board + idx mod 2 * uart_offset board).
Proof.
  intros Hidx.
  pose proof (FL_GET_BASE_range (flags board)) as Hb.
  assert (Hcase : idx = 0 \/ idx = 1 \/ idx = 2 \/ idx = 3 \/ idx = 4 \/
                  idx = 5 \/ idx = 6 \/ idx = 7) by lia.
  split.
  - unfold addidata_apci7800_setup.
    destruct Hcase as [->|[->|[->|[->|[->|[->|[->| ->]]]]]]]; cbn -[to_uint to_int FL_GET_BASE Z.mul Z.add];
      rewrite ?to_uint_small by lia; rewrite ?(to_int_small (_ + _)) by lia;
      rewrite ?(to_int_small (FL_GET_BASE _)) by lia;
      rewrite ?Z.add_0_r; reflexivity.
  - intros Hf Hu Hsum.
    assert (Hm : idx mod 2 = 0 \/ idx mod 2 = 1)
      by (pose proof (Z.mod_pos_bound idx 2); lia).
    destruct Hm as [-> | ->];
      rewrite ?Z.mul_0_l, ?Z.mul_1_l, ?Z.add_0_r;
      rewrite to_uint_small by lia; rewrite to_int_small by lia; reflexivity.
Qed.

(** ** [setup_port] *)

Lemma setup_port_total K priv port bar offset shift w :
  exists port' w',
    setup_port K priv port bar offset shift w =
      Some ((setup_port_rc K priv w bar, port'), w') /\
    (setup_port_rc K priv w bar <> 0 -> port' = port) /\
    (setup_port_rc K priv w bar = 0 ->
       if truthy (Z.land (pci_resource_flags (dev priv) bar) IORESOURCE_MEM)
       then iotype port' = UPIO_MEM /\
            mapbase port' = to_u64 (pci_resource_start (dev priv) bar + offset) /\
            regshift port' = to_u8 shift
       else iotype port' = UPIO_PORT /\
            iobase port' = to_u64 (pci_resource_start (dev priv) bar + offset) /\
            regshift port' = 0 /\ w' = w).
Proof.
  unfold setup_port, setup_port_rc, map_refused.
  destruct (PCI_NUM_BAR_RESOURCES <=? bar).
  { eexists _, _. split; [reflexivity|]. split; [reflexivity|].
    unfold EINVAL. lia. }
  destruct (truthy (Z.land (pci_resource_flags (dev priv) bar) IORESOURCE_MEM)).
  2:{ eexists _, _. split; [reflexivity|]. split; [simpl; congruence|]. intros _.
      simpl. repeat split; reflexivity. }
  unfold bind, extern; simpl.
  destruct (K (log w) (pcim_iomap bar) =? 0) eqn:Hp; simpl.
  - destruct (K (log w ++ [(pcim_iomap bar, K (log w) (pcim_iomap bar))])
                pcim_iomap_table =? 0) eqn:Ht; simpl;
      apply Z.eqb_eq in Hp; rewrite Hp in Ht; rewrite Ht; simpl.
    + eexists _, _. split; [reflexivity|]. split; [reflexivity|].
      unfold ENOMEM. lia.
    + eexists _, _. split; [reflexivity|]. split; [simpl; congruence|]. intros _.
      simpl. repeat split; reflexivity.
  - eexists _, _. split; [reflexivity|]. split; [simpl; congruence|]. intros _.
    simpl. repeat split; reflexivity.
Qed.

Lemma setup_port_rc_zero K priv w bar :
  setup_port_rc K priv w bar = 0 <->
  bar < PCI_NUM_BAR_RESOURCES /\
  (truthy (Z.land (pci_resource_flags (dev priv) bar) IORESOURCE_MEM) = true ->
   map_refused K w bar = false).
Proof.
  unfold setup_port_rc, EINVAL, ENOMEM.
  destruct (Z.leb_spec PCI_NUM_BAR_RESOURCES bar).
  { split; [lia | intros [? _]; lia]. }
  destruct (truthy _), (map_refused K w bar); simpl; split;
    try lia; try (intros _; split; [lia | congruence]).
Qed.

(** ** The default setup *)

Lemma default_target_spec board idx :
  0 <= idx -> FL_GET_BASE (flags board) + idx < 2 ^ 31 ->
  default_target board idx =
    if bar_indexed board
    then (FL_GET_BASE (flags board) + idx, first_offset board)
    else (FL_GET_BASE (flags board),
          to_uint (first_offset board + idx * uart_offset board)).
Proof.
  intros Hidx Hbar. unfold default_target, bar_indexed.
  pose proof (FL_GET_BASE_range (flags board)).
  destruct (truthy _); [|reflexivity].
  rewrite to_uint_small by lia. reflexivity.
Qed.

(** Without wrap-around [maxnr] is the quotient the comment of
    [FL_REGION_SZ_CAP] describes. *)
Lemma default_maxnr_exact dev board bar :
  0 <= first_offset board <= pci_resource_len dev bar ->
  pci_resource_len dev bar < 2 ^ 32 ->
  0 <= reg_shift board < 2 ^ 32 - 3 ->
  default_maxnr dev board bar =
    (pci_resource_len dev bar - first_offset board) / 2 ^ (reg_shift board + 3).
Proof.
  intros Hf Hl Hs. unfold default_maxnr.
  rewrite (to_uint_small (reg_shift board + 3)) by lia.
  unfold to_u64. rewrite (Z.mod_small (_ - _)) by lia.
  rewrite Z.shiftr_div_pow2 by lia.
  assert (Hp : 0 < 2 ^ (reg_shift board + 3))
    by (apply Z.pow_pos_nonneg; lia).
  apply to_uint_small. split.
  - apply Z.div_pos; lia.
  - apply Z.div_lt_upper_bound; [lia|]. nia.
Qed.

(** C1 (amended).  For a port index [idx] whose BAR number fits an int,
    [pci_default_setup] targets BAR [base + idx] with the first-port offset
    on a BAR-indexed board and the base BAR with offset
    [first_offset + idx * uart_offset] (in unsigned int) otherwise.  On a
    capacity-capped board every index at or above [maxnr] is answered with 1
    ("not present") without touching anything.  Every other index is handed
    to [setup_port] at that target, and the answer is 0 with a window at the
    region start plus the offset exactly when the target BAR is below 6 and,
    for a memory region, the mapping is not refused. *)
Theorem pci_default_setup_resolution K priv board port idx w :
  0 <= idx -> FL_GET_BASE (flags board) + idx < 2 ^ 31 ->
  let bar := if bar_indexed board then FL_GET_BASE (flags board) + idx
             else FL_GET_BASE (flags board) in
  let offset := if bar_indexed board then first_offset board
                else to_uint (first_offset board + idx * uart_offset board) in
  let maxnr := default_maxnr (dev priv) board bar in
  let is_mem :=
    truthy (Z.land (pci_resource_flags (dev priv) bar) IORESOURCE_MEM) in
  (capped board = true -> maxnr <= idx ->
     pci_default_setup K priv board port idx w = Some ((1, port), w)) /\
  (capped board = false \/ idx < maxnr ->
     pci_default_setup K priv board port idx w =
       setup_port K priv port bar (to_int offset) (to_int (reg_shift board)) w
     /\
     exists port' w',
       pci_default_setup K priv board port idx w =
         Some ((setup_port_rc K priv w bar, port'), w') /\
       (setup_port_rc K priv w bar = 0 <->
          bar < PCI_NUM_BAR_RESOURCES /\
          (is_mem = true -> map_refused K w bar = false)) /\
       (setup_port_rc K priv w bar = 0 ->
          if is_mem
          then iotype port' = UPIO_MEM /\
               mapbase port' =
                 to_u64 (pci_resource_start (dev priv) bar + to_int offset)
          else iotype port' = UPIO_PORT /\
               iobase port' =
                 to_u64 (pci_resource_start (dev priv) bar + to_int offset))).
Proof.
  intros Hidx Hbar bar offset maxnr is_mem.
  pose proof (FL_GET_BASE_range (flags board)) as Hbase.
  assert (Ht : default_target board idx = (bar, offset)).
  { rewrite default_target_spec by assumption. subst bar offset.
    destruct (bar_indexed board); reflexivity. }
  assert (Hb : to_int bar = bar).
  { apply to_int_small. subst bar. destruct (bar_indexed board); lia. }
  assert (Hi : to_uint idx = idx) by (apply to_uint_small; lia).
  unfold pci_default_setup. rewrite Ht, Hi, Hb.
  fold maxnr. fold (capped board).
  split.
  - intros Hc Hm. rewrite Hc. simpl.
    destruct (Z.leb_spec maxnr idx); [reflexivity | lia].
  - intros Hc.
    assert (Hgo : capped board && (maxnr <=? idx) = false).
    { destruct Hc as [-> | Hlt]; [reflexivity|].
      destruct (Z.leb_spec maxnr idx); [lia|]. apply andb_false_r. }
    rewrite Hgo. split; [reflexivity|].
    destruct (setup_port_total K priv port bar (to_int offset)
                (to_int (reg_shift board)) w) as (port' & w' & Heq & _ & Hwin).
    exists port', w'. split; [exact Heq|]. split.
    + apply setup_port_rc_zero.
    + intros Hz. specialize (Hwin Hz). fold is_mem in Hwin.
      destruct is_mem; tauto.
Qed.

(** On the 64-byte I/O region the capped board has 8 ports: index 8 is not
    present, index 7 resolves to port 0xd000 + 56. *)
Lemma pci_default_setup_resolution_witness :
  let priv := sample_priv (sample_dev 0x070002 IORESOURCE_IO) capped_board in
  pci_default_setup failing_kernel priv capped_board blank_port 8 fresh =
    Some ((1, blank_port), fresh) /\
  exists port' w',
    pci_default_setup failing_kernel priv capped_board blank_port 7 fresh =
      Some ((0, port'), w') /\
    iotype port' = UPIO_PORT /\ iobase port' = 0xd000 + 56.
Proof.
  intros priv. split.
  - apply (pci_default_setup_resolution failing_kernel priv capped_board
             blank_port 8 fresh); [lia | by vm_compute | reflexivity | by vm_compute].
  - destruct (pci_default_setup_resolution failing_kernel priv capped_board
                blank_port 7 fresh) as [_ H]; [lia | by vm_compute |].
    destruct H as [_ (port' & w' & Heq & _ & Hwin)]; [right; by vm_compute|].
    exists port', w'. split; [exact Heq|].
    apply (Hwin eq_refl).
Defined.

(** C1 as stated fails: below [maxnr] the window is not always resolved.
    The capped board on a 64-byte memory region has [maxnr = 8], yet index 0
    is answered with -ENOMEM when the mapping is refused. *)
Lemma pci_default_setup_window_refuted :
  ~ (forall K priv board port idx w,
       0 <= idx -> capped board = true ->
       idx < default_maxnr (dev priv) board (fst (default_target board idx)) ->
       exists port' w',
         pci_default_setup K priv board port idx w = Some ((0, port'), w')).
Proof.
  intros H.
  destruct (H failing_kernel
              (sample_priv (sample_dev 0x070002 IORESOURCE_MEM) capped_board)
              capped_board blank_port 0 fresh) as (port' & w' & Heq);
    [lia | reflexivity | by vm_compute |].
  vm_compute in Heq. discriminate Heq.
Qed.

(** ** The quirk scan *)

Lemma quirk_id_matches_spec quirk_id dev_id :
  quirk_id_matches quirk_id dev_id = true <-> id_ok quirk_id dev_id.
Proof.
  unfold quirk_id_matches, id_ok.
  rewrite orb_true_iff, !Z.eqb_eq. reflexivity.
Qed.

Lemma quirk_matches_spec quirk dev :
  quirk_matches quirk dev = true <->
  id_ok (vendor quirk) (dev_vendor dev) /\
  id_ok (device quirk) (dev_device dev) /\
  id_ok (subvendor quirk) (dev_subsystem_vendor dev) /\
  id_ok (subdevice quirk) (dev_subsystem_device dev).
Proof.
  unfold quirk_matches.
  rewrite !andb_true_iff, !quirk_id_matches_spec. tauto.
Qed.

Lemma terminator_matches quirk dev :
  is_terminator quirk -> quirk_matches quirk dev = true.
Proof.
  intros (Hv & Hd & Hsv & Hsd). apply quirk_matches_spec.
  unfold id_ok. tauto.
Qed.

(** The scan returns the first matching entry of the table, if any. *)
Lemma scan_quirks_first table dev quirk :
  scan_quirks table dev = Some quirk <->
  exists pre post,
    table = pre ++ quirk :: post /\
    Forall (fun e => quirk_matches e dev = false) pre /\
    quirk_matches quirk dev = true.
Proof.
  induction table as [|e table IH]; simpl.
  - split; [discriminate|]. intros (pre & post & Heq & _).
    destruct pre; discriminate.
  - destruct (quirk_matches e dev) eqn:He.
    + split.
      * intros [= ->]. exists [], table. auto.
      * intros (pre & post & Heq & Hpre & Hq).
        destruct pre as [|e' pre]; simpl in Heq.
        -- congruence.
        -- injection Heq as -> ->. apply Forall_cons in Hpre as [Hpre _].
           congruence.
    + rewrite IH. split.
      * intros (pre & post & -> & Hpre & Hq).
        exists (e :: pre), post. split; [reflexivity|].
        split; [constructor; assumption | assumption].
      * intros (pre & post & Heq & Hpre & Hq).
        destruct pre as [|e' pre]; simpl in Heq.
        -- congruence.
        -- injection Heq as -> ->. apply Forall_cons in Hpre as [_ Hpre].
           eauto.
Qed.

(** A table closed by a terminator always yields an entry. *)
Lemma scan_quirks_terminated table stop dev :
  is_terminator stop -> is_Some (scan_quirks (table ++ [stop]) dev).
Proof.
  intros Hstop. induction table as [|e table IH]; simpl.
  - rewrite (terminator_matches stop dev Hstop). eauto.
  - destruct (quirk_matches e dev); eauto.
Qed.

(** C2.  For every device identity, [find_quirk] over [pci_serial_quirks]
    returns an entry and never fails: the first entry in table order whose
    four fields are each the wildcard or equal to the identity's field; the
    last entry of the table is the all-wildcard terminator. *)
Theorem find_quirk_first_match dev w :
  exists quirk pre post stop,
    find_quirk pci_serial_quirks dev w = Some (quirk, w) /\
    pci_serial_quirks = pre ++ quirk :: post /\
    Forall (fun e =>
              ~ (id_ok (vendor e) (dev_vendor dev) /\
                 id_ok (device e) (dev_device dev) /\
                 id_ok (subvendor e) (dev_subsystem_vendor dev) /\
                 id_ok (subdevice e) (dev_subsystem_device dev))) pre /\
    (id_ok (vendor quirk) (dev_vendor dev) /\
     id_ok (device quirk) (dev_device dev) /\
     id_ok (subvendor quirk) (dev_subsystem_vendor dev) /\
     id_ok (subdevice quirk) (dev_subsystem_device dev)) /\
    last pci_serial_quirks = Some stop /\ is_terminator stop.
Proof.
  destruct (scan_quirks_terminated [hd default_quirk pci_serial_quirks]
              default_quirk dev) as [quirk Hq].
  { repeat split. }
  change ([hd default_quirk pci_serial_quirks] ++ [default_quirk])
    with pci_serial_quirks in Hq.
  pose proof Hq as Hfirst.
  apply scan_quirks_first in Hfirst as (pre & post & Heq & Hpre & Hm).
  exists quirk, pre, post, default_quirk.
  split; [unfold find_quirk; rewrite Hq; reflexivity|].
  split; [exact Heq|]. split.
  - eapply Forall_impl; [exact Hpre|]. intros e He Hok.
    apply quirk_matches_spec in Hok. congruence.
  - split; [apply quirk_matches_spec; exact Hm|].
    split; [reflexivity | repeat split].
Qed.

(** ** The board heuristic *)

(** The first loop counts both kinds and keeps the first I/O BAR. *)
Lemma guess_count_fold dev l : forall num_iomem num_port first_port,
  Forall (fun i => i <> -1) l ->
  fold_left (guess_count dev) l (num_iomem, num_port, first_port) =
    (num_iomem + Z.of_nat (length (List.filter (is_mem dev) l)),
     num_port + Z.of_nat (length (List.filter (is_io dev) l)),
     if first_port =? -1 then hd (-1) (List.filter (is_io dev) l)
     else first_port).
Proof.
  induction l as [|i l IH]; intros m n f Hl.
  - simpl. rewrite !Z.add_0_r. destruct (Z.eqb_spec f (-1)); congruence.
  - apply Forall_cons in Hl as [Hi Hl]. cbn [fold_left List.filter].
    unfold guess_count at 2. fold (is_io dev i). fold (is_mem dev i).
    destruct (is_io dev i), (is_mem dev i); rewrite IH by assumption;
      cbn [length hd].
    all: rewrite ?Nat2Z.inj_succ.
    all: destruct (Z.eqb_spec f (-1)) as [Hf|Hf];
      rewrite ?(proj2 (Z.eqb_neq i (-1)) Hi), ?(proj2 (Z.eqb_neq f (-1)))
        by assumption.
    all: repeat match goal with |- (_, _) = (_, _) => apply f_equal2 end;
      try lia; try reflexivity.
Qed.

Lemma bars_spec i : In i bars <-> 0 <= i < 6.
Proof.
  change bars with [0; 1; 2; 3; 4; 5]. simpl. lia.
Qed.

Lemma guess_count_bars dev :
  fold_left (guess_count dev) bars (0, 0, -1) =
    (Z.of_nat (length (mem_regions dev)), Z.of_nat (length (io_regions dev)),
     hd (-1) (io_regions dev)).
Proof.
  rewrite guess_count_fold; [reflexivity|].
  apply List.Forall_forall. intros i Hi%bars_spec. lia.
Qed.

(** The class gate in terms of the class code. *)
Lemma serial_pci_is_class_communication_spec dev :
  serial_pci_is_class_communication dev = 0 <->
  (Z.shiftr (dev_class dev) 8 = PCI_CLASS_COMMUNICATION_SERIAL \/
   Z.shiftr (dev_class dev) 8 = PCI_CLASS_COMMUNICATION_MULTISERIAL \/
   Z.shiftr (dev_class dev) 8 = PCI_CLASS_COMMUNICATION_MODEM) /\
  Z.land (dev_class dev) 0xff <= 6.
Proof.
  unfold serial_pci_is_class_communication, ENODEV.
  destruct (Z.eqb_spec (Z.shiftr (dev_class dev) 8) PCI_CLASS_COMMUNICATION_SERIAL),
    (Z.eqb_spec (Z.shiftr (dev_class dev) 8) PCI_CLASS_COMMUNICATION_MULTISERIAL),
    (Z.eqb_spec (Z.shiftr (dev_class dev) 8) PCI_CLASS_COMMUNICATION_MODEM),
    (Z.ltb_spec 6 (Z.land (dev_class dev) 0xff)); simpl; lia.
Qed.

Lemma serial_pci_is_class_communication_rc dev :
  serial_pci_is_class_communication dev = 0 \/
  serial_pci_is_class_communication dev = - ENODEV.
Proof.
  unfold serial_pci_is_class_communication. destruct (_ || _); auto.
Qed.

(** Phase 1 of the heuristic. *)
Lemma guess_board_phase1 d b p :
  Z.shiftr (dev_class d) 8 = PCI_CLASS_COMMUNICATION_SERIAL \/
  Z.shiftr (dev_class d) 8 = PCI_CLASS_COMMUNICATION_MODEM ->
  Z.land (dev_class d) 0xff <= 6 ->
  (length (mem_regions d) <= 1)%nat ->
  io_regions d = [p] ->
  0 <= p < 6 /\
  serial_pci_guess_board d b =
    (0, {| flags := p;
           num_ports := to_uint (pci_resource_len d p / 8);
           base_baud := base_baud b;
           uart_offset := uart_offset b;
           reg_shift := reg_shift b;
           first_offset := first_offset b |}).
Proof.
  intros Hclass Hif Hmem Hio.
  assert (Hp : In p bars).
  { apply (proj1 (List.filter_In (is_io d) p bars)).
    fold (io_regions d). rewrite Hio. left. reflexivity. }
  apply bars_spec in Hp. split; [exact Hp|].
  unfold serial_pci_guess_board.
  assert (Hrc : serial_pci_is_class_communication d = 0)
    by (apply serial_pci_is_class_communication_spec; tauto).
  rewrite Hrc. simpl truthy. cbv iota.
  assert (Hne : (Z.shiftr (dev_class d) 8 =?
                 PCI_CLASS_COMMUNICATION_MULTISERIAL) = false).
  { apply Z.eqb_neq. destruct Hclass as [-> | ->]; discriminate. }
  rewrite Hne, guess_count_bars, Hio. cbn [length hd].
  replace (Z.of_nat (length (mem_regions d)) <=? 1) with true
    by (symmetry; apply Z.leb_le; lia).
  simpl. rewrite (to_uint_small p) by lia. reflexivity.
Qed.

(** C5 (amended).  A device of multiport-serial class is always answered
    with -ENODEV and the board left alone.  A device whose class is serial
    or modem with a programming interface of at most 6, with at most one
    memory region and exactly one I/O region [p] among its six BARs, gets
    answer 0 with [num_ports] the length of region [p] divided by 8 (stored
    in an unsigned int, so that very quotient for a length below 2^35).  A
    device of any other class, or with a higher programming interface, is
    answered with -ENODEV whatever its regions. *)
Theorem serial_pci_guess_board_phase1 d b :
  (Z.shiftr (dev_class d) 8 = PCI_CLASS_COMMUNICATION_MULTISERIAL ->
   serial_pci_guess_board d b = (- ENODEV, b)) /\
  (~ ((Z.shiftr (dev_class d) 8 = PCI_CLASS_COMMUNICATION_SERIAL \/
       Z.shiftr (dev_class d) 8 = PCI_CLASS_COMMUNICATION_MULTISERIAL \/
       Z.shiftr (dev_class d) 8 = PCI_CLASS_COMMUNICATION_MODEM) /\
      Z.land (dev_class d) 0xff <= 6) ->
   serial_pci_guess_board d b = (- ENODEV, b)) /\
  (forall p,
     Z.shiftr (dev_class d) 8 = PCI_CLASS_COMMUNICATION_SERIAL \/
     Z.shiftr (dev_class d) 8 = PCI_CLASS_COMMUNICATION_MODEM ->
     Z.land (dev_class d) 0xff <= 6 ->
     (length (mem_regions d) <= 1)%nat ->
     io_regions d = [p] ->
     serial_pci_guess_board d b =
       (0, {| flags := p;
              num_ports := to_uint (pci_resource_len d p / 8);
              base_baud := base_baud b;
              uart_offset := uart_offset b;
              reg_shift := reg_shift b;
              first_offset := first_offset b |}) /\
     (0 <= pci_resource_len d p < 2 ^ 35 ->
      to_uint (pci_resource_len d p / 8) = pci_resource_len d p / 8)).
Proof.
  split; [|split].
  - intros Hclass. unfold serial_pci_guess_board.
    destruct (serial_pci_is_class_communication_rc d) as [-> | ->].
    + simpl. rewrite Hclass. reflexivity.
    + reflexivity.
  - intros Hgate. unfold serial_pci_guess_board.
    destruct (serial_pci_is_class_communication_rc d) as [Hz | ->].
    + apply serial_pci_is_class_communication_spec in Hz. contradiction.
    + reflexivity.
  - intros p Hclass Hif Hmem Hio. split.
    + apply guess_board_phase1; assumption.
    + intros Hlen. apply to_uint_small. split.
      * apply Z.div_pos; lia.
      * apply Z.div_lt_upper_bound; lia.
Qed.

(** A serial-class card (16550 interface) with one 64-byte I/O region is
    given 8 ports. *)
Lemma serial_pci_guess_board_phase1_witness :
  serial_pci_guess_board (sample_dev 0x070002 IORESOURCE_IO)
    (board_entry FL_BASE0 1 115200 8 0) =
    (0, board_entry 0 8 115200 8 0).
Proof.
  destruct (serial_pci_guess_board_phase1 (sample_dev 0x070002 IORESOURCE_IO)
              (board_entry FL_BASE0 1 115200 8 0)) as (_ & _ & H).
  destruct (H 0) as [Heq _];
    [left; reflexivity | by vm_compute | vm_compute; lia | reflexivity |].
  exact Heq.
Defined.

(** C5 as stated fails for a device that is not multiport-serial but does
    not pass the class gate: class 0x0780 (other communication device) with
    a single 64-byte I/O region is answered with -ENODEV. *)
Lemma serial_pci_guess_board_class_gate :
  ~ (forall dev board p,
       Z.shiftr (dev_class dev) 8 <> PCI_CLASS_COMMUNICATION_MULTISERIAL ->
       (length (mem_regions dev) <= 1)%nat ->
       io_regions dev = [p] ->
       fst (serial_pci_guess_board dev board) = 0 /\
       num_ports (snd (serial_pci_guess_board dev board)) =
         pci_resource_len dev p / 8).
Proof.
  intros H.
  destruct (H (sample_dev 0x078000 IORESOURCE_IO)
              (board_entry FL_BASE0 1 115200 8 0) 0) as [Hrc _];
    [by vm_compute | vm_compute; lia | reflexivity |].
  vm_compute in Hrc. discriminate Hrc.
Qed.

(** ** Worlds and loops *)

Lemma emit_nil w : emit w [] = w.
Proof. destruct w. unfold emit. simpl. now rewrite app_nil_r. Qed.

Lemma emit_emit w a b : emit (emit w a) b = emit w (a ++ b).
Proof. unfold emit. simpl. now rewrite <- app_assoc. Qed.

Lemma call_hook_events h c w :
  call_hook h c w = Some (tt, emit w (hook_events h c)).
Proof.
  destruct h; simpl; [reflexivity|]. now rewrite emit_nil.
Qed.

(** A loop over [n] slots of [line] from index [i] calls [c] on the
    non-negative ones, in order, and on nothing else. *)
Lemma port_loop priv (c : Z -> call) n : forall i w,
  0 <= i -> (Z.to_nat i + n <= length (line priv))%nat ->
  for_loop n i
    (fun i => l <- line_at priv i ;;
              if 0 <=? l then notify (c l) else ret tt) w =
  Some (tt, emit w (port_events c (take n (drop (Z.to_nat i) (line priv))))).
Proof.
  induction n as [|n IH]; intros i w Hi Hlen.
  - simpl. unfold port_events. simpl. now rewrite emit_nil.
  - destruct (lookup_lt_is_Some_2 (line priv) (Z.to_nat i)) as [x Hx]; [lia|].
    cbn [for_loop]. unfold bind at 1. unfold bind at 1, line_at.
    rewrite Hx. cbn [ret].
    rewrite (drop_S _ _ _ Hx). cbn [take].
    assert (Hnext : Z.to_nat (i + 1) = S (Z.to_nat i)) by lia.
    unfold port_events. cbn [List.filter].
    destruct (0 <=? x); cbn [notify ret map].
    + rewrite IH by lia. rewrite emit_emit, Hnext. reflexivity.
    + rewrite IH by lia. rewrite Hnext. reflexivity.
Qed.

(** ** Suspend and resume *)

Lemma suspend_resume_events K priv w :
  (Z.to_nat (nr priv) <= length (line priv))%nat ->
  addi_pciserial_suspend_ports priv w =
    Some (tt, emit w (port_events serial8250_suspend_port (attached_lines priv)
                      ++ hook_events (exit (quirk priv)) quirk_exit)) /\
  addi_pciserial_resume_ports K priv w =
    Some (tt, emit w (resume_init_events K priv w
                      ++ port_events serial8250_resume_port
                           (attached_lines priv))).
Proof.
  intros Hlen. split.
  - unfold addi_pciserial_suspend_ports, bind.
    rewrite (port_loop priv serial8250_suspend_port) by (simpl; lia).
    rewrite call_hook_events, emit_emit. reflexivity.
  - unfold addi_pciserial_resume_ports, resume_init_events.
    destruct (init (quirk priv)) as [h|]; unfold bind, extern, ret.
    + rewrite (port_loop priv serial8250_resume_port) by (simpl; lia).
      rewrite emit_emit. reflexivity.
    + rewrite (port_loop priv serial8250_resume_port) by (simpl; lia).
      reflexivity.
Qed.

(** C7.  For a session with attached count [nr] (within its [line] array),
    suspend calls [serial8250_suspend_port] on the lines of indices
    [0 .. nr-1] only, in attachment order, and then the exit hook if there
    is one; resume first calls the init hook if there is one and then,
    whatever it returned, [serial8250_resume_port] on the same lines in the
    same order. *)
Theorem suspend_resume_attached_only K priv w :
  (Z.to_nat (nr priv) <= length (line priv))%nat ->
  addi_pciserial_suspend_ports priv w =
    Some (tt, emit w (port_events serial8250_suspend_port (attached_lines priv)
                      ++ hook_events (exit (quirk priv)) quirk_exit)) /\
  addi_pciserial_resume_ports K priv w =
    Some (tt, emit w (resume_init_events K priv w
                      ++ port_events serial8250_resume_port
                           (attached_lines priv))) /\
  forall l, In l (attached_lines priv) ->
    exists i, 0 <= i < nr priv /\ line priv !! Z.to_nat i = Some l.
Proof.
  intros Hlen.
  destruct (suspend_resume_events K priv w Hlen) as [Hs Hr].
  split; [exact Hs|]. split; [exact Hr|].
  intros l Hl'.
  apply list_elem_of_In, list_elem_of_lookup in Hl' as [i Hi].
  unfold attached_lines in Hi. apply lookup_take_Some in Hi as [Hi Hlt].
  exists (Z.of_nat i). rewrite Nat2Z.id. split; [lia | exact Hi].
Qed.

(** ** The attach loop *)

Lemma setup_port_emits K priv port bar offset shift w :
  exists rc port' evs,
    setup_port K priv port bar offset shift w = Some ((rc, port'), emit w evs).
Proof.
  unfold setup_port.
  destruct (PCI_NUM_BAR_RESOURCES <=? bar).
  { exists (- EINVAL), port, []. now rewrite emit_nil. }
  destruct (truthy _).
  2:{ eexists 0, _, []. rewrite emit_nil. reflexivity. }
  unfold bind, extern, ret.
  destruct (K (log w) (pcim_iomap bar) =? 0); simpl.
  - destruct (K _ pcim_iomap_table =? 0); rewrite ?emit_emit;
      eexists _, _, _; reflexivity.
  - rewrite ?emit_emit. eexists _, _, _; reflexivity.
Qed.

Lemma call_setup_emits K f priv board port idx w :
  exists rc port' evs,
    call_setup K f priv board port idx w = Some ((rc, port'), emit w evs).
Proof.
  destruct f; simpl.
  - unfold addidata_apci7800_setup.
    destruct (if idx <? 2 then _ else _) as [bar offset].
    apply setup_port_emits.
  - unfold pci_default_setup.
    destruct (default_target board idx) as [bar offset].
    destruct (_ && _).
    + exists 1, port, []. now rewrite emit_nil.
    + apply setup_port_emits.
Qed.

(** [set_line] touches slot [i] of [line] and nothing else. *)
Lemma set_line_fields priv i l :
  priv_addr (set_line priv i l) = priv_addr priv /\
  dev (set_line priv i l) = dev priv /\
  quirk (set_line priv i l) = quirk priv /\
  board (set_line priv i l) = board priv /\
  length (line (set_line priv i l)) = length (line priv).
Proof. simpl. rewrite length_insert. auto. Qed.

(** The loop always ends; it leaves the slots below its start alone, and
    every slot from its start up to the index it stops at holds a
    non-negative line. *)
Lemma attach_loop_inv K quirk board n : forall i priv uart w,
  0 <= i -> (Z.to_nat i + n <= length (line priv))%nat ->
  exists k priv' evs,
    attach_loop K n i quirk board priv uart w =
      Some ((k, priv'), emit w evs) /\
    i <= k <= i + Z.of_nat n /\
    priv_addr priv' = priv_addr priv /\
    length (line priv') = length (line priv) /\
    (forall j, (j < Z.to_nat i)%nat -> line priv' !! j = line priv !! j) /\
    (forall j, i <= j < k ->
       exists l, line priv' !! Z.to_nat j = Some l /\ 0 <= l).
Proof.
  induction n as [|n IH]; intros i priv uart w Hi Hlen.
  - exists i, priv, []. simpl. rewrite emit_nil.
    repeat split; intros; lia.
  - cbn [attach_loop]. unfold bind at 1.
    destruct (call_setup_emits K (setup quirk) priv board uart i w)
      as (rc & uart' & evs & ->). cbn [fst snd].
    destruct (truthy rc).
    { exists i, priv, evs. repeat split; intros; lia. }
    unfold bind at 1, extern at 1. cbv zeta.
    set (l := K (log (emit w evs)) (serial8250_register_8250_port uart')).
    rewrite emit_emit.
    destruct (Z.ltb_spec l 0) as [Hneg | Hpos].
    { unfold bind, notify, ret. rewrite emit_emit.
      eexists i, _, _. split; [reflexivity|].
      split; [lia|]. split; [reflexivity|].
      split; [apply set_line_fields|].
      split; [|intros j Hj; lia].
      intros j Hj. simpl. apply list_lookup_insert_ne. lia. }
    destruct (IH (i + 1) (set_line priv i l) uart'
                (emit w (evs ++ [(serial8250_register_8250_port uart', l)])))
      as (k & priv' & evs' & Heq & Hk & Haddr & Hlen' & Hlow & Hnew).
    { lia. }
    { simpl. rewrite length_insert. lia. }
    rewrite Heq, emit_emit.
    exists k, priv', (evs ++ [(serial8250_register_8250_port uart', l)] ++ evs').
    rewrite <- app_assoc.
    split; [reflexivity|]. split; [lia|].
    split; [exact Haddr|].
    split; [rewrite Hlen'; apply set_line_fields|].
    split.
    + intros j Hj. rewrite Hlow by lia. simpl.
      apply list_lookup_insert_ne. lia.
    + intros j Hj. destruct (Z.eq_dec j i) as [-> | Hne].
      * exists l. split; [|lia]. rewrite Hlow by lia. simpl.
        apply list_lookup_insert_eq. lia.
      * apply Hnew. lia.
Qed.

(** ** Sessions returned by the attach *)

Lemma session_ok_lines priv :
  session_ok priv -> Forall (fun l => 0 <= l) (attached_lines priv).
Proof.
  intros (Hnr & Hlen & Hline). apply Forall_lookup_2. intros i x Hx.
  unfold attached_lines in Hx. apply lookup_take_Some in Hx as [Hx Hi].
  destruct (Hline (Z.of_nat i)) as (l & Hl & Hpos); [lia|].
  rewrite Nat2Z.id in Hl. congruence.
Qed.

Lemma port_events_all c ls :
  Forall (fun l => 0 <= l) ls ->
  port_events c ls = map (fun l => (c l, 0)) ls.
Proof.
  intros H. unfold port_events. f_equal.
  apply forallb_filter_id. apply forallb_forall.
  intros l Hl. apply Z.leb_le.
  apply (proj1 (List.Forall_forall _ _) H l Hl).
Qed.

(** What the attach does once the quirk's init hook is behind it: it fails
    only if the allocation does, and then calls the exit hook; otherwise it
    returns a session, however many ports attached. *)
(** The allocation step, with the first call made. *)
Lemma init_ports_alloc_eq K d b q nr_ports w :
  init_ports_alloc K d b q nr_ports w =
    let p := K (log w) (kzalloc (alloc_size nr_ports)) in
    let w1 := emit w [(kzalloc (alloc_size nr_ports), p)] in
    if p =? 0 then
      (call_hook (exit q) quirk_exit ;;; ret (inl (- ENOMEM))) w1
    else if (nr_ports <? 0) && (alloc_size nr_ports <? sizeof_serial_private)
    then None
    else
      (r <- attach_loop K (Z.to_nat nr_ports) 0 q b
              (new_priv p d q b nr_ports) (new_uart d b) ;;
       ret (inr {| priv_addr := priv_addr (snd r); dev := d;
                   nr := fst r; quirk := q; board := b;
                   line := line (snd r) |})) w1.
Proof.
  unfold init_ports_alloc, alloc_size, bind at 1, extern at 1. cbv zeta.
  destruct (_ =? 0); [reflexivity|]. destruct (_ && _); reflexivity.
Qed.

Lemma init_ports_alloc_spec K d b q nr_ports w :
  (nr_ports < 0 /\ init_ports_alloc K d b q nr_ports w = None) \/
  exists r evs,
    init_ports_alloc K d b q nr_ports w = Some (r, emit w evs) /\
    match r with
    | inl rc =>
        K (log w) (kzalloc (alloc_size nr_ports)) = 0 /\ rc = - ENOMEM /\
        evs = (kzalloc (alloc_size nr_ports), 0)
              :: hook_events (exit q) quirk_exit
    | inr priv =>
        K (log w) (kzalloc (alloc_size nr_ports)) <> 0 /\
        priv_addr priv = K (log w) (kzalloc (alloc_size nr_ports)) /\
        dev priv = d /\ length (line priv) = Z.to_nat nr_ports /\
        quirk priv = q /\ board priv = b /\
        session_ok priv
    end.
Proof.
  rewrite init_ports_alloc_eq. cbv zeta.
  destruct (Z.eqb_spec (K (log w) (kzalloc (alloc_size nr_ports))) 0)
    as [Hz | Hnz].
  - right. unfold bind. rewrite call_hook_events, emit_emit. unfold ret.
    eexists (inl _), _. split; [reflexivity|]. rewrite Hz. auto.
  - destruct ((nr_ports <? 0) && _) eqn:Hshort.
    { left. apply andb_true_iff in Hshort as [Hneg _].
      split; [lia | reflexivity]. }
    right. set (p := K (log w) (kzalloc (alloc_size nr_ports))) in *.
    destruct (attach_loop_inv K q b (Z.to_nat nr_ports) 0
                (new_priv p d q b nr_ports) (new_uart d b)
                (emit w [(kzalloc (alloc_size nr_ports), p)]))
      as (k & priv' & evs & Heq & Hk & Haddr & Hlen & _ & Hline).
    { lia. }
    { simpl. rewrite length_replicate. lia. }
    unfold bind. rewrite Heq, emit_emit. cbn [fst snd ret].
    eexists (inr _), _. split; [reflexivity|].
    unfold session_ok. cbn [priv_addr dev nr quirk board line].
    assert (Hcap : length (line priv') = Z.to_nat nr_ports)
      by (rewrite Hlen; simpl; apply length_replicate).
    split; [exact Hnz|]. split; [exact Haddr|]. split; [reflexivity|].
    split; [exact Hcap|]. split; [reflexivity|]. split; [reflexivity|].
    split; [lia|]. split; [lia | exact Hline].
Qed.

(** What [addi_pciserial_init_ports] does for a device with matched quirk
    [quirk]. *)
(** The attach up to the allocation step. *)
Lemma init_ports_eq K quirks d b w q :
  scan_quirks quirks d = Some q ->
  addi_pciserial_init_ports K quirks d b w =
    match init q with
    | Some h =>
        let rc := K (log w) (quirk_init h) in
        if rc <? 0 then Some (inl rc, emit w [(quirk_init h, rc)])
        else init_ports_alloc K d b q
               (if truthy rc then rc else to_int (num_ports b))
               (emit w [(quirk_init h, rc)])
    | None => init_ports_alloc K d b q (to_int (num_ports b)) w
    end.
Proof.
  intros Hq. unfold addi_pciserial_init_ports, find_quirk.
  rewrite Hq. unfold bind at 1, ret at 1.
  destruct (init q) as [h|]; [|reflexivity].
  unfold bind at 1, extern at 1. cbv zeta.
  destruct (_ <? 0); reflexivity.
Qed.

(** The attach ends with a result, unless the nominal count is negative and
    asks for a block shorter than the header. *)
Lemma init_ports_spec K quirks d (b : board_ptr) w q :
  scan_quirks quirks d = Some q ->
  (fst (init_outcome K q b w) < 0 /\
   addi_pciserial_init_ports K quirks d b w = None) \/
  exists r evs,
    addi_pciserial_init_ports K quirks d b w = Some (r, emit w evs) /\
    match r with
    | inl rc =>
        (exists h, init q = Some h /\ rc = K (log w) (quirk_init h) /\
                   rc < 0 /\ evs = [(quirk_init h, rc)]) \/
        (rc = - ENOMEM /\
         exists pre sz, evs = pre ++ (kzalloc sz, 0)
                                :: hook_events (exit q) quirk_exit /\
           match init q with
           | Some h => pre = [(quirk_init h, K (log w) (quirk_init h))]
           | None => pre = []
           end)
    | inr priv =>
        dev priv = d /\ quirk priv = q /\ board priv = b /\
        priv_addr priv <> 0 /\
        length (line priv) = Z.to_nat (fst (init_outcome K q b w)) /\
        session_ok priv
    end.
Proof.
  intros Hq. rewrite (init_ports_eq K quirks d b w q Hq).
  unfold init_outcome.
  destruct (init q) as [h|] eqn:Hinit.
  - cbv zeta. set (rc := K (log w) (quirk_init h)).
    destruct (Z.ltb_spec rc 0) as [Hneg | Hpos].
    + right. exists (inl rc), [(quirk_init h, rc)]. split; [reflexivity|].
      left. exists h. auto.
    + destruct (init_ports_alloc_spec K d b q
                  (if truthy rc then rc else to_int (num_ports b))
                  (emit w [(quirk_init h, rc)]))
        as [[Hshort Hnone] | (r & evs & Heq & Hr)].
      { left. split; [exact Hshort | exact Hnone]. }
      right.
      rewrite Heq, emit_emit. exists r, ([(quirk_init h, rc)] ++ evs).
      split; [reflexivity|]. destruct r as [rc' | priv].
      * right. destruct Hr as (_ & -> & ->). split; [reflexivity|].
        eexists _, _. split; [reflexivity|]. reflexivity.
      * destruct Hr as (Hnz & Haddr & Hd & Hcap & Hqk & Hb & Hok).
        rewrite Haddr. cbn [fst]. auto 10.
  - destruct (init_ports_alloc_spec K d b q
                (to_int (num_ports b)) w)
      as [[Hshort Hnone] | (r & evs & Heq & Hr)].
    { left. split; [exact Hshort | exact Hnone]. }
    right.
    rewrite Heq. exists r, evs. split; [reflexivity|].
    destruct r as [rc' | priv].
    + right. destruct Hr as (_ & -> & ->). split; [reflexivity|].
      eexists [], _. split; [reflexivity|]. reflexivity.
    + destruct Hr as (Hnz & Haddr & Hd & Hcap & Hqk & Hb & Hok).
      rewrite Haddr. cbn [fst]. auto 10.
Qed.

Lemma init_ports_defined K quirks dev board w r w' :
  addi_pciserial_init_ports K quirks dev board w = Some (r, w') ->
  exists quirk, scan_quirks quirks dev = Some quirk.
Proof.
  unfold addi_pciserial_init_ports, find_quirk, bind.
  destruct (scan_quirks quirks dev) as [quirk|]; [eauto | discriminate].
Qed.

(** C9.  In every session [addi_pciserial_init_ports] returns, each slot
    [line[i]] below the attached count [nr] holds a non-negative handle; so
    the [line[i] >= 0] guards of suspend and resume pass for every attached
    index: both call the 8250 core on all of [line[0 .. nr-1]]. *)
Theorem init_ports_lines_nonneg K quirks dev board w priv w' :
  addi_pciserial_init_ports K quirks dev board w = Some (inr priv, w') ->
  (forall i, 0 <= i < nr priv ->
     exists l, line priv !! Z.to_nat i = Some l /\ 0 <= l) /\
  (forall K' w0,
     addi_pciserial_suspend_ports priv w0 =
       Some (tt, emit w0 (map (fun l => (serial8250_suspend_port l, 0))
                              (attached_lines priv)
                          ++ hook_events (exit (quirk priv)) quirk_exit)) /\
     addi_pciserial_resume_ports K' priv w0 =
       Some (tt, emit w0 (resume_init_events K' priv w0
                          ++ map (fun l => (serial8250_resume_port l, 0))
                                 (attached_lines priv)))).
Proof.
  intros Hrun.
  destruct (init_ports_defined _ _ _ _ _ _ _ Hrun) as [q Hq].
  destruct (init_ports_spec K quirks dev board w q Hq)
    as [[_ Hnone] | (r & evs & Heq & Hr)];
    [rewrite Hrun in Hnone; discriminate Hnone|].
  rewrite Hrun in Heq. injection Heq as <- _.
  destruct Hr as (_ & _ & _ & _ & _ & Hok).
  split; [apply Hok|].
  intros K' w0.
  rewrite <- !(port_events_all _ _ (session_ok_lines priv Hok)).
  apply suspend_resume_events. apply Hok.
Qed.

(** ** Failure of the init hook *)

(** C3 (amended).  When the matched quirk has an init hook and the hook
    returns an error, [addi_pciserial_init_ports] returns that error and has
    called nothing but the init hook: nothing is allocated, no port is set
    up and the exit hook is not called.  The exit hook is called on the
    other abort, when the init hook succeeded and the allocation failed. *)
Theorem init_ports_init_error K quirks d b w q h :
  scan_quirks quirks d = Some q -> init q = Some h ->
  let rc := K (log w) (quirk_init h) in
  (rc < 0 ->
   addi_pciserial_init_ports K quirks d b w =
     Some (inl rc, emit w [(quirk_init h, rc)])) /\
  (0 <= rc ->
   let nr_ports := if truthy rc then rc else to_int (num_ports b) in
   K (log w ++ [(quirk_init h, rc)]) (kzalloc (alloc_size nr_ports)) = 0 ->
   addi_pciserial_init_ports K quirks d b w =
     Some (inl (- ENOMEM),
           emit w ([(quirk_init h, rc); (kzalloc (alloc_size nr_ports), 0)]
                   ++ hook_events (exit q) quirk_exit))).
Proof.
  intros Hq Hinit rc.
  split; [intros Hneg | intros Hpos nr_ports Halloc];
    unfold addi_pciserial_init_ports, find_quirk;
    rewrite Hq; unfold bind at 1, ret at 1; rewrite Hinit;
    unfold bind at 1, extern at 1; cbv zeta; fold rc.
  - destruct (Z.ltb_spec rc 0); [reflexivity | lia].
  - destruct (Z.ltb_spec rc 0); [lia|]. fold nr_ports.
    unfold init_ports_alloc. fold (alloc_size nr_ports).
    unfold bind at 1, extern at 1. cbv zeta.
    change (log (emit w [(quirk_init h, rc)]))
      with (log w ++ [(quirk_init h, rc)]).
    rewrite Halloc. cbn [Z.eqb]. unfold bind.
    rewrite call_hook_events, !emit_emit. reflexivity.
Qed.

Lemma init_ports_init_error_witness :
  addi_pciserial_init_ports init_failing_kernel hooked_quirks
    (sample_dev 0x070002 IORESOURCE_IO) (static_board capped_board) fresh =
    Some (inl (-5), emit fresh [(quirk_init 1%nat, -5)]).
Proof.
  apply (init_ports_init_error init_failing_kernel hooked_quirks
           (sample_dev 0x070002 IORESOURCE_IO) (static_board capped_board)
           fresh
           hooked_quirk 1%nat); [reflexivity | reflexivity | by vm_compute].
Defined.

(** C3 as stated fails: after a failing init hook the exit hook has not
    been called. *)
Lemma init_error_skips_exit :
  ~ (forall K quirks d b w q h he r w',
       scan_quirks quirks d = Some q -> init q = Some h ->
       exit q = Some he -> K (log w) (quirk_init h) < 0 ->
       addi_pciserial_init_ports K quirks d b w = Some (r, w') ->
       r = inl (K (log w) (quirk_init h)) /\
       In (quirk_exit he, 0) (log w')).
Proof.
  intros H.
  destruct (H init_failing_kernel hooked_quirks
              (sample_dev 0x070002 IORESOURCE_IO) (static_board capped_board)
           fresh
              hooked_quirk 1%nat 2%nat (inl (-5))
              (emit fresh [(quirk_init 1%nat, -5)])) as [_ Hin];
    [reflexivity | reflexivity | reflexivity | by vm_compute | reflexivity |].
  simpl in Hin. destruct Hin as [Hin | []]. discriminate Hin.
Qed.

(** ** Truncation of the attach loop *)

Section Attach.

Variable K : kernel.
Variable q : pci_serial_quirk.
Variable b : pciserial_board.

Lemma attached_to_le i priv uart w k priv' uart' w' :
  attached_to K q b i priv uart w k priv' uart' w' -> i <= k.
Proof. induction 1; lia. Qed.

Lemma attached_to_addr i priv uart w k priv' uart' w' :
  attached_to K q b i priv uart w k priv' uart' w' ->
  priv_addr priv' = priv_addr priv.
Proof.
  induction 1 as [| i priv uart w priv1 uart1 w1 k priv2 uart2 w2 Hstep _ IH];
    [reflexivity|].
  rewrite IH. destruct Hstep as (? & _ & _ & -> & _). reflexivity.
Qed.

Lemma fails_at_addr i priv uart w priv' w' :
  fails_at K q b i priv uart w priv' w' -> priv_addr priv' = priv_addr priv.
Proof.
  intros [(? & ? & _ & _ & ->) | (? & ? & _ & _ & -> & _)]; reflexivity.
Qed.

(** A failure at index [k] with iterations to spare stops the loop at [k],
    in the world the failing call left. *)
Lemma attach_loop_truncates i priv uart w k privk uartk wk priv' w' :
  attached_to K q b i priv uart w k privk uartk wk ->
  fails_at K q b k privk uartk wk priv' w' ->
  forall n, (Z.to_nat (k - i) < n)%nat ->
  attach_loop K n i q b priv uart w = Some ((k, priv'), w').
Proof.
  intros Hrun Hfail. induction Hrun as
    [i priv uart w | i priv uart w priv1 uart1 w1 k priv2 uart2 w2 Hstep Hrun IH];
    intros n Hn.
  - destruct n as [|n]; [lia|]. cbn [attach_loop]. unfold bind at 1.
    destruct Hfail as [(rc & uart' & -> & Hrc & ->)
                      | (uart' & w1 & -> & Hl & -> & ->)]; cbn [fst snd].
    + rewrite (proj2 (truthy_true rc) Hrc). reflexivity.
    + cbn [truthy Z.eqb negb]. unfold bind at 1, extern at 1. cbv zeta.
      destruct (Z.ltb_spec (K (log w1) (serial8250_register_8250_port uart')) 0);
        [|lia].
      unfold bind, notify, ret. rewrite emit_emit. reflexivity.
  - pose proof (attached_to_le _ _ _ _ _ _ _ _ Hrun) as Hle.
    destruct n as [|n]; [lia|]. cbn [attach_loop]. unfold bind at 1.
    destruct Hstep as (w0 & -> & Hl & -> & ->). cbn [fst snd truthy Z.eqb negb].
    unfold bind at 1, extern at 1. cbv zeta.
    destruct (Z.ltb_spec (K (log w0) (serial8250_register_8250_port uart1)) 0);
      [lia|].
    apply IH; [exact Hfail | lia].
Qed.

(** With no failure the loop runs all its iterations. *)
Lemma attach_loop_completes i priv uart w k privk uartk wk :
  attached_to K q b i priv uart w k privk uartk wk ->
  attach_loop K (Z.to_nat (k - i)) i q b priv uart w = Some ((k, privk), wk).
Proof.
  induction 1 as
    [i priv uart w | i priv uart w priv1 uart1 w1 k priv2 uart2 w2 Hstep Hrun IH].
  - rewrite Z.sub_diag. reflexivity.
  - pose proof (attached_to_le _ _ _ _ _ _ _ _ Hrun) as Hle.
    replace (Z.to_nat (k - i)) with (S (Z.to_nat (k - (i + 1)))) by lia.
    cbn [attach_loop]. unfold bind at 1.
    destruct Hstep as (w0 & -> & Hl & -> & ->). cbn [fst snd truthy Z.eqb negb].
    unfold bind at 1, extern at 1. cbv zeta.
    destruct (Z.ltb_spec (K (log w0) (serial8250_register_8250_port uart1)) 0);
      [lia|].
    exact IH.
Qed.

End Attach.

Lemma init_ports_after_init K quirks d b w q :
  scan_quirks quirks d = Some q ->
  (forall h, init q = Some h -> 0 <= K (log w) (quirk_init h)) ->
  addi_pciserial_init_ports K quirks d b w =
    init_ports_alloc K d b q (fst (init_outcome K q b w))
      (snd (init_outcome K q b w)).
Proof.
  intros Hq Hinit. unfold addi_pciserial_init_ports, find_quirk, init_outcome.
  rewrite Hq. unfold bind at 1, ret at 1.
  destruct (init q) as [h|]; [|reflexivity].
  unfold bind at 1, extern at 1. cbv zeta.
  specialize (Hinit h eq_refl).
  destruct (Z.ltb_spec (K (log w) (quirk_init h)) 0); [lia | reflexivity].
Qed.

(** C4 (amended).  Once the init hook (if any) has succeeded and the session
    is allocated: if ports [0 .. k-1] attach and index [k], below the nominal
    count, gets a non-zero answer from [setup] or a negative one from the
    registration, then the attach returns a session, not an error, with
    attached count [k], in the world the failing call left: no later index
    is tried.  This holds for [k = 0] as well. *)
Theorem attach_truncation K quirks d (b : board_ptr) w q :
  scan_quirks quirks d = Some q ->
  (forall h, init q = Some h -> 0 <= K (log w) (quirk_init h)) ->
  let nr_ports := fst (init_outcome K q b w) in
  let w0 := snd (init_outcome K q b w) in
  let p := K (log w0) (kzalloc (alloc_size nr_ports)) in
  p <> 0 ->
  forall k privk uartk wk priv' w',
    attached_to K q b 0 (new_priv p d q b nr_ports) (new_uart d b)
      (emit w0 [(kzalloc (alloc_size nr_ports), p)]) k privk uartk wk ->
    fails_at K q b k privk uartk wk priv' w' ->
    k < nr_ports ->
    addi_pciserial_init_ports K quirks d b w =
      Some (inr {| priv_addr := p; dev := d; nr := k; quirk := q;
                   board := b; line := line priv' |}, w').
Proof.
  intros Hq Hinit nr_ports w0 p Hp k privk uartk wk priv' w' Hrun Hfail Hk.
  rewrite (init_ports_after_init K quirks d b w q Hq Hinit).
  fold nr_ports w0. unfold init_ports_alloc. fold (alloc_size nr_ports).
  unfold bind at 1, extern at 1. cbv zeta. fold p.
  destruct (Z.eqb_spec p 0) as [|_]; [contradiction|].
  pose proof (attached_to_le _ _ _ _ _ _ _ _ _ _ _ Hrun) as Hle.
  destruct (Z.ltb_spec nr_ports 0); [lia|]. cbn [andb].
  unfold bind.
  rewrite (attach_loop_truncates K q b _ _ _ _ _ _ _ _ _ _ Hrun Hfail)
    by lia.
  cbn [fst snd ret].
  rewrite (fails_at_addr K q b _ _ _ _ _ _ Hfail).
  rewrite (attached_to_addr K q b _ _ _ _ _ _ _ _ Hrun).
  reflexivity.
Qed.

(** Ports 0 and 1 of the four-port board attach, the registration of port 2
    is refused: the session has two ports and [line = [0; 1; -28; 0]]. *)
Lemma attach_truncation_witness :
  exists w',
    addi_pciserial_init_ports two_lines_kernel pci_serial_quirks
      (sample_dev 0x070002 IORESOURCE_IO) (static_board four_ports) fresh =
      Some (inr {| priv_addr := 0x1000;
                   dev := sample_dev 0x070002 IORESOURCE_IO;
                   nr := 2; quirk := default_quirk;
                   board := static_board four_ports;
                   line := [0; 1; -28; 0] |}, w').
Proof.
  eexists. etransitivity.
  - eapply (attach_truncation two_lines_kernel pci_serial_quirks
              (sample_dev 0x070002 IORESOURCE_IO) (static_board four_ports) fresh
              default_quirk eq_refl).
    + intros h Hh. discriminate Hh.
    + by vm_compute.
    + eapply attached_next.
      { eexists. split; [lazy; reflexivity|]. split; [by vm_compute|].
        split; reflexivity. }
      eapply attached_next.
      { eexists. split; [lazy; reflexivity|]. split; [by vm_compute|].
        split; reflexivity. }
      apply attached_none.
    + right. eexists _, _. split; [lazy; reflexivity|]. split; [by vm_compute|].
      split; reflexivity.
    + by vm_compute.
  - reflexivity.
Defined.

(** C4 as stated fails in its exception: when index 0 itself fails (here the
    registration of port 0 is refused), the attach still returns a session,
    with attached count 0, and not an error. *)
Lemma index0_failure_not_fatal :
  ~ (forall K quirks d (b : board_ptr) w q priv' w',
       scan_quirks quirks d = Some q -> init q = None ->
       let nr_ports := to_int (num_ports b) in
       let p := K (log w) (kzalloc (alloc_size nr_ports)) in
       p <> 0 -> 0 < nr_ports ->
       fails_at K q b 0 (new_priv p d q b nr_ports) (new_uart d b)
         (emit w [(kzalloc (alloc_size nr_ports), p)]) priv' w' ->
       exists rc w'',
         addi_pciserial_init_ports K quirks d b w = Some (inl rc, w'')).
Proof.
  intros H.
  edestruct (H no_line_kernel pci_serial_quirks
               (sample_dev 0x070002 IORESOURCE_IO) (static_board four_ports) fresh
               default_quirk) as (rc & w'' & Heq);
    [reflexivity | reflexivity | by vm_compute | by vm_compute | | ].
  - right. eexists _, _. split; [lazy; reflexivity|]. split; [by vm_compute|].
    split; reflexivity.
  - vm_compute in Heq. discriminate Heq.
Qed.

(** ** Rebuild after a bus fault *)

Lemma hook_events_no_registration h :
  no_registration (hook_events h quirk_exit).
Proof.
  intros uart l. destruct h; simpl; [|tauto].
  intros [Heq | []]. discriminate Heq.
Qed.

(** The driver data after the end of a probe that returned 0: a session
    with the board pointer the attach was given, or an unrecognised
    [ERR_PTR]. *)
Lemma init_one_attach_drvdata K quirks d b w w1 :
  init_one_attach K quirks d b w = Some (0, w1) ->
  (exists priv, drvdata w1 = Some (session priv) /\ board priv = b) \/
  (exists rc, drvdata w1 = Some (err_ptr rc)).
Proof.
  unfold init_one_attach, bind at 1.
  destruct (addi_pciserial_init_ports K quirks d b w) as [[[e | priv] w0]|]
    eqn:Hrun; [| |discriminate].
  - destruct (IS_ERR_VALUE e) eqn:He.
    + unfold ret. intros [= -> <-]. vm_compute in He. discriminate He.
    + unfold bind, pci_set_drvdata, ret. intros [= <-].
      right. eexists. reflexivity.
  - unfold bind, pci_set_drvdata, ret. intros [= <-].
    left. exists priv. split; [reflexivity|].
    destruct (init_ports_defined _ _ _ _ _ _ _ Hrun) as [q Hq].
    destruct (init_ports_spec K quirks d b w q Hq)
      as [[_ Hnone] | (r & evs & Heq & Hr)];
      [rewrite Hrun in Hnone; discriminate Hnone|].
    rewrite Hrun in Heq. injection Heq as <- _. apply Hr.
Qed.

(** A probe through the default slot that returned 0 attached with
    [&tmp]. *)
Lemma init_one_default_attach K quirks d w w1 :
  pciserial_init_one K quirks d pbn_default w = Some (0, w1) ->
  exists b w0, init_one_attach K quirks d (tmp_board b) w0 = Some (0, w1).
Proof.
  unfold pciserial_init_one, find_quirk.
  destruct (scan_quirks quirks d) as [q|]; [|discriminate].
  unfold bind at 1, ret at 1.
  assert (Hgo : forall w0,
    (if Z.of_nat (length pci_boards) <=? pbn_default
     then notify dev_err ;;; ret (- EINVAL)
     else
       match pci_boards !! Z.to_nat pbn_default,
             pci_boards !! Z.to_nat pbn_default with
       | Some board, Some dflt =>
           rc <- extern K pcim_enable_device ;;
           notify pci_save_state ;;;
           if truthy rc then ret rc
           else if pbn_default =? pbn_default then
             let g := serial_pci_guess_board d board in
             if truthy (fst g) then ret (fst g)
             else init_one_attach K quirks d (tmp_board (snd g))
           else
             let g := serial_pci_guess_board d dflt in
             (if (fst g =? 0) && serial_pci_matches board (snd g)
              then moan_device else ret tt) ;;;
             init_one_attach K quirks d (static_board board)
       | _, _ => undefined
       end) w0 = Some (0, w1) ->
    exists b w0', init_one_attach K quirks d (tmp_board b) w0' = Some (0, w1)).
  { intros w0.
    change (Z.of_nat (length pci_boards) <=? pbn_default) with false.
    change (pci_boards !! Z.to_nat pbn_default)
      with (Some (board_entry FL_BASE0 1 115200 8 0)). cbv iota.
    unfold bind at 1, extern at 1. cbv zeta.
    unfold bind at 1, notify at 1.
    destruct (truthy (K (log w0) pcim_enable_device)) eqn:He.
    { unfold ret. intros [= Hrc _]. apply truthy_true in He. congruence. }
    change (pbn_default =? pbn_default) with true. cbv iota zeta.
    destruct (truthy (fst (serial_pci_guess_board d _))) eqn:Hg.
    { unfold ret. intros [= Hrc _]. apply truthy_true in Hg. congruence. }
    intros Hrun. eauto. }
  destruct (probe q) as [h|].
  - unfold bind at 1, extern at 1. cbv zeta.
    destruct (truthy (K (log w) (quirk_probe h))) eqn:Hp.
    + unfold ret. intros [= Hrc _]. apply truthy_true in Hp. congruence.
    + apply Hgo.
  - unfold bind at 1, ret at 1. cbn [truthy Z.eqb negb]. apply Hgo.
Qed.

(** C8.  The claim fails on a session that was probed through the default
    slot.  Such a session keeps the pointer to [tmp], the probe's local copy
    of the board, and [tmp] is gone when the probe has returned.  So once
    such a probe has returned 0, whatever was logged since, the rebuild of
    [serial8250_io_resume] reads the board through a dangling pointer (or,
    after an init error that [IS_ERR] does not recognise, through a value
    that is no pointer): nothing is defined, and in particular the rebuilt
    session need not have the port count of the original board. *)
Theorem io_resume_dangling_board K quirks d w w1 :
  pciserial_init_one K quirks d pbn_default w = Some (0, w1) ->
  forall K' quirks' d' w2,
    drvdata w2 = drvdata w1 ->
    serial8250_io_resume K' quirks' d' w2 = None.
Proof.
  intros Hprobe K' quirks' d' w2 Hdrv.
  destruct (init_one_default_attach K quirks d w w1 Hprobe) as (b & w0 & Hatt).
  unfold serial8250_io_resume, bind at 1, pci_get_drvdata. rewrite Hdrv.
  destruct (init_one_attach_drvdata K quirks d _ w0 w1 Hatt)
    as [(priv & -> & Hb) | (rc & ->)]; [|reflexivity].
  rewrite Hb. reflexivity.
Qed.

(** A card of class serial with one 64-byte I/O region is given eight ports
    by the heuristic; after a fault, the rebuild reads [tmp]. *)
Lemma io_resume_dangling_board_witness :
  exists w1 priv,
    pciserial_init_one obliging_kernel pci_serial_quirks
      (sample_dev 0x070002 IORESOURCE_IO) pbn_default fresh = Some (0, w1) /\
    drvdata w1 = Some (session priv) /\ nr priv = 8 /\
    serial8250_io_resume obliging_kernel pci_serial_quirks
      (sample_dev 0x070002 IORESOURCE_IO) w1 = None.
Proof.
  destruct (pciserial_init_one obliging_kernel pci_serial_quirks
              (sample_dev 0x070002 IORESOURCE_IO) pbn_default fresh)
    as [[rc w1]|] eqn:Hrun; [|vm_compute in Hrun; discriminate Hrun].
  assert (Hrc : rc = 0) by (vm_compute in Hrun; congruence). subst rc.
  pose proof (io_resume_dangling_board obliging_kernel pci_serial_quirks
                (sample_dev 0x070002 IORESOURCE_IO) fresh w1 Hrun
                obliging_kernel pci_serial_quirks
                (sample_dev 0x070002 IORESOURCE_IO) w1 eq_refl) as Hres.
  vm_compute in Hrun. injection Hrun as <-.
  eexists _, _. split; [reflexivity|]. split; [reflexivity|].
  split; [reflexivity | exact Hres].
Defined.

(** ** The board resolved for an unknown device *)

(** The heuristic never writes the four layout fields. *)
Lemma guess_board_frame d b :
  let b' := snd (serial_pci_guess_board d b) in
  base_baud b' = base_baud b /\ uart_offset b' = uart_offset b /\
  reg_shift b' = reg_shift b /\ first_offset b' = first_offset b.
Proof.
  unfold serial_pci_guess_board.
  destruct (truthy (serial_pci_is_class_communication d)); [simpl; auto|].
  destruct (_ =? PCI_CLASS_COMMUNICATION_MULTISERIAL); [simpl; auto|].
  destruct (fold_left (guess_count d) bars (0, 0, -1)) as [[m n] f].
  destruct (_ && _); [simpl; auto|].
  destruct (fold_left (guess_run d) bars (0, -1)) as [n' f'].
  destruct (1 <? n'); simpl; auto.
Qed.

(** A failed heuristic leaves the board as it was. *)
Lemma guess_board_failure d b :
  fst (serial_pci_guess_board d b) <> 0 -> snd (serial_pci_guess_board d b) = b.
Proof.
  unfold serial_pci_guess_board.
  destruct (truthy (serial_pci_is_class_communication d)); [reflexivity|].
  destruct (_ =? PCI_CLASS_COMMUNICATION_MULTISERIAL); [reflexivity|].
  destruct (fold_left (guess_count d) bars (0, 0, -1)) as [[m n] f].
  destruct (_ && _); [simpl; congruence|].
  destruct (fold_left (guess_run d) bars (0, -1)) as [n' f'].
  destruct (1 <? n'); simpl; congruence.
Qed.

(** C10.  When the heuristic succeeds on the copy of the default entry, the
    resulting board [b'] differs from the entry in [flags] and [num_ports]
    at most: its base baud is 115200, its stride 8, its register shift and
    first offset 0.  In phase 1 (at most one memory region, one I/O region
    [p]) [flags] is the number [p] itself, so [p] is the base BAR and the
    BAR-indexed bit is clear.  [b'] is the board [pciserial_init_one]
    attaches with for [driver_data = pbn_default]. *)
Theorem guess_board_default_frame d b' :
  serial_pci_guess_board d (board_entry FL_BASE0 1 115200 8 0) = (0, b') ->
  pci_boards !! Z.to_nat pbn_default = Some (board_entry FL_BASE0 1 115200 8 0)
  /\
  (base_baud b' = 115200 /\ uart_offset b' = 8 /\
   reg_shift b' = 0 /\ first_offset b' = 0) /\
  (forall p,
     (length (mem_regions d) <= 1)%nat -> io_regions d = [p] ->
     flags b' = p /\ FL_GET_BASE (flags b') = p /\ bar_indexed b' = false /\
     num_ports b' = to_uint (pci_resource_len d p / 8)) /\
  (forall K quirks q w,
     scan_quirks quirks d = Some q ->
     (forall h, probe q = Some h -> K (log w) (quirk_probe h) = 0) ->
     K (log (after_probe K q w)) pcim_enable_device = 0 ->
     pciserial_init_one K quirks d pbn_default w =
       init_one_attach K quirks d (tmp_board b')
         (emit (after_probe K q w)
               [(pcim_enable_device, 0); (pci_save_state, 0)])).
Proof.
  intros Hg. split; [reflexivity|].
  pose proof (guess_board_frame d (board_entry FL_BASE0 1 115200 8 0)) as Hf.
  rewrite Hg in Hf. cbn [snd] in Hf. split; [exact Hf|]. split.
  - intros p Hmem Hio.
    assert (Hrc : serial_pci_is_class_communication d = 0).
    { unfold serial_pci_guess_board in Hg.
      destruct (serial_pci_is_class_communication_rc d) as [Hz | Hz];
        [exact Hz|]. rewrite Hz in Hg. simpl in Hg. discriminate Hg. }
    assert (Hnm : Z.shiftr (dev_class d) 8 <>
                  PCI_CLASS_COMMUNICATION_MULTISERIAL).
    { intros Hm. unfold serial_pci_guess_board in Hg.
      rewrite Hrc, Hm in Hg. simpl in Hg. discriminate Hg. }
    apply serial_pci_is_class_communication_spec in Hrc as [Hc Hif].
    destruct (guess_board_phase1 d (board_entry FL_BASE0 1 115200 8 0) p)
      as [Hp Heq]; [tauto | exact Hif | exact Hmem | exact Hio |].
    rewrite Heq in Hg. injection Hg as <-. cbn [flags num_ports].
    split; [reflexivity|]. split; [apply FL_GET_BASE_small; lia|].
    split; [|reflexivity].
    unfold bar_indexed. cbn [flags]. apply truthy_false.
    assert (Hcase : p = 0 \/ p = 1 \/ p = 2 \/ p = 3 \/ p = 4 \/ p = 5) by lia.
    destruct Hcase as [->|[->|[->|[->|[->| ->]]]]]; reflexivity.
  - intros K quirks q w Hq Hprobe Henable.
    unfold pciserial_init_one, find_quirk. rewrite Hq.
    unfold bind at 1, ret at 1. unfold after_probe in *.
    destruct (probe q) as [h|].
    1: unfold bind at 1, extern at 1; cbv zeta;
       rewrite (Hprobe h eq_refl) in *.
    2: unfold bind at 1, ret at 1.
    all: cbn [truthy Z.eqb negb];
      change (Z.of_nat (length pci_boards) <=? pbn_default) with false;
      change (pci_boards !! Z.to_nat pbn_default)
        with (Some (board_entry FL_BASE0 1 115200 8 0));
      cbv iota beta; unfold bind at 1, extern at 1; cbv zeta;
      rewrite Henable; unfold bind at 1, notify at 1;
      cbn [truthy Z.eqb negb]; rewrite emit_emit;
      change (pbn_default =? pbn_default) with true; cbv iota zeta;
      rewrite Hg; reflexivity.
Qed.

(** ** Worked instances *)

(** Port 5 of a two-ports-per-BAR card based at BAR 1 sits in BAR 3 at
    offset 8. *)
Lemma addidata_apci7800_setup_target_witness :
  let b := board_entry FL_BASE1 8 115200 8 0 in
  let priv := sample_priv (sample_dev 0x070002 IORESOURCE_IO) b in
  addidata_apci7800_setup failing_kernel priv b blank_port 5 =
    setup_port failing_kernel priv blank_port 3 8 0.
Proof.
  intros b priv.
  destruct (addidata_apci7800_setup_target failing_kernel priv b blank_port 5)
    as [Heq _]; [lia|].
  exact Heq.
Defined.

Lemma suspend_resume_attached_only_witness :
  addi_pciserial_suspend_ports two_port_session fresh =
    Some (tt, emit fresh [(serial8250_suspend_port 3, 0);
                          (serial8250_suspend_port 4, 0);
                          (quirk_exit 2%nat, 0)]) /\
  addi_pciserial_resume_ports init_failing_kernel two_port_session fresh =
    Some (tt, emit fresh [(quirk_init 1%nat, -5);
                          (serial8250_resume_port 3, 0);
                          (serial8250_resume_port 4, 0)]).
Proof.
  destruct (suspend_resume_attached_only init_failing_kernel two_port_session
              fresh) as (Hs & Hr & _).
  - simpl. lia.
  - split; [exact Hs | exact Hr].
Defined.

Lemma init_ports_lines_nonneg_witness :
  exists priv w',
    addi_pciserial_init_ports two_lines_kernel pci_serial_quirks
      (sample_dev 0x070002 IORESOURCE_IO) (static_board four_ports) fresh =
      Some (inr priv, w') /\
    nr priv = 2 /\
    forall i, 0 <= i < nr priv ->
      exists l, line priv !! Z.to_nat i = Some l /\ 0 <= l.
Proof.
  eexists _, _. split; [lazy; reflexivity|]. split; [reflexivity|].
  eapply (init_ports_lines_nonneg two_lines_kernel pci_serial_quirks
            (sample_dev 0x070002 IORESOURCE_IO) (static_board four_ports) fresh).
  lazy. reflexivity.
Defined.

Lemma guess_board_default_frame_witness :
  let d := sample_dev 0x070002 IORESOURCE_IO in
  let b' := board_entry 0 8 115200 8 0 in
  serial_pci_guess_board d (board_entry FL_BASE0 1 115200 8 0) = (0, b') /\
  base_baud b' = 115200 /\ uart_offset b' = 8 /\
  reg_shift b' = 0 /\ first_offset b' = 0.
Proof.
  intros d b'.
  assert (Hg : serial_pci_guess_board d (board_entry FL_BASE0 1 115200 8 0) =
               (0, b')) by reflexivity.
  split; [exact Hg|].
  exact (proj1 (proj2 (guess_board_default_frame d b' Hg))).
Defined.

(** * Further properties of the driver *)

(** ** Outcomes of [setup_port] *)

(** X1.  [setup_port] always returns, with 0, -EINVAL or -ENOMEM: -EINVAL
    exactly for a BAR number of 6 or more, -ENOMEM exactly for a memory
    region below 6 whose mapping is refused.  On failure the port is left as
    it was; in every case the flags, the clock and the interrupt of the port
    are kept; and for an invalid BAR or a region that is not memory no call
    leaves the driver. *)
Theorem setup_port_outcome K priv port bar offset shift w :
  exists rc port' w',
    setup_port K priv port bar offset shift w = Some ((rc, port'), w') /\
    (rc = - EINVAL \/ rc = - ENOMEM \/ rc = 0) /\
    (rc = - EINVAL <-> PCI_NUM_BAR_RESOURCES <= bar) /\
    (rc = - ENOMEM <->
       bar < PCI_NUM_BAR_RESOURCES /\ is_mem (dev priv) bar = true /\
       map_refused K w bar = true) /\
    (rc <> 0 -> port' = port) /\
    (uart_flags port' = uart_flags port /\ uartclk port' = uartclk port /\
     uart_irq port' = uart_irq port) /\
    (PCI_NUM_BAR_RESOURCES <= bar \/ is_mem (dev priv) bar = false -> w' = w).
Proof.
  unfold setup_port, is_mem, map_refused, EINVAL, ENOMEM.
  destruct (Z.leb_spec PCI_NUM_BAR_RESOURCES bar) as [Hbar | Hbar].
  { exists (-22), port, w. split; [reflexivity|].
    repeat split; intros; try lia; auto. }
  destruct (truthy (Z.land (pci_resource_flags (dev priv) bar) IORESOURCE_MEM)).
  2:{ eexists 0, _, w. split; [reflexivity|]. simpl.
      repeat split; intros; try lia; try congruence; intuition congruence. }
  unfold bind, extern; simpl.
  destruct (Z.eqb_spec (K (log w) (pcim_iomap bar)) 0) as [Hp | Hp]; simpl.
  - rewrite Hp.
    destruct (Z.eqb_spec (K (log w ++ [(pcim_iomap bar, 0)]) pcim_iomap_table) 0)
      as [Ht | Ht]; simpl.
    + eexists (-12), port, _. split; [reflexivity|].
      repeat split; intros; try lia; intuition congruence.
    + eexists 0, _, _. split; [reflexivity|]. simpl.
      repeat split; intros; try lia; intuition congruence.
  - eexists 0, _, _. split; [reflexivity|]. simpl.
    repeat split; intros; try lia; intuition congruence.
Qed.

(** X2.  The mapping of a memory BAR is reused: when [pcim_iomap] returns
    NULL for a BAR below 6 but the iomap table exists, [setup_port] does not
    fail; the window is memory-mapped at the table's entry for the BAR plus
    the offset, with the register shift it was given. *)
Theorem setup_port_reuses_mapping K priv port bar offset shift w :
  bar < PCI_NUM_BAR_RESOURCES -> is_mem (dev priv) bar = true ->
  K (log w) (pcim_iomap bar) = 0 ->
  let t := K (log w ++ [(pcim_iomap bar, 0)]) pcim_iomap_table in
  t <> 0 ->
  let m := K (log w ++ [(pcim_iomap bar, 0); (pcim_iomap_table, t)])
             (pcim_iomap_table_at bar) in
  setup_port K priv port bar offset shift w =
    Some ((0, {| iotype := UPIO_MEM; iobase := 0;
                 mapbase := to_u64 (pci_resource_start (dev priv) bar + offset);
                 membase := to_u64 (m + offset);
                 regshift := to_u8 shift;
                 uart_flags := uart_flags port; uartclk := uartclk port;
                 uart_irq := uart_irq port |}),
          emit w [(pcim_iomap bar, 0); (pcim_iomap_table, t);
                  (pcim_iomap_table_at bar, m)]).
Proof.
  intros Hbar Hmem Hp t Ht m. unfold setup_port.
  destruct (Z.leb_spec PCI_NUM_BAR_RESOURCES bar); [lia|].
  unfold is_mem in Hmem. rewrite Hmem.
  unfold bind at 1, extern at 1. cbv zeta. rewrite Hp. cbn [Z.eqb].
  unfold bind at 1, extern at 1. cbv zeta.
  change (log (emit w [(pcim_iomap bar, 0)]))
    with (log w ++ [(pcim_iomap bar, 0)]).
  fold t. rewrite (proj2 (Z.eqb_neq t 0) Ht). cbn [andb].
  unfold bind, extern, ret. cbv zeta. rewrite !emit_emit.
  reflexivity.
Qed.

Lemma setup_port_reuses_mapping_witness :
  exists port',
    setup_port remapping_kernel
      (sample_priv (sample_dev 0x070002 IORESOURCE_MEM) four_ports)
      blank_port 0 8 2 fresh =
      Some ((0, port'),
            emit fresh [(pcim_iomap 0, 0);
                        (pcim_iomap_table, 0xffff888000000000);
                        (pcim_iomap_table_at 0, 0xffffc90000000000)]) /\
    iotype port' = UPIO_MEM /\ mapbase port' = 0xd008 /\
    membase port' = 0xffffc90000000008 /\ regshift port' = 2.
Proof.
  eexists. split.
  - apply (setup_port_reuses_mapping remapping_kernel
             (sample_priv (sample_dev 0x070002 IORESOURCE_MEM) four_ports)
             blank_port 0 8 2 fresh);
      [reflexivity | reflexivity | reflexivity |].
    by vm_compute.
  - repeat split.
Defined.

(** ** The setup functions outside the claims' range *)

(** X3.  From index 6 on, [addidata_apci7800_setup] stays in BAR
    [base + 3]: index [idx] is put at offset
    [first_offset + (idx - 6) * uart_offset] of that BAR, also for indices
    of 8 and more.  With a base BAR of 3 or more that BAR does not exist and
    the answer is -EINVAL, the port untouched. *)
Theorem addidata_apci7800_setup_high K priv b port idx :
  6 <= idx ->
  addidata_apci7800_setup K priv b port idx =
    setup_port K priv port (FL_GET_BASE (flags b) + 3)
      (to_int (to_uint (first_offset b + (idx - 6) * uart_offset b)))
      (to_int (reg_shift b)) /\
  (3 <= FL_GET_BASE (flags b) ->
   forall w,
     addidata_apci7800_setup K priv b port idx w = Some ((- EINVAL, port), w)).
Proof.
  intros Hidx. pose proof (FL_GET_BASE_range (flags b)) as Hb.
  assert (Heq : addidata_apci7800_setup K priv b port idx =
                setup_port K priv port (FL_GET_BASE (flags b) + 3)
                  (to_int (to_uint (first_offset b + (idx - 6) * uart_offset b)))
                  (to_int (reg_shift b))).
  { unfold addidata_apci7800_setup.
    destruct (Z.ltb_spec idx 2); [lia|].
    destruct (Z.ltb_spec idx 4); [lia|]. rewrite andb_false_r.
    destruct (Z.ltb_spec idx 6); [lia|]. rewrite andb_false_r.
    destruct (Z.leb_spec 6 idx); [|lia].
    rewrite to_uint_small by lia. rewrite (to_int_small (_ + 3)) by lia.
    reflexivity. }
  split; [exact Heq|].
  intros Hbase w. rewrite Heq. unfold setup_port.
  destruct (Z.leb_spec PCI_NUM_BAR_RESOURCES (FL_GET_BASE (flags b) + 3));
    [reflexivity|]. unfold PCI_NUM_BAR_RESOURCES in *. lia.
Qed.

Lemma addidata_apci7800_setup_high_witness :
  let b := board_entry FL_BASE1 10 115200 8 0 in
  let priv := sample_priv (sample_dev 0x070002 IORESOURCE_IO) b in
  addidata_apci7800_setup failing_kernel priv b blank_port 8 =
    setup_port failing_kernel priv blank_port 4 16 0.
Proof.
  intros b priv.
  destruct (addidata_apci7800_setup_high failing_kernel priv b blank_port 8)
    as [Heq _]; [lia|].
  exact Heq.
Defined.

(** X4.  No board of [pci_boards] has the capacity cap, and a setup
    function answers 1 ("not present") only in [pci_default_setup] on a
    capped board at an index at or above [maxnr], leaving port and world as
    they were: with the boards of the table the attach loop is only ever cut
    short by an error. *)
Theorem not_present_only_capped :
  Forall (fun b => capped b = false) pci_boards /\
  forall K f priv b port idx w port' w',
    call_setup K f priv b port idx w = Some ((1, port'), w') ->
    f = SETUP_pci_default /\ capped b = true /\
    default_maxnr (dev priv) b (fst (default_target b idx)) <= to_uint idx /\
    port' = port /\ w' = w.
Proof.
  split.
  - unfold pci_boards. repeat constructor.
  - intros K f priv b port idx w port' w' Hrun.
    assert (Hsp : forall bar offset shift,
              setup_port K priv port bar offset shift w <>
              Some ((1, port'), w')).
    { intros bar offset shift Heq.
      destruct (setup_port_total K priv port bar offset shift w)
        as (p1 & w1 & Heq' & _).
      rewrite Heq in Heq'. injection Heq' as Hrc _ _.
      unfold setup_port_rc, EINVAL, ENOMEM in Hrc.
      destruct (_ <=? _); [discriminate|]. destruct (_ && _); discriminate. }
    destruct f; simpl in Hrun.
    + unfold addidata_apci7800_setup in Hrun.
      destruct (if idx <? 2 then _ else _) as [bar offset].
      exfalso. eapply Hsp. exact Hrun.
    + unfold pci_default_setup in Hrun. fold (capped b) in Hrun.
      destruct (default_target b idx) as [bar offset] eqn:Ht. cbn [fst].
      destruct (capped b); cbn [andb] in Hrun.
      * destruct (Z.leb_spec (default_maxnr (dev priv) b bar) (to_uint idx)).
        -- injection Hrun as <- <-. auto.
        -- exfalso. eapply Hsp. exact Hrun.
      * exfalso. eapply Hsp. exact Hrun.
Qed.

Lemma not_present_only_capped_witness :
  let priv := sample_priv (sample_dev 0x070002 IORESOURCE_IO) capped_board in
  call_setup failing_kernel SETUP_pci_default priv capped_board blank_port 8
    fresh = Some ((1, blank_port), fresh) /\
  capped capped_board = true.
Proof.
  intros priv.
  assert (Hrun : call_setup failing_kernel SETUP_pci_default priv capped_board
                   blank_port 8 fresh = Some ((1, blank_port), fresh))
    by reflexivity.
  split; [exact Hrun|].
  exact (proj1 (proj2 (proj2 not_present_only_capped _ _ _ _ _ _ _ _ _ Hrun))).
Defined.

(** ** Dispatch over the driver's tables *)

(** X5.  Over [pci_serial_quirks] a device gets the two-ports-per-BAR setup
    exactly when its vendor is AMCC and its device is the APCI-7800,
    whatever its subsystem identifiers; every other device gets
    [pci_default_setup].  The entry found never has a probe, init or exit
    hook. *)
Theorem find_quirk_dispatch d w :
  exists q,
    find_quirk pci_serial_quirks d w = Some (q, w) /\
    (dev_vendor d = PCI_VENDOR_ID_AMCC /\
     dev_device d = PCI_DEVICE_ID_AMCC_ADDIDATA_APCI7800 ->
     setup q = SETUP_addidata_apci7800) /\
    (~ (dev_vendor d = PCI_VENDOR_ID_AMCC /\
        dev_device d = PCI_DEVICE_ID_AMCC_ADDIDATA_APCI7800) ->
     setup q = SETUP_pci_default) /\
    probe q = None /\ init q = None /\ exit q = None.
Proof.
  unfold find_quirk, pci_serial_quirks, scan_quirks, quirk_matches,
    quirk_id_matches.
  cbn [vendor device subvendor subdevice].
  change (PCI_ANY_ID =? PCI_ANY_ID) with true.
  change (PCI_VENDOR_ID_AMCC =? PCI_ANY_ID) with false.
  change (PCI_DEVICE_ID_AMCC_ADDIDATA_APCI7800 =? PCI_ANY_ID) with false.
  cbn [orb andb].
  destruct (Z.eqb_spec PCI_VENDOR_ID_AMCC (dev_vendor d)) as [Hv | Hv];
    destruct (Z.eqb_spec PCI_DEVICE_ID_AMCC_ADDIDATA_APCI7800 (dev_device d))
      as [Hd | Hd];
    cbn [andb]; eexists; (split; [reflexivity|]); cbn [setup probe init exit];
    repeat split; try reflexivity; intros;
    try (intuition congruence); exfalso; auto.
Qed.

(** X6.  Every entry of the device table names a board of [pci_boards]
    other than the default one, so that for the devices of the table the
    heuristic never decides.  The board it names has ports, except for the
    AMCC APCI-7800 entry: its board [pbn_b1_8_115200] has no initialiser in
    [pci_boards] and so a nominal count of 0. *)
Theorem serial_pci_tbl_boards :
  Forall (fun e => pbn_default < driver_data e < Z.of_nat (length pci_boards))
         serial_pci_tbl /\
  forall e b,
    In e serial_pci_tbl ->
    pci_boards !! Z.to_nat (driver_data e) = Some b ->
    (num_ports b = 0 <->
     id_vendor e = PCI_VENDOR_ID_AMCC /\
     id_device e = PCI_DEVICE_ID_AMCC_ADDIDATA_APCI7800).
Proof.
  split.
  - unfold serial_pci_tbl. repeat constructor.
  - intros e b He Hb. unfold serial_pci_tbl in He. simpl in He.
    repeat (destruct He as [<- | He];
            [injection Hb as <-; vm_compute;
             split; [try discriminate; auto
                    | intros [Hv Hd]; try discriminate Hv; reflexivity]|]).
    destruct He.
Qed.

Lemma serial_pci_tbl_boards_witness :
  num_ports (board_entry 0 0 0 0 0) = 0 <->
  PCI_VENDOR_ID_AMCC = PCI_VENDOR_ID_AMCC /\
  PCI_DEVICE_ID_AMCC_ADDIDATA_APCI7800 = PCI_DEVICE_ID_AMCC_ADDIDATA_APCI7800.
Proof.
  apply (proj2 serial_pci_tbl_boards
           (tbl_entry PCI_VENDOR_ID_AMCC PCI_DEVICE_ID_AMCC_ADDIDATA_APCI7800
              PCI_ANY_ID PCI_ANY_ID pbn_b1_8_115200)).
  - simpl. tauto.
  - reflexivity.
Defined.

(** ** The heuristic beyond phase 1 *)

Lemma guess_run_qualifies d n f i :
  guess_run d (n, f) i =
    if qualifies d i && ((f =? -1) || (f + n =? i))
    then (n + 1, if f =? -1 then i else f)
    else (n, f).
Proof. reflexivity. Qed.

Ltac bar_cases i H :=
  let Hc := fresh "Hc" in
  assert (Hc : i = 0 \/ i = 1 \/ i = 2 \/ i = 3 \/ i = 4 \/ i = 5) by lia;
  destruct Hc as [->|[->|[->|[->|[->| ->]]]]];
  first [assumption | lia].

Ltac is_pos_numeral p :=
  match p with
  | xH => idtac
  | xI ?q => is_pos_numeral q
  | xO ?q => is_pos_numeral q
  end.

Ltac is_numeral z :=
  match z with
  | Z0 => idtac
  | Zpos ?p => is_pos_numeral p
  | Zneg ?p => is_pos_numeral p
  end.

(** Evaluate the integer tests and sums of numerals in the goal. *)
Ltac eval_closed :=
  repeat match goal with
         | |- context [Z.eqb ?a ?b] =>
             is_numeral a; is_numeral b;
             let v := eval vm_compute in (Z.eqb a b) in
             change (Z.eqb a b) with v
         | |- context [Z.add ?a ?b] =>
             is_numeral a; is_numeral b;
             let v := eval vm_compute in (Z.add a b) in
             change (Z.add a b) with v
         end;
  cbn [andb orb].

(** The second loop finds the first 8-byte I/O BAR and counts the BARs that
    qualify from there without a gap: the first run, whether or not a longer
    one follows. *)
Lemma guess_run_first_run d :
  let r := fold_left (guess_run d) bars (0, -1) in
  (fst r = 0 /\ snd r = -1 /\ forall i, 0 <= i < 6 -> qualifies d i = false) \/
  (0 <= snd r /\ 1 <= fst r /\ snd r + fst r <= 6 /\
   (forall i, 0 <= i < snd r -> qualifies d i = false) /\
   run_of d (snd r) (fst r) /\
   (snd r + fst r < 6 -> qualifies d (snd r + fst r) = false)).
Proof.
  change bars with [0; 1; 2; 3; 4; 5]. cbn [fold_left].
  destruct (qualifies d 0) eqn:H0; destruct (qualifies d 1) eqn:H1;
    destruct (qualifies d 2) eqn:H2; destruct (qualifies d 3) eqn:H3;
    destruct (qualifies d 4) eqn:H4; destruct (qualifies d 5) eqn:H5;
    repeat (rewrite guess_run_qualifies;
            rewrite ?H0, ?H1, ?H2, ?H3, ?H4, ?H5; eval_closed);
    cbn [fst snd]; eval_closed;
    first
      [ left; split; [reflexivity|]; split; [reflexivity|];
        intros i Hi; bar_cases i Hi
      | right; split; [lia|]; split; [lia|]; split; [lia|];
        split; [intros i Hi; bar_cases i Hi|];
        split; [intros i Hi; bar_cases i Hi|];
        first [intros _; assumption | lia] ].
Qed.

Lemma lor_base_bars f :
  0 <= f < 6 ->
  to_uint (Z.lor f FL_BASE_BARS) = Z.lor f FL_BASE_BARS /\
  FL_GET_BASE (Z.lor f FL_BASE_BARS) = f /\
  truthy (Z.land (Z.lor f FL_BASE_BARS) FL_BASE_BARS) = true /\
  truthy (Z.land (Z.lor f FL_BASE_BARS) FL_REGION_SZ_CAP) = false.
Proof.
  intros Hf.
  assert (Hc : f = 0 \/ f = 1 \/ f = 2 \/ f = 3 \/ f = 4 \/ f = 5) by lia.
  destruct Hc as [->|[->|[->|[->|[->| ->]]]]]; repeat split.
Qed.

Lemma small_base_flags p :
  0 <= p < 6 ->
  FL_GET_BASE p = p /\
  truthy (Z.land p FL_BASE_BARS) = false /\
  truthy (Z.land p FL_REGION_SZ_CAP) = false.
Proof.
  intros Hp.
  assert (Hc : p = 0 \/ p = 1 \/ p = 2 \/ p = 3 \/ p = 4 \/ p = 5) by lia.
  destruct Hc as [->|[->|[->|[->|[->| ->]]]]]; repeat split.
Qed.

(** The three ways the heuristic ends. *)
Lemma guess_board_cases d b :
  let r := serial_pci_guess_board d b in
  (fst r = - ENODEV /\ snd r = b) \/
  (fst r = 0 /\ guessable_class d /\ packed_layout d /\
   exists p, io_regions d = [p] /\ 0 <= p < 6 /\ is_io d p = true /\
             snd r = guessed b p (to_uint (pci_resource_len d p / 8))) \/
  (fst r = 0 /\ guessable_class d /\ ~ packed_layout d /\
   exists f n, 0 <= f /\ 2 <= n /\ f + n <= 6 /\
               (forall i, 0 <= i < f -> qualifies d i = false) /\
               run_of d f n /\
               (f + n < 6 -> qualifies d (f + n) = false) /\
               snd r = guessed b (Z.lor f FL_BASE_BARS) n).
Proof.
  unfold serial_pci_guess_board.
  destruct (serial_pci_is_class_communication_rc d) as [Hrc | ->];
    [|left; split; reflexivity].
  rewrite Hrc. cbn [truthy Z.eqb negb].
  apply serial_pci_is_class_communication_spec in Hrc as [Hclass Hif].
  destruct (Z.eqb_spec (Z.shiftr (dev_class d) 8)
              PCI_CLASS_COMMUNICATION_MULTISERIAL) as [Hm | Hm];
    [left; split; reflexivity|].
  assert (Hg : guessable_class d) by (unfold guessable_class; tauto).
  rewrite guess_count_bars.
  destruct (Z.leb_spec (Z.of_nat (length (mem_regions d))) 1) as [Hmem | Hmem];
    destruct (Z.eqb_spec (Z.of_nat (length (io_regions d))) 1) as [Hio | Hio];
    cbn [andb].
  1:{ right. left. cbn [fst snd].
      destruct (io_regions d) as [|p [|]] eqn:Hl; try (simpl in Hio; lia).
      assert (Hp : In p (io_regions d)) by (rewrite Hl; left; reflexivity).
      apply filter_In in Hp as [Hp Hpio]. apply bars_spec in Hp.
      split; [reflexivity|]. split; [exact Hg|].
      split; [split; [lia | rewrite Hl; reflexivity]|].
      exists p. cbn [hd]. rewrite (to_uint_small p) by lia.
      repeat split; auto; lia. }
  all: assert (Hnp : ~ packed_layout d) by (intros [? ?]; lia).
  all: pose proof (guess_run_first_run d) as Hrun; cbv zeta in Hrun;
    destruct (fold_left (guess_run d) bars (0, -1)) as [n f];
    cbn [fst snd] in Hrun;
    destruct (Z.ltb_spec 1 n) as [Hn | Hn];
    [|left; split; reflexivity];
    right; right; cbn [fst snd];
    destruct Hrun as [(Hz & _) | (Hf & Hn1 & Hfn & Hfirst & Hr & Hmax)];
    [lia|];
    split; [reflexivity|]; split; [exact Hg|]; split; [exact Hnp|];
    exists f, n;
    destruct (lor_base_bars f) as (Hu & _); [lia|];
    rewrite Hu, (to_uint_small n) by lia;
    repeat split; auto; lia.
Qed.

(** X7.  The heuristic returns 0 or -ENODEV, and with -ENODEV it has left
    the board exactly as it was; with 0 it has replaced [flags] and
    [num_ports] and kept the other four fields. *)
Theorem serial_pci_guess_board_result d b :
  let r := serial_pci_guess_board d b in
  (fst r = 0 \/ fst r = - ENODEV) /\
  (fst r <> 0 -> snd r = b) /\
  (fst r = 0 -> snd r = guessed b (flags (snd r)) (num_ports (snd r))).
Proof.
  pose proof (guess_board_cases d b) as H. cbv zeta in *.
  destruct H as [[Hrc Hb] | [(Hrc & _ & _ & p & _ & _ & _ & Hb)
                           | (Hrc & _ & _ & f & n & _ & _ & _ & _ & _ & _ & Hb)]];
    rewrite Hrc, Hb; unfold ENODEV; repeat split; auto; intros; lia.
Qed.

(** X8.  Phase 2.  For a device that passes the class gate and does not
    have the layout of phase 1: if the first 8-byte I/O BAR [f] opens a run
    of [n >= 2] such BARs, the heuristic answers 0 with a BAR-indexed board
    of base BAR [f] and [n] ports, and it counts that first run only,
    whatever follows the gap after it; otherwise it answers -ENODEV. *)
Theorem serial_pci_guess_board_phase2 d b :
  guessable_class d -> ~ packed_layout d ->
  (exists f n,
     0 <= f /\ 2 <= n /\ f + n <= 6 /\
     (forall i, 0 <= i < f -> qualifies d i = false) /\
     run_of d f n /\ (f + n < 6 -> qualifies d (f + n) = false) /\
     serial_pci_guess_board d b = (0, guessed b (Z.lor f FL_BASE_BARS) n) /\
     FL_GET_BASE (Z.lor f FL_BASE_BARS) = f /\
     bar_indexed (guessed b (Z.lor f FL_BASE_BARS) n) = true) \/
  (serial_pci_guess_board d b = (- ENODEV, b) /\
   forall f, 0 <= f < 5 ->
     (forall i, 0 <= i < f -> qualifies d i = false) ->
     qualifies d f = true -> qualifies d (f + 1) = false).
Proof.
  intros Hg Hnp. unfold serial_pci_guess_board.
  assert (Hrc : serial_pci_is_class_communication d = 0).
  { apply serial_pci_is_class_communication_spec.
    destruct Hg as [[? | ?] ?]; tauto. }
  rewrite Hrc. cbn [truthy Z.eqb negb].
  assert (Hm : (Z.shiftr (dev_class d) 8 =?
                PCI_CLASS_COMMUNICATION_MULTISERIAL) = false).
  { apply Z.eqb_neq. destruct Hg as [[-> | ->] _]; discriminate. }
  rewrite Hm, guess_count_bars.
  assert (Hp1 : (Z.of_nat (length (mem_regions d)) <=? 1) &&
                (Z.of_nat (length (io_regions d)) =? 1) = false).
  { apply andb_false_iff.
    destruct (Z.leb_spec (Z.of_nat (length (mem_regions d))) 1); [|auto].
    destruct (Z.eqb_spec (Z.of_nat (length (io_regions d))) 1); [|auto].
    exfalso. apply Hnp. split; lia. }
  rewrite Hp1.
  pose proof (guess_run_first_run d) as Hrun. cbv zeta in Hrun.
  destruct (fold_left (guess_run d) bars (0, -1)) as [n f].
  cbn [fst snd] in Hrun.
  destruct (Z.ltb_spec 1 n) as [Hn | Hn].
  - left. destruct Hrun as [(Hz & _) | (Hf & Hn1 & Hfn & Hfirst & Hr & Hmax)];
      [lia|].
    exists f, n. destruct (lor_base_bars f) as (Hu & Hb & Hbt & _); [lia|].
    rewrite Hu, (to_uint_small n) by lia.
    repeat split; auto; lia.
  - right. split; [reflexivity|]. intros f' Hf' Hfirst' Hq'.
    destruct Hrun as [(_ & _ & Hnone) | (Hf & Hn1 & Hfn & Hfirst & Hr & Hmax)].
    + rewrite Hnone in Hq' by lia. discriminate Hq'.
    + assert (n = 1) by lia. subst n.
      assert (Hqf : qualifies d f = true) by (apply Hr; lia).
      assert (f' = f).
      { destruct (Z.lt_trichotomy f' f) as [Hlt | [Heq | Hgt]]; [|exact Heq|].
        - rewrite Hfirst in Hq' by lia. discriminate Hq'.
        - rewrite Hfirst' in Hqf by lia. discriminate Hqf. }
      subst f'. apply Hmax. lia.
Qed.

(** BARs 1 and 2 are 8-byte I/O BARs, BAR 3 is empty, BARs 4 and 5 are 8-byte
    I/O BARs again: two ports from BAR 1. *)
Lemma serial_pci_guess_board_phase2_witness :
  serial_pci_guess_board (io8_dev 0x070002 [1; 2; 4; 5])
    (board_entry FL_BASE0 1 115200 8 0) =
    (0, board_entry (Z.lor FL_BASE1 FL_BASE_BARS) 2 115200 8 0).
Proof.
  destruct (serial_pci_guess_board_phase2 (io8_dev 0x070002 [1; 2; 4; 5])
              (board_entry FL_BASE0 1 115200 8 0))
    as [(f & n & _ & _ & _ & _ & _ & _ & Heq & _) | [Heq _]].
  - split; [left; reflexivity | by vm_compute].
  - intros [_ Hio]. vm_compute in Hio. discriminate Hio.
  - transitivity (0, guessed (board_entry FL_BASE0 1 115200 8 0)
                        (Z.lor f FL_BASE_BARS) n); [exact Heq|].
    rewrite <- Heq. reflexivity.
  - vm_compute in Heq. discriminate Heq.
Defined.

Lemma setup_port_io K priv port bar offset shift w :
  bar < PCI_NUM_BAR_RESOURCES -> is_mem (dev priv) bar = false ->
  setup_port K priv port bar offset shift w =
    Some ((0, {| iotype := UPIO_PORT;
                 iobase := to_u64 (pci_resource_start (dev priv) bar + offset);
                 mapbase := 0; membase := 0; regshift := 0;
                 uart_flags := uart_flags port; uartclk := uartclk port;
                 uart_irq := uart_irq port |}), w).
Proof.
  intros Hbar Hmem. unfold setup_port.
  destruct (Z.leb_spec PCI_NUM_BAR_RESOURCES bar); [lia|].
  unfold is_mem in Hmem. rewrite Hmem. reflexivity.
Qed.

(** X9.  The ports a guessed board announces exist.  Let the heuristic
    succeed on a board with stride 8 and first offset 0 (such as the default
    entry), on a device whose I/O BARs are not also flagged as memory and
    are shorter than 2^31.  Then for every index below the guessed
    [num_ports], [pci_default_setup] resolves a port-I/O window without any
    outside call: 8 bytes that lie inside an I/O BAR of the device, in BAR
    [base + i] at offset 0 for a BAR-indexed guess, in the base BAR at offset
    [8 * i] otherwise. *)
Theorem guessed_ports_resolve K d b b' priv port w i :
  uart_offset b = 8 -> first_offset b = 0 ->
  serial_pci_guess_board d b = (0, b') -> dev priv = d ->
  (forall j, 0 <= j < 6 -> is_io d j = true ->
     is_mem d j = false /\ 0 <= pci_resource_len d j < 2 ^ 31) ->
  0 <= i < num_ports b' ->
  exists bar off port',
    pci_default_setup K priv b' port i w = Some ((0, port'), w) /\
    iotype port' = UPIO_PORT /\
    iobase port' = to_u64 (pci_resource_start d bar + off) /\
    0 <= bar < 6 /\ is_io d bar = true /\
    0 <= off /\ off + 8 <= pci_resource_len d bar /\
    (bar, off) = if bar_indexed b' then (FL_GET_BASE (flags b') + i, 0)
                 else (FL_GET_BASE (flags b'), 8 * i).
Proof.
  intros Hstride Hfirst Hg Hdev Hregs Hi.
  pose proof (guess_board_cases d b) as Hcases. cbv zeta in Hcases.
  rewrite Hg in Hcases. cbn [fst snd] in Hcases. unfold ENODEV in Hcases.
  destruct Hcases as [[Hrc _] | [(_ & _ & _ & p & _ & Hp & Hpio & ->)
                      | (_ & _ & _ & f & n & Hf & Hn & Hfn & _ & Hrun & _ & ->)]];
    [lia| |].
  - (* phase 1 *)
    destruct (Hregs p Hp Hpio) as [Hpmem Hlen].
    destruct (small_base_flags p Hp) as (Hbase & Hbt & Hcap).
    cbn [num_ports guessed] in Hi.
    assert (Hq : 0 <= pci_resource_len d p / 8 < 2 ^ 28).
    { split; [apply Z.div_pos; lia | apply Z.div_lt_upper_bound; lia]. }
    rewrite to_uint_small in Hi by lia.
    pose proof (Z.mul_div_le (pci_resource_len d p) 8 ltac:(lia)) as Hmul.
    exists p, (8 * i). eexists.
    unfold pci_default_setup, default_target, bar_indexed.
    cbn [flags guessed first_offset uart_offset reg_shift].
    rewrite Hbt, Hcap, Hbase, Hstride, Hfirst. cbn [andb].
    rewrite (to_uint_small (0 + i * 8)) by lia.
    rewrite (to_int_small p), (to_int_small (0 + i * 8)) by lia.
    rewrite setup_port_io by (rewrite ?Hdev; unfold PCI_NUM_BAR_RESOURCES;
                              first [lia | assumption]).
    rewrite Hdev. replace (0 + i * 8) with (8 * i) by lia.
    repeat split; cbn [iotype iobase]; auto; lia.
  - (* phase 2 *)
    cbn [num_ports guessed] in Hi.
    destruct (lor_base_bars f) as (_ & Hbase & Hbt & Hcap); [lia|].
    assert (Hq : qualifies d (f + i) = true) by (apply Hrun; lia).
    unfold qualifies in Hq. apply andb_true_iff in Hq as [Hio Hlen8].
    apply Z.eqb_eq in Hlen8.
    destruct (Hregs (f + i)) as [Hmem _]; [lia | exact Hio |].
    exists (f + i), 0. eexists.
    unfold pci_default_setup, default_target, bar_indexed.
    cbn [flags guessed first_offset uart_offset reg_shift].
    rewrite Hbt, Hcap, Hbase, Hfirst. cbn [andb].
    rewrite (to_uint_small (f + i)) by lia.
    rewrite (to_int_small (f + i)) by lia.
    rewrite setup_port_io by (rewrite ?Hdev; unfold PCI_NUM_BAR_RESOURCES;
                              first [lia | assumption]).
    rewrite Hdev.
    repeat split; cbn [iotype iobase]; auto; lia.
Qed.

(** Port 3 of the card with one 64-byte I/O region sits at 0xd000 + 24. *)
Lemma guessed_ports_resolve_witness :
  let d := sample_dev 0x070002 IORESOURCE_IO in
  let b' := board_entry 0 8 115200 8 0 in
  exists port',
    pci_default_setup failing_kernel (sample_priv d b') b' blank_port 3 fresh =
      Some ((0, port'), fresh) /\
    iobase port' = 0xd000 + 24.
Proof.
  intros d b'.
  destruct (guessed_ports_resolve failing_kernel d
              (board_entry FL_BASE0 1 115200 8 0) b' (sample_priv d b')
              blank_port fresh 3)
    as (bar & off & port' & Heq & _ & Hbase & _ & _ & _ & _ & Hpair);
    [reflexivity | reflexivity | reflexivity | reflexivity |
     | subst b'; cbn; lia |].
  - intros j Hj Hio.
    assert (Hc : j = 0 \/ j = 1 \/ j = 2 \/ j = 3 \/ j = 4 \/ j = 5) by lia.
    destruct Hc as [->|[->|[->|[->|[->| ->]]]]];
      first [discriminate Hio | split; [reflexivity | by vm_compute]].
  - exists port'. split; [exact Heq|].
    injection Hpair as -> ->. exact Hbase.
Defined.

(** ** Bookkeeping of the attach *)

Lemma setup_port_no_registration K priv port bar offset shift w :
  exists rc port' evs,
    setup_port K priv port bar offset shift w =
      Some ((rc, port'), emit w evs) /\
    registered evs = [].
Proof.
  unfold setup_port.
  destruct (PCI_NUM_BAR_RESOURCES <=? bar).
  { exists (- EINVAL), port, []. now rewrite emit_nil. }
  destruct (truthy _).
  2:{ eexists 0, _, []. rewrite emit_nil. split; reflexivity. }
  unfold bind, extern, ret.
  destruct (K (log w) (pcim_iomap bar) =? 0); simpl.
  - destruct (K _ pcim_iomap_table =? 0); rewrite ?emit_emit;
      eexists _, _, _; split; reflexivity.
  - rewrite ?emit_emit. eexists _, _, _; split; reflexivity.
Qed.

Lemma call_setup_no_registration K f priv b port idx w :
  exists rc port' evs,
    call_setup K f priv b port idx w = Some ((rc, port'), emit w evs) /\
    registered evs = [].
Proof.
  destruct f; simpl.
  - unfold addidata_apci7800_setup.
    destruct (if idx <? 2 then _ else _) as [bar offset].
    apply setup_port_no_registration.
  - unfold pci_default_setup.
    destruct (default_target b idx) as [bar offset].
    destruct (_ && _).
    + exists 1, port, []. now rewrite emit_nil.
    + apply setup_port_no_registration.
Qed.

Lemma registered_app evs1 evs2 :
  registered (evs1 ++ evs2) = registered evs1 ++ registered evs2.
Proof. apply omap_app. Qed.

(** The slots the loop fills are the lines the registrations handed out. *)
Lemma attach_loop_registered K q b n : forall i priv uart w,
  0 <= i -> (Z.to_nat i + n <= length (line priv))%nat ->
  exists k priv' evs,
    attach_loop K n i q b priv uart w = Some ((k, priv'), emit w evs) /\
    i <= k <= i + Z.of_nat n /\
    length (line priv') = length (line priv) /\
    (forall j, (j < Z.to_nat i)%nat -> line priv' !! j = line priv !! j) /\
    registered evs =
      take (Z.to_nat (k - i)) (drop (Z.to_nat i) (line priv')).
Proof.
  induction n as [|n IH]; intros i priv uart w Hi Hlen.
  - exists i, priv, []. simpl. rewrite emit_nil, Z.sub_diag.
    repeat split; intros; lia.
  - cbn [attach_loop]. unfold bind at 1.
    destruct (call_setup_no_registration K (setup q) priv b uart i w)
      as (rc & uart' & evs & -> & Hevs). cbn [fst snd].
    destruct (truthy rc).
    { exists i, priv, evs. rewrite Z.sub_diag, Hevs.
      repeat split; intros; lia. }
    unfold bind at 1, extern at 1. cbv zeta.
    set (l := K (log (emit w evs)) (serial8250_register_8250_port uart')).
    rewrite emit_emit.
    destruct (Z.ltb_spec l 0) as [Hneg | Hpos].
    { unfold bind, notify, ret. rewrite emit_emit.
      eexists i, _, _. split; [reflexivity|].
      split; [lia|]. split; [apply set_line_fields|].
      split.
      - intros j Hj. simpl. apply list_lookup_insert_ne. lia.
      - rewrite Z.sub_diag, !registered_app, Hevs. cbn.
        destruct (Z.leb_spec 0 l); [lia | reflexivity]. }
    destruct (IH (i + 1) (set_line priv i l) uart'
                (emit w (evs ++ [(serial8250_register_8250_port uart', l)])))
      as (k & priv' & evs' & Heq & Hk & Hlen' & Hlow & Hreg).
    { lia. }
    { simpl. rewrite length_insert. lia. }
    rewrite Heq, emit_emit.
    exists k, priv', (evs ++ [(serial8250_register_8250_port uart', l)] ++ evs').
    rewrite <- app_assoc.
    split; [reflexivity|]. split; [lia|].
    split; [rewrite Hlen'; apply set_line_fields|].
    split.
    + intros j Hj. rewrite Hlow by lia. simpl.
      apply list_lookup_insert_ne. lia.
    + rewrite !registered_app, Hevs, Hreg. cbn [app registered omap].
      unfold registered at 1. cbn [omap list_omap registered_line].
      destruct (Z.leb_spec 0 l); [|lia]. cbn.
      assert (Hl : line priv' !! Z.to_nat i = Some l).
      { rewrite Hlow by lia. simpl. apply list_lookup_insert_eq. lia. }
      rewrite (drop_S _ _ _ Hl).
      replace (Z.to_nat (k - i)) with (S (Z.to_nat (k - (i + 1)))) by lia.
      replace (Z.to_nat (i + 1)) with (S (Z.to_nat i)) by lia.
      reflexivity.
Qed.

Lemma init_ports_alloc_registered K d b q nr_ports w :
  init_ports_alloc K d b q nr_ports w = None \/
  exists r evs,
    init_ports_alloc K d b q nr_ports w = Some (r, emit w evs) /\
    match r with
    | inl _ => registered evs = []
    | inr priv => attached_lines priv = registered evs
    end.
Proof.
  rewrite init_ports_alloc_eq. cbv zeta.
  destruct (Z.eqb_spec (K (log w) (kzalloc (alloc_size nr_ports))) 0)
    as [Hz | Hnz].
  - right. unfold bind. rewrite call_hook_events, emit_emit. unfold ret.
    eexists (inl _), _. split; [reflexivity|].
    destruct (exit q); reflexivity.
  - destruct (_ && _); [left; reflexivity | right].
    set (p := K (log w) (kzalloc (alloc_size nr_ports))) in *.
    destruct (attach_loop_registered K q b (Z.to_nat nr_ports) 0
                (new_priv p d q b nr_ports) (new_uart d b)
                (emit w [(kzalloc (alloc_size nr_ports), p)]))
      as (k & priv' & evs & Heq & Hk & Hlen & _ & Hreg).
    { lia. }
    { simpl. rewrite length_replicate. lia. }
    unfold bind. rewrite Heq, emit_emit. cbn [fst snd ret].
    eexists (inr _), _. split; [reflexivity|].
    unfold attached_lines. cbn [nr line].
    rewrite registered_app, Hreg, Z.sub_0_r. reflexivity.
Qed.

Lemma init_ports_registered K quirks d b w priv w' :
  addi_pciserial_init_ports K quirks d b w = Some (inr priv, w') ->
  exists evs,
    w' = emit w evs /\ attached_lines priv = registered evs.
Proof.
  unfold addi_pciserial_init_ports, find_quirk.
  destruct (scan_quirks quirks d) as [q|]; [|discriminate].
  unfold bind at 1, ret at 1.
  destruct (init q) as [h|].
  - unfold bind at 1, extern at 1. cbv zeta.
    set (rc := K (log w) (quirk_init h)).
    destruct (rc <? 0); [discriminate|].
    destruct (init_ports_alloc_registered K d b q
                (if truthy rc then rc else to_int (num_ports b))
                (emit w [(quirk_init h, rc)]))
      as [-> | (r & evs & -> & Hr)]; [discriminate|].
    intros [= -> <-]. rewrite emit_emit. eexists. split; [reflexivity|].
    rewrite registered_app. exact Hr.
  - destruct (init_ports_alloc_registered K d b q (to_int (num_ports b)) w)
      as [-> | (r & evs & -> & Hr)]; [discriminate|].
    intros [= -> <-]. eexists. split; [reflexivity | exact Hr].
Qed.

(** X10.  The attached lines of a session are exactly the lines the 8250
    core handed out during its attach, in the order of the registrations: a
    refused registration is not among them, and nothing else is. *)
Theorem attach_books_registered_lines K quirks d b w priv w' :
  addi_pciserial_init_ports K quirks d b w = Some (inr priv, w') ->
  exists evs,
    w' = emit w evs /\ attached_lines priv = registered evs.
Proof. apply init_ports_registered. Qed.

Lemma attach_books_registered_lines_witness :
  let priv := {| priv_addr := 0x1000;
                 dev := sample_dev 0x070002 IORESOURCE_IO; nr := 2;
                 quirk := default_quirk; board := static_board four_ports;
                 line := [0; 1; -28; 0] |} in
  exists evs,
    addi_pciserial_init_ports two_lines_kernel pci_serial_quirks
      (sample_dev 0x070002 IORESOURCE_IO) (static_board four_ports) fresh =
      Some (inr priv, emit fresh evs) /\
    registered evs = [0; 1].
Proof.
  intros priv.
  destruct (attach_books_registered_lines two_lines_kernel pci_serial_quirks
              (sample_dev 0x070002 IORESOURCE_IO) (static_board four_ports) fresh priv
              (snd (default (inl 0, fresh)
                      (addi_pciserial_init_ports two_lines_kernel
                         pci_serial_quirks
                         (sample_dev 0x070002 IORESOURCE_IO) (static_board four_ports)
                         fresh))))
    as (evs & Hw & Hreg); [by vm_compute|].
  exists evs. split.
  - rewrite <- Hw. by vm_compute.
  - rewrite <- Hreg. reflexivity.
Defined.

(** X11.  A session never counts more ports than its [line] array holds,
    and the array has one slot per nominal port: [board->num_ports] when the
    quirk has no init hook or the hook returned 0, the hook's return value
    when that is positive.  The session records the device, the matched
    quirk and the board it was attached with. *)
Theorem init_ports_capacity K quirks d b w q priv w' :
  scan_quirks quirks d = Some q ->
  addi_pciserial_init_ports K quirks d b w = Some (inr priv, w') ->
  0 <= nr priv <= Z.of_nat (length (line priv)) /\
  (init q = None ->
   length (line priv) = Z.to_nat (to_int (num_ports b))) /\
  (forall h, init q = Some h ->
     let rc := K (log w) (quirk_init h) in
     0 <= rc /\
     (rc = 0 -> length (line priv) = Z.to_nat (to_int (num_ports b))) /\
     (0 < rc -> length (line priv) = Z.to_nat rc)) /\
  dev priv = d /\ quirk priv = q /\ board priv = b.
Proof.
  intros Hq Hrun.
  destruct (init_ports_spec K quirks d b w q Hq)
    as [[_ Hnone] | (r & evs & Heq & Hr)];
    [rewrite Hrun in Hnone; discriminate Hnone|].
  rewrite Hrun in Heq. injection Heq as <- _.
  destruct Hr as (Hd & Hqk & Hb & _ & Hcap & Hnr & Hlen & _).
  split; [lia|]. unfold init_outcome in Hcap.
  split; [intros Hinit; rewrite Hinit in Hcap; exact Hcap|].
  split; [|auto].
  intros h Hinit rc. rewrite Hinit in Hcap. cbn [fst] in Hcap. fold rc in Hcap.
  assert (Hrc : 0 <= rc).
  { unfold addi_pciserial_init_ports, find_quirk in Hrun.
    rewrite Hq in Hrun. unfold bind at 1, ret at 1 in Hrun.
    rewrite Hinit in Hrun. unfold bind at 1, extern at 1 in Hrun.
    cbv zeta in Hrun. fold rc in Hrun.
    destruct (Z.ltb_spec rc 0); [discriminate Hrun | lia]. }
  split; [exact Hrc|]. split; intros Hcase.
  - rewrite Hcase in Hcap. exact Hcap.
  - rewrite (proj2 (truthy_true rc)) in Hcap by lia. exact Hcap.
Qed.

Lemma init_ports_capacity_witness :
  exists priv w',
    addi_pciserial_init_ports announcing_kernel hooked_quirks
      (sample_dev 0x070002 IORESOURCE_IO) (static_board four_ports) fresh =
      Some (inr priv, w') /\
    length (line priv) = 2%nat /\ nr priv = 2.
Proof.
  destruct (addi_pciserial_init_ports announcing_kernel hooked_quirks
              (sample_dev 0x070002 IORESOURCE_IO) (static_board four_ports) fresh)
    as [[[rc | priv] w']|] eqn:Hrun;
    [vm_compute in Hrun; discriminate Hrun | | discriminate Hrun].
  exists priv, w'. split; [reflexivity|].
  destruct (init_ports_capacity announcing_kernel hooked_quirks
              (sample_dev 0x070002 IORESOURCE_IO) (static_board four_ports) fresh
              hooked_quirk priv w' eq_refl Hrun) as (_ & _ & Hh & _).
  destruct (Hh 1%nat eq_refl) as (_ & _ & Hpos).
  split; [apply Hpos; reflexivity|].
  vm_compute in Hrun. injection Hrun as <- _. reflexivity.
Defined.

(** X12.  A nominal count of 0 is no error: without an init hook the
    attach allocates the header alone, tries no port at all and returns a
    session with attached count 0 and an empty [line] array.  A negative
    count is no error either, and from -8 to -1 it asks for a block shorter
    than the header: if that allocation succeeds the stores into the session
    reach beyond the block, and nothing is defined. *)
Theorem init_ports_no_port K quirks d (b : board_ptr) w q :
  scan_quirks quirks d = Some q -> init q = None ->
  let n := to_int (num_ports b) in
  let p := K (log w) (kzalloc (alloc_size n)) in
  p <> 0 ->
  (n = 0 ->
   addi_pciserial_init_ports K quirks d b w =
     Some (inr {| priv_addr := p; dev := d; nr := 0; quirk := q; board := b;
                  line := [] |},
           emit w [(kzalloc sizeof_serial_private, p)])) /\
  (-8 <= n < 0 ->
   alloc_size n = sizeof_serial_private + 4 * n /\
   addi_pciserial_init_ports K quirks d b w = None).
Proof.
  intros Hq Hinit n p Hp.
  rewrite (init_ports_eq K quirks d b w q Hq), Hinit, init_ports_alloc_eq.
  fold n. cbv zeta. fold p. rewrite (proj2 (Z.eqb_neq p 0) Hp).
  split.
  - intros Hn. subst p. rewrite Hn. reflexivity.
  - intros Hn.
    assert (Hsize : alloc_size n = sizeof_serial_private + 4 * n).
    { unfold alloc_size, to_u64, sizeof_serial_private.
      apply Z.mod_small. lia. }
    split; [exact Hsize|].
    rewrite Hsize. unfold sizeof_serial_private.
    destruct (Z.ltb_spec n 0); [|lia].
    destruct (Z.ltb_spec (32 + 4 * n) 32); [reflexivity | lia].
Qed.

(** The APCI-7800 card: its table entry names [pbn_b1_8_115200], whose
    nominal count is 0. *)
Lemma init_ports_no_port_witness :
  let d := {| dev_vendor := PCI_VENDOR_ID_AMCC;
              dev_device := PCI_DEVICE_ID_AMCC_ADDIDATA_APCI7800;
              dev_subsystem_vendor := 0; dev_subsystem_device := 0;
              dev_class := 0x070002; dev_irq := 11;
              dev_resource := one_region IORESOURCE_IO |} in
  exists priv w',
    addi_pciserial_init_ports obliging_kernel pci_serial_quirks d
      (static_board (board_entry 0 0 0 0 0)) fresh = Some (inr priv, w') /\
    pci_boards !! Z.to_nat pbn_b1_8_115200 = Some (board_entry 0 0 0 0 0) /\
    nr priv = 0 /\ setup (quirk priv) = SETUP_addidata_apci7800.
Proof.
  intros d.
  destruct (init_ports_no_port obliging_kernel pci_serial_quirks d
              (static_board (board_entry 0 0 0 0 0)) fresh
              (Build_pci_serial_quirk PCI_VENDOR_ID_AMCC
                 PCI_DEVICE_ID_AMCC_ADDIDATA_APCI7800 PCI_ANY_ID PCI_ANY_ID
                 None None SETUP_addidata_apci7800 None))
    as [H _]; [reflexivity | reflexivity | by vm_compute |].
  eexists _, _. split; [apply H; reflexivity|]. repeat split.
Defined.

(** ** Detaching *)

Lemma unregister_loop priv n : forall i w,
  0 <= i -> (Z.to_nat i + n <= length (line priv))%nat ->
  for_loop n i
    (fun i => l <- line_at priv i ;;
              notify (serial8250_unregister_port l)) w =
  Some (tt, emit w (map (fun l => (serial8250_unregister_port l, 0))
                        (take n (drop (Z.to_nat i) (line priv))))).
Proof.
  induction n as [|n IH]; intros i w Hi Hlen.
  - simpl. now rewrite emit_nil.
  - destruct (lookup_lt_is_Some_2 (line priv) (Z.to_nat i)) as [x Hx]; [lia|].
    cbn [for_loop]. unfold bind at 1. unfold bind at 1, line_at.
    rewrite Hx. cbn [ret notify].
    rewrite (drop_S _ _ _ Hx). cbn [take map].
    rewrite IH by lia. rewrite emit_emit.
    replace (Z.to_nat (i + 1)) with (S (Z.to_nat i)) by lia.
    reflexivity.
Qed.

Lemma detach_ports_events quirks priv w q :
  (Z.to_nat (nr priv) <= length (line priv))%nat ->
  scan_quirks quirks (dev priv) = Some q ->
  pciserial_detach_ports quirks priv w =
    Some (tt, emit w (detach_events q priv)).
Proof.
  intros Hlen Hq. unfold pciserial_detach_ports, bind at 1.
  rewrite unregister_loop by (simpl; lia).
  unfold find_quirk. rewrite Hq. unfold bind, ret.
  rewrite call_hook_events, emit_emit. reflexivity.
Qed.

(** X13.  Removal unregisters the lines [line[0 .. nr-1]] in order, all of
    them and without looking at their sign, then calls the exit hook of the
    quirk it finds anew for the device, then frees the session.  When no
    entry of the quirk table matches the device the scan runs off the table
    and nothing is defined. *)
Theorem remove_ports_events quirks priv w :
  (Z.to_nat (nr priv) <= length (line priv))%nat ->
  (forall q, scan_quirks quirks (dev priv) = Some q ->
     addi_pciserial_remove_ports quirks priv w =
       Some (tt, emit w (map (fun l => (serial8250_unregister_port l, 0))
                             (attached_lines priv)
                         ++ hook_events (exit q) quirk_exit
                         ++ [(kfree (priv_addr priv), 0)]))) /\
  (scan_quirks quirks (dev priv) = None ->
   addi_pciserial_remove_ports quirks priv w = None).
Proof.
  intros Hlen. split.
  - intros q Hq. unfold addi_pciserial_remove_ports, bind.
    rewrite (detach_ports_events quirks priv w q Hlen Hq).
    unfold notify. rewrite emit_emit. unfold detach_events.
    rewrite <- app_assoc. reflexivity.
  - intros Hq. unfold addi_pciserial_remove_ports, bind at 1.
    unfold pciserial_detach_ports, bind at 1.
    rewrite unregister_loop by (simpl; lia).
    unfold find_quirk. rewrite Hq. reflexivity.
Qed.

Lemma remove_ports_events_witness :
  addi_pciserial_remove_ports hooked_quirks two_port_session fresh =
    Some (tt, emit fresh [(serial8250_unregister_port 3, 0);
                          (serial8250_unregister_port 4, 0);
                          (quirk_exit 2%nat, 0); (kfree 0x1000, 0)]).
Proof.
  destruct (remove_ports_events hooked_quirks two_port_session fresh)
    as [H _]; [simpl; lia|].
  exact (H hooked_quirk eq_refl).
Defined.

(** X14.  Attach and removal pair up: removing a session that
    [addi_pciserial_init_ports] returned unregisters exactly the lines that
    were handed out during its attach, each once and in the same order,
    calls the exit hook of the session's quirk and frees the address the
    allocation returned. *)
Theorem attach_then_remove K quirks d b w priv evs w1 :
  addi_pciserial_init_ports K quirks d b w = Some (inr priv, emit w evs) ->
  addi_pciserial_remove_ports quirks priv w1 =
    Some (tt, emit w1 (map (fun l => (serial8250_unregister_port l, 0))
                           (registered evs)
                       ++ hook_events (exit (quirk priv)) quirk_exit
                       ++ [(kfree (priv_addr priv), 0)])).
Proof.
  intros Hrun.
  destruct (init_ports_defined _ _ _ _ _ _ _ Hrun) as [q Hq].
  destruct (init_ports_spec K quirks d b w q Hq)
    as [[_ Hnone] | (r & evs' & Heq & Hr)];
    [rewrite Hrun in Hnone; discriminate Hnone|].
  rewrite Hrun in Heq. injection Heq as <- Hw.
  destruct Hr as (Hd & Hqk & _ & _ & _ & _ & Hlen & _).
  destruct (init_ports_registered _ _ _ _ _ _ _ Hrun) as (evs'' & Hw' & Hreg).
  assert (evs'' = evs).
  { unfold emit in Hw'. injection Hw' as Hw'.
    apply app_inv_head in Hw'. congruence. }
  subst evs''. rewrite <- Hreg.
  unfold addi_pciserial_remove_ports, bind.
  rewrite (detach_ports_events quirks priv w1 q Hlen)
    by (rewrite Hd; exact Hq).
  unfold notify. rewrite emit_emit. unfold detach_events.
  rewrite <- app_assoc, Hqk. reflexivity.
Qed.

Lemma attach_then_remove_witness :
  exists priv evs,
    addi_pciserial_init_ports two_lines_kernel pci_serial_quirks
      (sample_dev 0x070002 IORESOURCE_IO) (static_board four_ports) fresh =
      Some (inr priv, emit fresh evs) /\
    addi_pciserial_remove_ports pci_serial_quirks priv fresh =
      Some (tt, emit fresh [(serial8250_unregister_port 0, 0);
                            (serial8250_unregister_port 1, 0);
                            (kfree 0x1000, 0)]).
Proof.
  eexists _, _. split; [lazy; reflexivity|].
  etransitivity.
  - eapply (attach_then_remove two_lines_kernel pci_serial_quirks
              (sample_dev 0x070002 IORESOURCE_IO) (static_board four_ports) fresh).
    lazy. reflexivity.
  - reflexivity.
Defined.

(** ** Probing a board *)

Lemma no_registration_nil : no_registration [].
Proof. intros uart l []. Qed.

Lemma no_registration_app evs1 evs2 :
  no_registration evs1 -> no_registration evs2 ->
  no_registration (evs1 ++ evs2).
Proof.
  intros H1 H2 uart l Hin. apply in_app_iff in Hin as [Hin | Hin].
  - exact (H1 _ _ Hin).
  - exact (H2 _ _ Hin).
Qed.

Lemma no_registration_registered evs :
  no_registration evs -> registered evs = [].
Proof.
  induction evs as [|[c r] evs IH]; intros Hno; [reflexivity|].
  unfold registered. cbn [omap list_omap].
  assert (Hrest : no_registration evs).
  { intros uart l Hin. apply (Hno uart l). right. exact Hin. }
  specialize (IH Hrest). unfold registered in IH. rewrite IH.
  destruct c; try reflexivity.
  exfalso. apply (Hno uart r). left. reflexivity.
Qed.

Lemma init_ports_error_events K quirks d b w rc w' :
  addi_pciserial_init_ports K quirks d b w = Some (inl rc, w') ->
  rc < 0 /\ exists evs, w' = emit w evs /\ no_registration evs.
Proof.
  intros Hrun.
  destruct (init_ports_defined _ _ _ _ _ _ _ Hrun) as [q Hq].
  destruct (init_ports_spec K quirks d b w q Hq)
    as [[_ Hnone] | (r & evs & Heq & Hr)];
    [rewrite Hrun in Hnone; discriminate Hnone|].
  rewrite Hrun in Heq. injection Heq as <- ->.
  destruct Hr as [(h & _ & -> & Hneg & ->) | (-> & pre & sz & -> & Hpre)].
  - split; [exact Hneg|]. eexists. split; [reflexivity|].
    intros uart l [Heq | []]. discriminate Heq.
  - split; [unfold ENOMEM; lia|]. eexists. split; [reflexivity|].
    apply no_registration_app.
    + destruct (init q) as [h|]; subst pre; [|apply no_registration_nil].
      intros uart l [Heq | []]. discriminate Heq.
    + intros uart l [Heq | Hin]; [discriminate Heq|].
      exact (hook_events_no_registration _ _ _ Hin).
Qed.

(** An error of the attach that [IS_ERR] does not recognise is the init
    hook's. *)
Lemma init_ports_unrecognised K quirks d b w rc w' :
  addi_pciserial_init_ports K quirks d b w = Some (inl rc, w') ->
  IS_ERR_VALUE rc = false ->
  exists q h,
    scan_quirks quirks d = Some q /\ init q = Some h /\
    rc = K (log w) (quirk_init h) /\ rc < - MAX_ERRNO /\
    w' = emit w [(quirk_init h, rc)].
Proof.
  intros Hrun Herr.
  destruct (init_ports_defined _ _ _ _ _ _ _ Hrun) as [q Hq].
  destruct (init_ports_spec K quirks d b w q Hq)
    as [[_ Hnone] | (r & evs & Heq & Hr)];
    [rewrite Hrun in Hnone; discriminate Hnone|].
  rewrite Hrun in Heq. injection Heq as <- ->.
  destruct Hr as [(h & Hinit & Hrc & Hneg & ->) | (-> & _)].
  - exists q, h. repeat split; auto.
    unfold IS_ERR_VALUE in Herr. apply andb_false_iff in Herr.
    destruct Herr as [Herr | Herr];
      [apply Z.leb_gt in Herr | apply Z.ltb_ge in Herr]; lia.
  - vm_compute in Herr. discriminate Herr.
Qed.

(** The end of the probe.  Either a session is stored and 0 returned; or an
    init error that [IS_ERR] does not recognise is stored as if it were a
    session and 0 returned; or a negative error is returned.  Only in the
    first case can a port have been registered. *)
Lemma init_one_attach_spec K quirks d b w rc w' :
  init_one_attach K quirks d b w = Some (rc, w') ->
  (rc = 0 /\
   exists priv evs,
     w' = {| log := log w ++ evs; drvdata := Some (session priv) |} /\
     dev priv = d /\ board priv = b /\ session_ok priv /\
     scan_quirks quirks d = Some (quirk priv) /\
     attached_lines priv = registered evs) \/
  (rc = 0 /\
   exists q h e,
     scan_quirks quirks d = Some q /\ init q = Some h /\
     e = K (log w) (quirk_init h) /\ e < - MAX_ERRNO /\
     w' = {| log := log w ++ [(quirk_init h, e)];
             drvdata := Some (err_ptr e) |}) \/
  (rc < 0 /\ exists evs, w' = emit w evs /\ no_registration evs).
Proof.
  unfold init_one_attach, bind at 1.
  destruct (addi_pciserial_init_ports K quirks d b w) as [[[e | priv] w1]|]
    eqn:Hrun; [| |discriminate].
  - destruct (IS_ERR_VALUE e) eqn:Herr.
    + intros [= <- <-]. right. right.
      exact (init_ports_error_events _ _ _ _ _ _ _ Hrun).
    + unfold bind, pci_set_drvdata, ret. intros [= <- <-]. right. left.
      split; [reflexivity|].
      destruct (init_ports_unrecognised _ _ _ _ _ _ _ Hrun Herr)
        as (q & h & Hq & Hinit & He & Hlow & ->).
      exists q, h, e. auto.
  - unfold bind, pci_set_drvdata, ret. intros [= <- <-]. left.
    split; [reflexivity|].
    destruct (init_ports_defined _ _ _ _ _ _ _ Hrun) as [q Hq].
    destruct (init_ports_spec K quirks d b w q Hq)
      as [[_ Hnone] | (r & evs & Heq & Hr)];
      [rewrite Hrun in Hnone; discriminate Hnone|].
    rewrite Hrun in Heq. injection Heq as <- ->.
    destruct Hr as (Hd & Hqk & Hb & _ & _ & Hok).
    destruct (init_ports_registered _ _ _ _ _ _ _ Hrun) as (evs' & Hw & Hreg).
    assert (evs' = evs).
    { unfold emit in Hw. injection Hw as Hw.
      apply app_inv_head in Hw. congruence. }
    subst evs'. exists priv, evs.
    rewrite Hqk. repeat split; auto; apply Hok.
Qed.

(** X15.  A veto of the probe hook ends the probe at once: the hook's
    non-zero value is returned whatever [driver_data] is, and the hook is the
    only call made; the device is not enabled and the driver data not
    touched. *)
Theorem init_one_probe_veto K quirks d driver_data w q h :
  scan_quirks quirks d = Some q -> probe q = Some h ->
  K (log w) (quirk_probe h) <> 0 ->
  pciserial_init_one K quirks d driver_data w =
    Some (K (log w) (quirk_probe h),
          emit w [(quirk_probe h, K (log w) (quirk_probe h))]).
Proof.
  intros Hq Hprobe Hrc. unfold pciserial_init_one, find_quirk.
  rewrite Hq. unfold bind at 1, ret at 1. rewrite Hprobe.
  unfold bind at 1, extern at 1. cbv zeta.
  rewrite (proj2 (truthy_true _) Hrc). reflexivity.
Qed.

Lemma init_one_probe_veto_witness :
  pciserial_init_one vetoing_kernel guarded_quirks
    (sample_dev 0x070002 IORESOURCE_IO) 3 fresh =
    Some (-13, emit fresh [(quirk_probe 3%nat, -13)]).
Proof.
  apply (init_one_probe_veto vetoing_kernel guarded_quirks
           (sample_dev 0x070002 IORESOURCE_IO) 3 fresh guarded_quirk 3%nat);
    [reflexivity | reflexivity | by vm_compute].
Defined.

Ltac prelude_events :=
  let uart := fresh "uart" in
  let l := fresh "l" in
  let Hin := fresh "Hin" in
  intros uart l Hin; simpl in Hin;
  repeat (destruct Hin as [Hin | Hin]; [discriminate Hin|]);
  exact Hin.

(** The probe up to the attach: with passing probe hook the function either
    ends before the attach with a non-zero value, or hands a board to
    [init_one_attach]; what happened before registered nothing. *)
Lemma init_one_cases K quirks d driver_data w rc w' :
  0 <= driver_data ->
  pciserial_init_one K quirks d driver_data w = Some (rc, w') ->
  exists P,
    no_registration P /\
    ((rc <> 0 /\ w' = emit w P) \/
     exists b, init_one_attach K quirks d b (emit w P) = Some (rc, w')).
Proof.
  intros Hdd. unfold pciserial_init_one, find_quirk.
  destruct (scan_quirks quirks d) as [q|]; [|discriminate].
  unfold bind at 1, ret at 1.
  assert (Hgo : forall P0, no_registration P0 ->
    (if Z.of_nat (length pci_boards) <=? driver_data
     then notify dev_err ;;; ret (- EINVAL)
     else
       match pci_boards !! Z.to_nat driver_data,
             pci_boards !! Z.to_nat pbn_default with
       | Some board, Some dflt =>
           rc <- extern K pcim_enable_device ;;
           notify pci_save_state ;;;
           if truthy rc then ret rc
           else if driver_data =? pbn_default then
             let g := serial_pci_guess_board d board in
             if truthy (fst g) then ret (fst g)
             else init_one_attach K quirks d (tmp_board (snd g))
           else
             let g := serial_pci_guess_board d dflt in
             (if (fst g =? 0) && serial_pci_matches board (snd g)
              then moan_device else ret tt) ;;;
             init_one_attach K quirks d (static_board board)
       | _, _ => undefined
       end) (emit w P0) = Some (rc, w') ->
    exists P,
      no_registration P /\
      ((rc <> 0 /\ w' = emit w P) \/
       exists b, init_one_attach K quirks d b (emit w P) = Some (rc, w'))).
  { intros P0 HP0.
    destruct (Z.of_nat (length pci_boards) <=? driver_data).
    { unfold bind, notify, ret. rewrite emit_emit. intros [= <- <-].
      eexists. split; [|left; split; [unfold EINVAL; lia | reflexivity]].
      apply no_registration_app; [exact HP0 | prelude_events]. }
    destruct (pci_boards !! Z.to_nat driver_data) as [board|]; [|discriminate].
    change (pci_boards !! Z.to_nat pbn_default)
      with (Some (board_entry FL_BASE0 1 115200 8 0)). cbv iota.
    unfold bind at 1, extern at 1. cbv zeta.
    set (e := K (log (emit w P0)) pcim_enable_device).
    unfold bind at 1, notify at 1. rewrite !emit_emit.
    destruct (truthy e) eqn:He.
    { unfold ret. intros [= <- <-].
      eexists. split; [|left; split; [apply truthy_true; exact He
                                     | reflexivity]].
      apply no_registration_app; [exact HP0 | prelude_events]. }
    destruct (driver_data =? pbn_default).
    - cbv zeta. destruct (truthy (fst (serial_pci_guess_board d board))) eqn:Hg.
      + unfold ret. intros [= <- <-].
        eexists. split; [|left; split; [apply truthy_true; exact Hg
                                       | reflexivity]].
        apply no_registration_app; [exact HP0 | prelude_events].
      + intros Hrun. eexists. split; [|right; eexists; exact Hrun].
        apply no_registration_app; [exact HP0 | prelude_events].
    - cbv zeta. unfold bind at 1.
      destruct (_ && _); unfold moan_device, notify, ret;
        rewrite ?emit_emit; intros Hrun;
        (eexists; split; [|right; eexists; exact Hrun]);
        repeat match goal with
               | |- no_registration (_ ++ _) => apply no_registration_app
               end;
        first [exact HP0 | prelude_events]. }
  destruct (probe q) as [h|].
  - unfold bind at 1, extern at 1. cbv zeta.
    destruct (truthy (K (log w) (quirk_probe h))) eqn:Hp.
    + unfold ret. intros [= <- <-].
      eexists. split; [|left; split; [apply truthy_true; exact Hp
                                     | reflexivity]].
      prelude_events.
    + apply Hgo. prelude_events.
  - unfold bind at 1, ret at 1. cbn [truthy Z.eqb negb].
    intros Hrun. apply (Hgo []); [apply no_registration_nil|].
    rewrite emit_nil. exact Hrun.
Qed.

(** X16.  What a probe leaves behind.  When [pciserial_init_one] returns 0,
    the driver data holds a session for the device that satisfies the
    session invariant and whose attached lines are the lines registered
    during this probe; or else the quirk's init hook returned a value below
    [-MAX_ERRNO], which [IS_ERR] does not recognise: then the driver data
    holds the [ERR_PTR] of that value and no port was registered.  When the
    probe returns anything else, the driver data is as before and no port
    was registered. *)
Theorem init_one_result K quirks d driver_data w rc w' :
  0 <= driver_data ->
  pciserial_init_one K quirks d driver_data w = Some (rc, w') ->
  (rc = 0 ->
   (exists priv evs,
      log w' = log w ++ evs /\ drvdata w' = Some (session priv) /\
      dev priv = d /\ session_ok priv /\
      scan_quirks quirks d = Some (quirk priv) /\
      attached_lines priv = registered evs) \/
   (exists q h e evs,
      scan_quirks quirks d = Some q /\ init q = Some h /\
      e < - MAX_ERRNO /\ In (quirk_init h, e) evs /\
      log w' = log w ++ evs /\ drvdata w' = Some (err_ptr e) /\
      no_registration evs)) /\
  (rc <> 0 ->
   exists evs, w' = emit w evs /\ no_registration evs).
Proof.
  intros Hdd Hrun.
  destruct (init_one_cases K quirks d driver_data w rc w' Hdd Hrun)
    as (P & HP & [[Hrc ->] | [b Hatt]]).
  - split; [lia|]. intros _. exists P. auto.
  - apply init_one_attach_spec in Hatt
      as [(-> & priv & evs & -> & Hd & Hb & Hok & Hq & Hreg)
         | [(-> & q & h & e & Hq & Hinit & He & Hlow & ->)
           | (Hneg & evs & -> & Hno)]].
    + split; [|lia]. intros _. left.
      exists priv, (P ++ evs). cbn [log drvdata emit].
      rewrite app_assoc, registered_app,
        (no_registration_registered P HP). auto 10.
    + split; [|lia]. intros _. right.
      exists q, h, e, (P ++ [(quirk_init h, e)]). cbn [log drvdata emit].
      rewrite app_assoc. repeat split; auto.
      * apply in_or_app. right. left. reflexivity.
      * apply no_registration_app; [exact HP | prelude_events].
    + split; [lia|]. intros _. exists (P ++ evs).
      rewrite emit_emit. split; [reflexivity|].
      apply no_registration_app; assumption.
Qed.

(** A probe over the driver's own table stores a session; a quirk whose
    init hook answers -5000 makes the probe return 0 all the same, with
    [ERR_PTR(-5000)] as driver data. *)
Lemma init_one_result_witness :
  (exists w' priv,
     pciserial_init_one obliging_kernel pci_serial_quirks
       (sample_dev 0x070002 IORESOURCE_IO) pbn_b0_4_115200 fresh =
       Some (0, w') /\
     drvdata w' = Some (session priv) /\
     attached_lines priv = [0; 1; 2; 3]) /\
  pciserial_init_one wild_init_kernel hooked_quirks
    (sample_dev 0x070002 IORESOURCE_IO) pbn_b0_4_115200 fresh =
    Some (0, {| log := [(pcim_enable_device, 0); (pci_save_state, 0);
                        (quirk_init 1%nat, -5000)];
                drvdata := Some (err_ptr (-5000)) |}).
Proof.
  split; [|by vm_compute].
  destruct (pciserial_init_one obliging_kernel pci_serial_quirks
              (sample_dev 0x070002 IORESOURCE_IO) pbn_b0_4_115200 fresh)
    as [[rc w']|] eqn:Hrun; [|discriminate Hrun].
  destruct (init_one_result obliging_kernel pci_serial_quirks
              (sample_dev 0x070002 IORESOURCE_IO) pbn_b0_4_115200 fresh
              rc w') as [Hok _]; [by vm_compute | exact Hrun |].
  vm_compute in Hrun. injection Hrun as <- <-.
  destruct (Hok eq_refl)
    as [(priv & evs & _ & Hdrv & _) | (q & h & e & evs & _ & _ & _ & _ & _ & Hdrv & _)];
    [|discriminate Hdrv].
  eexists _, priv. split; [reflexivity|]. split; [exact Hdrv|].
  injection Hdrv as <-. reflexivity.
Defined.

(** Step over the quirk scan and a passing probe hook. *)
Ltac pass_probe Hq Hprobe q :=
  unfold pciserial_init_one, find_quirk; rewrite Hq;
  unfold bind at 1, ret at 1; unfold after_probe in *;
  let h := fresh "h" in
  destruct (probe q) as [h|];
  [ unfold bind at 1, extern at 1; cbv zeta;
    rewrite (Hprobe h eq_refl) in *
  | unfold bind at 1, ret at 1 ];
  cbn [truthy Z.eqb negb].

Lemma pci_boards_lookup driver_data :
  0 <= driver_data < Z.of_nat (length pci_boards) ->
  exists board, pci_boards !! Z.to_nat driver_data = Some board.
Proof.
  intros H. apply lookup_lt_is_Some_2. lia.
Qed.

(** X17.  The errors of the probe before any port is touched, once the
    probe hook (if any) has passed.  A [driver_data] beyond [pci_boards] is
    answered with -EINVAL before the device is enabled.  If enabling the
    device fails, its error is returned, after [pci_save_state] has been
    called all the same.  For the default slot a failing heuristic ends the
    probe with -ENODEV, the device enabled and nothing attached. *)
Theorem init_one_early_errors K quirks d w q :
  scan_quirks quirks d = Some q ->
  (forall h, probe q = Some h -> K (log w) (quirk_probe h) = 0) ->
  let w0 := after_probe K q w in
  let e := K (log w0) pcim_enable_device in
  (forall driver_data,
     Z.of_nat (length pci_boards) <= driver_data ->
     pciserial_init_one K quirks d driver_data w =
       Some (- EINVAL, emit w0 [(dev_err, 0)])) /\
  (forall driver_data,
     0 <= driver_data < Z.of_nat (length pci_boards) -> e <> 0 ->
     pciserial_init_one K quirks d driver_data w =
       Some (e, emit w0 [(pcim_enable_device, e); (pci_save_state, 0)])) /\
  (e = 0 ->
   fst (serial_pci_guess_board d (board_entry FL_BASE0 1 115200 8 0)) <> 0 ->
   pciserial_init_one K quirks d pbn_default w =
     Some (- ENODEV,
           emit w0 [(pcim_enable_device, 0); (pci_save_state, 0)])).
Proof.
  intros Hq Hprobe w0 e. subst w0 e. split; [|split].
  - intros driver_data Hdd. pass_probe Hq Hprobe q;
      rewrite (proj2 (Z.leb_le _ _) Hdd); reflexivity.
  - intros driver_data Hdd He.
    destruct (pci_boards_lookup driver_data Hdd) as [board Hb].
    pass_probe Hq Hprobe q;
      (destruct (Z.leb_spec (Z.of_nat (length pci_boards)) driver_data);
       [lia|]);
      rewrite Hb;
      change (pci_boards !! Z.to_nat pbn_default)
        with (Some (board_entry FL_BASE0 1 115200 8 0));
      cbv iota; unfold bind at 1, extern at 1; cbv zeta;
      unfold bind at 1, notify at 1; rewrite emit_emit;
      rewrite (proj2 (truthy_true _) He); reflexivity.
  - intros He Hg.
    assert (Hrc : fst (serial_pci_guess_board d
                         (board_entry FL_BASE0 1 115200 8 0)) = - ENODEV).
    { pose proof (guess_board_cases d (board_entry FL_BASE0 1 115200 8 0)) as H.
      cbv zeta in H. destruct H as [[H _] | [[H _] | [H _]]];
        [exact H | contradiction | contradiction]. }
    pass_probe Hq Hprobe q;
      change (Z.of_nat (length pci_boards) <=? pbn_default) with false;
      change (pci_boards !! Z.to_nat pbn_default)
        with (Some (board_entry FL_BASE0 1 115200 8 0));
      cbv iota beta; unfold bind at 1, extern at 1; cbv zeta;
      rewrite He; unfold bind at 1, notify at 1;
      cbn [truthy Z.eqb negb]; rewrite emit_emit;
      change (pbn_default =? pbn_default) with true; cbv iota zeta;
      rewrite (proj2 (truthy_true _) Hg), Hrc; reflexivity.
Qed.

Lemma init_one_early_errors_witness :
  pciserial_init_one disabled_kernel pci_serial_quirks
    (sample_dev 0x070002 IORESOURCE_IO) pbn_b0_4_115200 fresh =
    Some (-5, emit fresh [(pcim_enable_device, -5); (pci_save_state, 0)]).
Proof.
  destruct (init_one_early_errors disabled_kernel pci_serial_quirks
              (sample_dev 0x070002 IORESOURCE_IO) fresh default_quirk)
    as (_ & H & _); [reflexivity | intros h Hh; discriminate Hh |].
  apply (H pbn_b0_4_115200); by vm_compute.
Defined.

(** X18.  For an explicit board (a [driver_data] other than the default
    slot) the heuristic decides nothing: with passing probe hook and enabled
    device the probe attaches with [pci_boards[driver_data]] whether the
    heuristic fails, succeeds or agrees; agreement in the five compared
    fields only adds one [dev_err] before the attach. *)
Theorem init_one_explicit_board K quirks d driver_data w q :
  scan_quirks quirks d = Some q ->
  (forall h, probe q = Some h -> K (log w) (quirk_probe h) = 0) ->
  pbn_default < driver_data < Z.of_nat (length pci_boards) ->
  K (log (after_probe K q w)) pcim_enable_device = 0 ->
  exists board,
    pci_boards !! Z.to_nat driver_data = Some board /\
    let g := serial_pci_guess_board d (board_entry FL_BASE0 1 115200 8 0) in
    pciserial_init_one K quirks d driver_data w =
      init_one_attach K quirks d (static_board board)
        (emit (after_probe K q w)
              ([(pcim_enable_device, 0); (pci_save_state, 0)] ++
               if (fst g =? 0) && serial_pci_matches board (snd g)
               then [(dev_err, 0)] else [])).
Proof.
  intros Hq Hprobe Hdd He. unfold pbn_default in Hdd.
  destruct (pci_boards_lookup driver_data) as [board Hb]; [lia|].
  exists board. split; [exact Hb|]. cbv zeta.
  pass_probe Hq Hprobe q;
    (destruct (Z.leb_spec (Z.of_nat (length pci_boards)) driver_data);
     [lia|]);
    rewrite Hb;
    change (pci_boards !! Z.to_nat pbn_default)
      with (Some (board_entry FL_BASE0 1 115200 8 0));
    cbv iota; unfold bind at 1, extern at 1; cbv zeta;
    rewrite He; unfold bind at 1, notify at 1;
    cbn [truthy Z.eqb negb]; rewrite emit_emit;
    (destruct (Z.eqb_spec driver_data pbn_default);
     [unfold pbn_default in *; lia|]);
    cbv zeta; unfold bind at 1;
    destruct (_ && _); unfold moan_device, notify, ret;
    rewrite ?emit_emit, ?app_nil_r; reflexivity.
Qed.

(** The NetMos 9835 entry names [pbn_b0_bt_2_115200]; on a card with two
    8-byte I/O BARs the heuristic finds the same layout, and the probe goes
    on with the board of the table after one [dev_err]. *)
Lemma init_one_explicit_board_witness :
  pciserial_init_one obliging_kernel pci_serial_quirks
    (io8_dev 0x070002 [0; 1]) pbn_b0_bt_2_115200 fresh =
    init_one_attach obliging_kernel pci_serial_quirks
      (io8_dev 0x070002 [0; 1])
      (static_board (board_entry (Z.lor FL_BASE0 FL_BASE_BARS) 2 115200 8 0))
      (emit fresh [(pcim_enable_device, 0); (pci_save_state, 0);
                   (dev_err, 0)]).
Proof.
  destruct (init_one_explicit_board obliging_kernel pci_serial_quirks
              (io8_dev 0x070002 [0; 1]) pbn_b0_bt_2_115200 fresh
              default_quirk) as (board & Hb & Heq);
    [reflexivity | intros h Hh; discriminate Hh | by vm_compute
    | reflexivity |].
  injection Hb as <-. exact Heq.
Defined.

(** ** The ports handed to the 8250 core *)

Lemma registrations_none P evs : no_registration evs -> registrations P evs.
Proof. intros Hno u l Hin. destruct (Hno u l Hin). Qed.

Lemma registrations_app P evs1 evs2 :
  registrations P evs1 -> registrations P evs2 ->
  registrations P (evs1 ++ evs2).
Proof.
  intros H1 H2 u l Hin. apply in_app_or in Hin as [Hin | Hin]; eauto.
Qed.

Lemma setup_port_port_of K d b priv port bar offset w :
  port_of d b port ->
  exists rc port' evs,
    setup_port K priv port bar offset (to_int (reg_shift b)) w =
      Some ((rc, port'), emit w evs) /\
    no_registration evs /\ port_of d b port'.
Proof.
  intros (Hf & Hc & Hi & Ht). unfold setup_port.
  destruct (PCI_NUM_BAR_RESOURCES <=? bar).
  { exists (- EINVAL), port, []. rewrite emit_nil.
    split; [reflexivity|]. split; [apply no_registration_nil|].
    repeat split; assumption. }
  destruct (truthy _).
  2:{ eexists 0, _, []. rewrite emit_nil.
      split; [reflexivity|]. split; [apply no_registration_nil|].
      repeat split; assumption. }
  unfold bind, extern, ret.
  destruct (K (log w) (pcim_iomap bar) =? 0); simpl.
  - destruct (K _ pcim_iomap_table =? 0); rewrite ?emit_emit;
      eexists _, _, _; (split; [reflexivity|]);
      (split; [prelude_events|]); repeat split; assumption.
  - rewrite ?emit_emit. eexists _, _, _. split; [reflexivity|].
    split; [prelude_events|]. repeat split; assumption.
Qed.

Lemma call_setup_port_of K f d b priv port idx w :
  port_of d b port ->
  exists rc port' evs,
    call_setup K f priv b port idx w = Some ((rc, port'), emit w evs) /\
    no_registration evs /\ port_of d b port'.
Proof.
  intros Hport. destruct f; simpl.
  - unfold addidata_apci7800_setup.
    destruct (if idx <? 2 then _ else _) as [bar offset].
    apply setup_port_port_of. exact Hport.
  - unfold pci_default_setup.
    destruct (default_target b idx) as [bar offset].
    destruct (_ && _).
    + exists 1, port, []. rewrite emit_nil.
      split; [reflexivity|]. split; [apply no_registration_nil | exact Hport].
    + apply setup_port_port_of. exact Hport.
Qed.

(** The one [uart] of the loop is rewritten by every setup, and only what a
    setup left behind is registered. *)
Lemma attach_loop_ports K q d b n : forall i priv uart w,
  port_of d b uart ->
  exists r evs,
    attach_loop K n i q b priv uart w = Some (r, emit w evs) /\
    registrations (port_of d b) evs.
Proof.
  induction n as [|n IH]; intros i priv uart w Hport.
  - exists (i, priv), []. simpl. rewrite emit_nil.
    split; [reflexivity|]. intros u l [].
  - cbn [attach_loop]. unfold bind at 1.
    destruct (call_setup_port_of K (setup q) d b priv uart i w Hport)
      as (rc & uart' & evs & -> & Hno & Hport'). cbn [fst snd].
    destruct (truthy rc).
    { exists (i, priv), evs. split; [reflexivity|].
      apply registrations_none, Hno. }
    unfold bind at 1, extern at 1. cbv zeta.
    set (l := K (log (emit w evs)) (serial8250_register_8250_port uart')).
    rewrite emit_emit.
    assert (Hreg : registrations (port_of d b)
                     (evs ++ [(serial8250_register_8250_port uart', l)])).
    { apply registrations_app; [apply registrations_none, Hno|].
      intros u l' [[= <- _] | []]. exact Hport'. }
    destruct (l <? 0).
    { unfold bind, notify, ret. rewrite emit_emit.
      eexists _, _. split; [reflexivity|].
      apply registrations_app; [exact Hreg|].
      intros u l' [Heq | []]. discriminate Heq. }
    destruct (IH (i + 1) (set_line priv i l) uart'
                (emit w (evs ++ [(serial8250_register_8250_port uart', l)]))
                Hport') as (r & evs' & -> & Hreg').
    rewrite emit_emit. eexists _, _. split; [reflexivity|].
    apply registrations_app; assumption.
Qed.

Lemma new_uart_port_of d b : port_of d b (new_uart d b).
Proof. repeat split. Qed.

Lemma init_ports_alloc_ports K d b q nr_ports w :
  init_ports_alloc K d b q nr_ports w = None \/
  exists r evs,
    init_ports_alloc K d b q nr_ports w = Some (r, emit w evs) /\
    registrations (port_of d b) evs.
Proof.
  rewrite init_ports_alloc_eq. cbv zeta.
  destruct (K (log w) (kzalloc (alloc_size nr_ports)) =? 0).
  - right. unfold bind. rewrite call_hook_events, emit_emit. unfold ret.
    eexists _, _. split; [reflexivity|].
    apply registrations_none, no_registration_app;
      [prelude_events | apply hook_events_no_registration].
  - destruct (_ && _); [left; reflexivity | right].
    set (p := K (log w) (kzalloc (alloc_size nr_ports))).
    destruct (attach_loop_ports K q d b (Z.to_nat nr_ports) 0
                (new_priv p d q b nr_ports) (new_uart d b)
                (emit w [(kzalloc (alloc_size nr_ports), p)])
                (new_uart_port_of d b)) as (r & evs & Heq & Hreg).
    unfold bind. rewrite Heq, emit_emit. cbn [fst snd ret].
    eexists _, _. split; [reflexivity|].
    apply registrations_app; [|exact Hreg].
    apply registrations_none. prelude_events.
Qed.

(** X19.  Whatever the attach returns, every port it offered to the 8250
    core (accepted or refused) carries the flags SKIP_TEST, BOOT_AUTOCONF and
    SHARE_IRQ, the clock [base_baud * 16] and the interrupt of
    [get_pci_irq], as stored before the loop; and although the loop reuses
    one [uart] for all ports, a port of one I/O type never carries an address
    of the other: an I/O port has no mapping and register shift 0, a
    memory-mapped port has I/O base 0 and the board's register shift. *)
Theorem registered_ports_template K quirks d b w r w' :
  addi_pciserial_init_ports K quirks d b w = Some (r, w') ->
  exists evs, w' = emit w evs /\ registrations (port_of d b) evs.
Proof.
  unfold addi_pciserial_init_ports, find_quirk.
  destruct (scan_quirks quirks d) as [q|]; [|discriminate].
  unfold bind at 1, ret at 1.
  destruct (init q) as [h|].
  - unfold bind at 1, extern at 1. cbv zeta.
    set (rc := K (log w) (quirk_init h)).
    destruct (rc <? 0).
    { unfold ret. intros [= <- <-]. eexists. split; [reflexivity|].
      apply registrations_none. prelude_events. }
    destruct (init_ports_alloc_ports K d b q
                (if truthy rc then rc else to_int (num_ports b))
                (emit w [(quirk_init h, rc)]))
      as [-> | (r' & evs & -> & Hr)]; [discriminate|].
    intros [= <- <-]. rewrite emit_emit. eexists. split; [reflexivity|].
    apply registrations_app; [|exact Hr].
    apply registrations_none. prelude_events.
  - destruct (init_ports_alloc_ports K d b q (to_int (num_ports b)) w)
      as [-> | (r' & evs & -> & Hr)]; [discriminate|].
    intros [= <- <-]. eexists. split; [reflexivity | exact Hr].
Qed.

(** The third port offered by the sample card, the one the kernel refuses,
    is an I/O port at 0xd010 with interrupt 11. *)
Lemma registered_ports_template_witness :
  let u := {| iotype := UPIO_PORT; iobase := 0xd010; mapbase := 0;
              membase := 0; regshift := 0;
              uart_flags := 0x11000040; uartclk := 1843200;
              uart_irq := 11 |} in
  exists r evs,
    addi_pciserial_init_ports two_lines_kernel pci_serial_quirks
      (sample_dev 0x070002 IORESOURCE_IO) (static_board four_ports) fresh =
      Some (r, emit fresh evs) /\
    In (serial8250_register_8250_port u, -28) evs /\
    port_of (sample_dev 0x070002 IORESOURCE_IO) four_ports u.
Proof.
  intros u.
  destruct (addi_pciserial_init_ports two_lines_kernel pci_serial_quirks
              (sample_dev 0x070002 IORESOURCE_IO) (static_board four_ports) fresh)
    as [[r w']|] eqn:Hrun; [|discriminate Hrun].
  destruct (registered_ports_template two_lines_kernel pci_serial_quirks
              (sample_dev 0x070002 IORESOURCE_IO) (static_board four_ports) fresh r w' Hrun)
    as (evs & -> & Hreg).
  vm_compute in Hrun. injection Hrun as <- Hlog.
  assert (Hin : In (serial8250_register_8250_port u, -28) evs).
  { rewrite <- Hlog. simpl. tauto. }
  eexists _, evs. split; [reflexivity|]. split; [exact Hin|].
  exact (Hreg u (-28) Hin).
Defined.

(** ** The bus callbacks *)

Lemma remove_ports_detach quirks priv w q :
  (Z.to_nat (nr priv) <= length (line priv))%nat ->
  scan_quirks quirks (dev priv) = Some q ->
  addi_pciserial_remove_ports quirks priv w =
    Some (tt, emit w (detach_events q priv ++ [(kfree (priv_addr priv), 0)])).
Proof.
  intros Hlen Hq. unfold addi_pciserial_remove_ports, bind.
  rewrite (detach_ports_events quirks priv w q Hlen Hq).
  unfold notify. rewrite emit_emit. reflexivity.
Qed.

Lemma remove_one_detach quirks priv w q :
  drvdata w = Some (session priv) ->
  (Z.to_nat (nr priv) <= length (line priv))%nat ->
  scan_quirks quirks (dev priv) = Some q ->
  pciserial_remove_one quirks w =
    Some (tt, emit w (detach_events q priv ++ [(kfree (priv_addr priv), 0)])).
Proof.
  intros Hdrv Hlen Hq.
  unfold pciserial_remove_one, bind at 1, pci_get_drvdata. rewrite Hdrv.
  apply remove_ports_detach; assumption.
Qed.

(** A probe that returned 0 stored a session of the device, or the
    unrecognised error of the init hook. *)
Lemma init_one_session K quirks d driver_data w w1 :
  0 <= driver_data ->
  pciserial_init_one K quirks d driver_data w = Some (0, w1) ->
  (exists priv evs,
     w1 = {| log := log w ++ evs; drvdata := Some (session priv) |} /\
     dev priv = d /\ session_ok priv /\
     scan_quirks quirks d = Some (quirk priv) /\
     attached_lines priv = registered evs) \/
  (exists e, e < - MAX_ERRNO /\ drvdata w1 = Some (err_ptr e)).
Proof.
  intros Hdd Hrun.
  destruct (init_one_cases K quirks d driver_data w 0 w1 Hdd Hrun)
    as (P & HP & [[Hrc _] | [b Hatt]]); [lia|].
  apply init_one_attach_spec in Hatt
    as [(_ & priv & evs & -> & Hd & Hb & Hok & Hq & Hreg)
       | [(_ & q & h & e & _ & _ & _ & Hlow & ->) | (Hneg & _)]];
    [| |lia].
  - left. exists priv, (P ++ evs). cbn [log emit].
    rewrite app_assoc, registered_app, (no_registration_registered P HP).
    auto.
  - right. exists e. split; [exact Hlow | reflexivity].
Qed.

(** X20.  Probe and removal pair up.  After a probe that returned 0 and
    stored a session, [pciserial_remove_one] unregisters exactly the lines
    the 8250 core handed out during that probe, each once and in the order of
    the registrations, calls the exit hook of the session's quirk and frees
    the session; it does not reset the driver data.  The one other way for
    a probe to return 0 is an init hook's value below [-MAX_ERRNO], stored as
    driver data: removal then reads through a value that is no pointer, and
    nothing is defined. *)
Theorem probe_then_remove K quirks d driver_data w w1 :
  0 <= driver_data ->
  pciserial_init_one K quirks d driver_data w = Some (0, w1) ->
  (exists priv evs,
     log w1 = log w ++ evs /\ drvdata w1 = Some (session priv) /\
     pciserial_remove_one quirks w1 =
       Some (tt, {| log := log w1
                           ++ map (fun l => (serial8250_unregister_port l, 0))
                                  (registered evs)
                           ++ hook_events (exit (quirk priv)) quirk_exit
                           ++ [(kfree (priv_addr priv), 0)];
                    drvdata := Some (session priv) |})) \/
  (exists e,
     e < - MAX_ERRNO /\ drvdata w1 = Some (err_ptr e) /\
     pciserial_remove_one quirks w1 = None).
Proof.
  intros Hdd Hrun.
  destruct (init_one_session K quirks d driver_data w w1 Hdd Hrun)
    as [(priv & evs & -> & Hd & Hok & Hq & Hreg) | (e & Hlow & Hdrv)].
  - left. exists priv, evs. split; [reflexivity|]. split; [reflexivity|].
    erewrite (remove_one_detach quirks priv _ (quirk priv)).
    + unfold detach_events, emit. cbn [log drvdata].
      rewrite Hreg, <- !app_assoc. reflexivity.
    + reflexivity.
    + apply Hok.
    + rewrite Hd. exact Hq.
  - right. exists e. split; [exact Hlow|]. split; [exact Hdrv|].
    unfold pciserial_remove_one, bind, pci_get_drvdata. rewrite Hdrv.
    reflexivity.
Qed.

Lemma probe_then_remove_witness :
  exists w1 priv,
    pciserial_init_one obliging_kernel pci_serial_quirks
      (sample_dev 0x070002 IORESOURCE_IO) pbn_b0_4_115200 fresh =
      Some (0, w1) /\
    pciserial_remove_one pci_serial_quirks w1 =
      Some (tt, {| log := log w1 ++ [(serial8250_unregister_port 0, 0);
                                     (serial8250_unregister_port 1, 0);
                                     (serial8250_unregister_port 2, 0);
                                     (serial8250_unregister_port 3, 0);
                                     (kfree 0x1000, 0)];
                   drvdata := Some (session priv) |}).
Proof.
  destruct (pciserial_init_one obliging_kernel pci_serial_quirks
              (sample_dev 0x070002 IORESOURCE_IO) pbn_b0_4_115200 fresh)
    as [[rc w1]|] eqn:Hrun; [|discriminate Hrun].
  assert (Hrc : rc = 0) by (vm_compute in Hrun; congruence). subst rc.
  destruct (probe_then_remove obliging_kernel pci_serial_quirks
              (sample_dev 0x070002 IORESOURCE_IO) pbn_b0_4_115200 fresh w1)
    as [(priv & evs & Hlog & Hdrv & Hrem) | (e & _ & Hdrv & _)];
    [by vm_compute | exact Hrun | |
     vm_compute in Hrun; injection Hrun as <-; discriminate Hdrv].
  exists w1, priv. split; [reflexivity|]. rewrite Hrem.
  vm_compute in Hrun. injection Hrun as <-.
  injection Hdrv as <-. unfold fresh in Hlog. simpl in Hlog. subst evs.
  reflexivity.
Defined.

(** X21.  What a bus fault does to the session.  A permanent failure is
    answered with DISCONNECT and nothing is touched.  Otherwise every
    attached line is unregistered and the exit hook called, before the device
    is disabled, and the answer is NEED_RESET; the session is neither freed
    nor taken out of the driver data.  So when the device is removed after
    that (no rebuild having replaced the session), removal unregisters the
    same lines a second time and calls the exit hook again. *)
Theorem fault_keeps_session quirks pci_disable_device state w priv q :
  drvdata w = Some (session priv) ->
  (Z.to_nat (nr priv) <= length (line priv))%nat ->
  scan_quirks quirks (dev priv) = Some q ->
  (state = pci_channel_io_perm_failure ->
   serial8250_io_error_detected quirks pci_disable_device state w =
     Some (PCI_ERS_RESULT_DISCONNECT, w)) /\
  (state <> pci_channel_io_perm_failure ->
   forall w1,
     pci_disable_device (emit w (detach_events q priv)) = Some (tt, w1) ->
     serial8250_io_error_detected quirks pci_disable_device state w =
       Some (PCI_ERS_RESULT_NEED_RESET, w1) /\
     (drvdata w1 = Some (session priv) ->
      pciserial_remove_one quirks w1 =
        Some (tt, emit w1 (detach_events q priv
                           ++ [(kfree (priv_addr priv), 0)])))).
Proof.
  intros Hdrv Hlen Hq. split.
  - intros ->. reflexivity.
  - intros Hstate w1 Hdis. split.
    + unfold serial8250_io_error_detected, bind at 1, pci_get_drvdata.
      rewrite Hdrv.
      destruct state; try contradiction;
        unfold bind at 1; unfold bind at 1;
        rewrite (detach_ports_events quirks priv w q Hlen Hq), Hdis;
        reflexivity.
    + intros Hdrv1. apply remove_one_detach; assumption.
Qed.

(** A frozen channel on the two-port session, with a PCI core that does
    nothing visible: lines 3 and 4 are unregistered by the fault handler and
    again by the removal. *)
Lemma fault_keeps_session_witness :
  let w := {| log := []; drvdata := Some (session two_port_session) |} in
  let detach := [(serial8250_unregister_port 3, 0);
                 (serial8250_unregister_port 4, 0); (quirk_exit 2%nat, 0)] in
  serial8250_io_error_detected hooked_quirks (ret tt) pci_channel_io_frozen w =
    Some (PCI_ERS_RESULT_NEED_RESET, emit w detach) /\
  pciserial_remove_one hooked_quirks (emit w detach) =
    Some (tt, emit w (detach ++ detach ++ [(kfree 0x1000, 0)])).
Proof.
  intros w detach.
  destruct (fault_keeps_session hooked_quirks (ret tt) pci_channel_io_frozen
              w two_port_session hooked_quirk) as [_ H];
    [reflexivity | simpl; lia | reflexivity |].
  destruct (H ltac:(discriminate) (emit w detach) eq_refl) as [Hf Hr].
  split; [exact Hf|]. rewrite (Hr eq_refl). reflexivity.
Defined.

(** The rebuild for a session whose board pointer is live. *)
Lemma io_resume_live K quirks d w priv :
  drvdata w = Some (session priv) -> in_frame (board priv) = false ->
  serial8250_io_resume K quirks d w =
    match addi_pciserial_init_ports K quirks d (board priv) w with
    | Some (inr new, w1) =>
        Some (tt, {| log := log w1 ++ [(kfree (priv_addr priv), 0)];
                     drvdata := Some (session new) |})
    | Some (inl rc, w1) =>
        if IS_ERR_VALUE rc then Some (tt, w1)
        else Some (tt, {| log := log w1 ++ [(kfree (priv_addr priv), 0)];
                          drvdata := Some (err_ptr rc) |})
    | None => None
    end.
Proof.
  intros Hdrv Hlive.
  unfold serial8250_io_resume, bind at 1, pci_get_drvdata.
  rewrite Hdrv, Hlive. unfold bind at 1.
  destruct (addi_pciserial_init_ports K quirks d (board priv) w)
    as [[[rc | new] w1]|]; [|reflexivity | reflexivity].
  destruct (IS_ERR_VALUE rc); reflexivity.
Qed.

(** What a returned session is made of. *)
Lemma init_ports_session K quirks d b w new w1 :
  addi_pciserial_init_ports K quirks d b w = Some (inr new, w1) ->
  exists q evs,
    scan_quirks quirks d = Some q /\ w1 = emit w evs /\
    dev new = d /\ quirk new = q /\ board new = b /\ session_ok new /\
    length (line new) = Z.to_nat (fst (init_outcome K q b w)) /\
    attached_lines new = registered evs.
Proof.
  intros Hrun.
  destruct (init_ports_defined _ _ _ _ _ _ _ Hrun) as [q Hq].
  destruct (init_ports_spec K quirks d b w q Hq)
    as [[_ Hnone] | (r & evs & Heq & Hr)];
    [rewrite Hrun in Hnone; discriminate Hnone|].
  rewrite Hrun in Heq. injection Heq as <- ->.
  destruct Hr as (Hd & Hqk & Hb & _ & Hcap & Hok).
  destruct (init_ports_registered _ _ _ _ _ _ _ Hrun) as (evs' & Hw & Hreg).
  assert (evs' = evs).
  { unfold emit in Hw. injection Hw as Hw.
    apply app_inv_head in Hw. congruence. }
  subst evs'. exists q, evs. auto 10.
Qed.

(** A failed attach frees nothing. *)
Lemma init_ports_error_no_kfree K quirks d b w rc w1 a :
  addi_pciserial_init_ports K quirks d b w = Some (inl rc, w1) ->
  exists evs, w1 = emit w evs /\ no_registration evs /\
              ~ In (kfree a, 0) evs.
Proof.
  intros Hrun.
  destruct (init_ports_defined _ _ _ _ _ _ _ Hrun) as [q Hq].
  destruct (init_ports_spec K quirks d b w q Hq)
    as [[_ Hnone] | (r & evs & Heq & Hr)];
    [rewrite Hrun in Hnone; discriminate Hnone|].
  rewrite Hrun in Heq. injection Heq as <- ->.
  exists evs. split; [reflexivity|].
  destruct Hr as [(h & _ & _ & _ & ->) | (_ & pre & sz & -> & Hpre)].
  - split; [intros uart l|]; simpl; intros [Heq | []]; discriminate Heq.
  - assert (Hpre' : forall e, In e pre ->
                      exists h rc', e = (quirk_init h, rc')).
    { destruct (init q) as [h|]; subst pre; simpl; [|tauto].
      intros e [<- | []]. eauto. }
    split; [intros uart l|]; rewrite in_app_iff; simpl;
      intros [Hin | [Heq | Hin]]; try discriminate Heq.
    + apply Hpre' in Hin as (? & ? & Heq). discriminate Heq.
    + exact (hook_events_no_registration _ _ _ Hin).
    + apply Hpre' in Hin as (? & ? & Heq). discriminate Heq.
    + destruct (exit q); simpl in Hin; [|tauto].
      destruct Hin as [Heq | []]. discriminate Heq.
Qed.

(** X22.  Removal after the rebuild that follows a bus fault, for a session
    whose board pointer is live (one attached with an entry of
    [pci_boards]).  If the rebuild returned a session, removal unregisters
    the lines handed out during the rebuild and frees the new session, the
    old one having been freed by the rebuild.  If the rebuild failed with a
    recognised error, the driver data still holds the old session, and
    removal goes through the lines of that session and frees it.  If it
    failed with an init error below [-MAX_ERRNO], the old session was freed
    and the error stored in its place: removal reads through it, and nothing
    is defined. *)
Theorem rebuild_then_remove K quirks d w priv :
  drvdata w = Some (session priv) -> in_frame (board priv) = false ->
  (forall new evs w1,
     addi_pciserial_init_ports K quirks d (board priv) w =
       Some (inr new, emit w evs) ->
     serial8250_io_resume K quirks d w = Some (tt, w1) ->
     log w1 = log w ++ evs ++ [(kfree (priv_addr priv), 0)] /\
     pciserial_remove_one quirks w1 =
       Some (tt, emit w1 (map (fun l => (serial8250_unregister_port l, 0))
                              (registered evs)
                          ++ hook_events (exit (quirk new)) quirk_exit
                          ++ [(kfree (priv_addr new), 0)]))) /\
  (forall rc w1 q,
     addi_pciserial_init_ports K quirks d (board priv) w =
       Some (inl rc, w1) ->
     IS_ERR_VALUE rc = true ->
     (Z.to_nat (nr priv) <= length (line priv))%nat ->
     scan_quirks quirks (dev priv) = Some q ->
     serial8250_io_resume K quirks d w = Some (tt, w1) /\
     pciserial_remove_one quirks w1 =
       Some (tt, emit w1 (detach_events q priv
                          ++ [(kfree (priv_addr priv), 0)]))) /\
  (forall rc w0,
     addi_pciserial_init_ports K quirks d (board priv) w =
       Some (inl rc, w0) ->
     IS_ERR_VALUE rc = false ->
     exists w1,
       serial8250_io_resume K quirks d w = Some (tt, w1) /\
       log w1 = log w0 ++ [(kfree (priv_addr priv), 0)] /\
       drvdata w1 = Some (err_ptr rc) /\
       pciserial_remove_one quirks w1 = None).
Proof.
  intros Hdrv Hlive.
  rewrite (io_resume_live K quirks d w priv Hdrv Hlive).
  split; [|split].
  - intros new evs w1 Hrun. rewrite Hrun. intros [= <-]. cbn [log emit].
    split; [now rewrite <- app_assoc|].
    destruct (init_ports_session _ _ _ _ _ _ _ Hrun)
      as (q & evs' & Hq & Hw & Hd & Hqk & _ & Hok & _ & Hreg).
    assert (evs' = evs).
    { unfold emit in Hw. injection Hw as Hw.
      apply app_inv_head in Hw. congruence. }
    subst evs'.
    erewrite (remove_one_detach quirks new _ q);
      [|reflexivity | apply Hok | rewrite Hd; exact Hq].
    unfold detach_events, emit. cbn [log drvdata].
    rewrite Hreg, Hqk, <- !app_assoc. reflexivity.
  - intros rc w1 q Hrun Herr Hlen Hq. rewrite Hrun, Herr.
    split; [reflexivity|].
    apply remove_one_detach; [|assumption | assumption].
    destruct (init_ports_error_events _ _ _ _ _ _ _ Hrun)
      as (_ & evs & -> & _). exact Hdrv.
  - intros rc w0 Hrun Herr. rewrite Hrun, Herr.
    eexists. split; [reflexivity|]. split; [reflexivity|].
    split; [reflexivity|]. reflexivity.
Qed.

(** The allocation of the rebuild fails: the session of lines 3 and 4 stays
    and is what the removal takes down. *)
Lemma rebuild_then_remove_witness :
  let w := {| log := []; drvdata := Some (session two_port_session) |} in
  let w1 := emit w [(quirk_init 1%nat, 0); (kzalloc 48, 0);
                    (quirk_exit 2%nat, 0)] in
  serial8250_io_resume failing_kernel hooked_quirks
    (sample_dev 0x070002 IORESOURCE_IO) w = Some (tt, w1) /\
  pciserial_remove_one hooked_quirks w1 =
    Some (tt, emit w1 [(serial8250_unregister_port 3, 0);
                       (serial8250_unregister_port 4, 0);
                       (quirk_exit 2%nat, 0); (kfree 0x1000, 0)]).
Proof.
  intros w w1.
  destruct (rebuild_then_remove failing_kernel hooked_quirks
              (sample_dev 0x070002 IORESOURCE_IO) w two_port_session eq_refl
              eq_refl)
    as (_ & H & _).
  apply (H (- ENOMEM) w1 hooked_quirk);
    [reflexivity | reflexivity | simpl; lia | reflexivity].
Defined.

(** X25.  The rebuild itself, for a session whose board pointer is live.
    [serial8250_io_resume] attaches anew with the board of the session.  If
    that returns a session, its ports were registered during the rebuild, it
    has the same board (hence the same nominal port count; without an init
    hook its [line] array has that many slots), it replaces the old session
    in the driver data and the old session is freed.  If it returns an error
    that [IS_ERR] recognises, nothing else happens: the driver data still
    holds the old session, nothing was registered or freed, and there is no
    second attempt.  An init error below [-MAX_ERRNO] is taken for a
    session: it is stored and the old session freed. *)
Theorem io_resume_rebuild K quirks d w priv :
  drvdata w = Some (session priv) -> in_frame (board priv) = false ->
  (forall new w1,
     addi_pciserial_init_ports K quirks d (board priv) w =
       Some (inr new, w1) ->
     serial8250_io_resume K quirks d w =
       Some (tt, {| log := log w1 ++ [(kfree (priv_addr priv), 0)];
                    drvdata := Some (session new) |}) /\
     board new = board priv /\
     num_ports (board new) = num_ports (board priv) /\
     session_ok new /\
     (exists evs, w1 = emit w evs /\ attached_lines new = registered evs) /\
     (forall q, scan_quirks quirks d = Some q -> init q = None ->
        length (line new) = Z.to_nat (to_int (num_ports (board priv))))) /\
  (forall rc w1,
     addi_pciserial_init_ports K quirks d (board priv) w =
       Some (inl rc, w1) ->
     (exists evs, w1 = emit w evs /\ no_registration evs /\
                  ~ In (kfree (priv_addr priv), 0) evs) /\
     (IS_ERR_VALUE rc = true ->
      serial8250_io_resume K quirks d w = Some (tt, w1) /\
      drvdata w1 = Some (session priv)) /\
     (IS_ERR_VALUE rc = false ->
      serial8250_io_resume K quirks d w =
        Some (tt, {| log := log w1 ++ [(kfree (priv_addr priv), 0)];
                     drvdata := Some (err_ptr rc) |}))).
Proof.
  intros Hdrv Hlive.
  rewrite (io_resume_live K quirks d w priv Hdrv Hlive).
  split.
  - intros new w1 Hrun. rewrite Hrun. split; [reflexivity|].
    destruct (init_ports_session _ _ _ _ _ _ _ Hrun)
      as (q & evs & Hq & Hw & Hd & Hqk & Hb & Hok & Hcap & Hreg).
    rewrite Hb. split; [reflexivity|]. split; [reflexivity|].
    split; [exact Hok|]. split; [exists evs; auto|].
    intros q' Hq' Hinit. rewrite Hq in Hq'. injection Hq' as ->.
    rewrite Hcap. unfold init_outcome. rewrite Hinit. reflexivity.
  - intros rc w1 Hrun. rewrite Hrun.
    split; [exact (init_ports_error_no_kfree _ _ _ _ _ _ _ _ Hrun)|].
    split; intros ->; [|reflexivity].
    split; [reflexivity|].
    destruct (init_ports_error_events _ _ _ _ _ _ _ Hrun)
      as (_ & evs & -> & _). exact Hdrv.
Qed.

(** The four-port session of an explicit table entry is rebuilt with four
    nominal ports. *)
Lemma io_resume_rebuild_witness :
  let d := sample_dev 0x070002 IORESOURCE_IO in
  let old := sample_priv d four_ports in
  let w := {| log := []; drvdata := Some (session old) |} in
  exists new w',
    serial8250_io_resume two_lines_kernel pci_serial_quirks d w =
      Some (tt, w') /\
    drvdata w' = Some (session new) /\ num_ports (board new) = 4 /\
    attached_lines new = [0; 1].
Proof.
  intros d old w.
  destruct (io_resume_rebuild two_lines_kernel pci_serial_quirks d w old
              eq_refl eq_refl) as [H _].
  destruct (addi_pciserial_init_ports two_lines_kernel pci_serial_quirks d
              (board old) w) as [[[rc | new] w1]|] eqn:Hrun;
    [vm_compute in Hrun; discriminate Hrun | |
     vm_compute in Hrun; discriminate Hrun].
  destruct (H new w1 eq_refl) as (Heq & _ & Hn & _).
  eexists new, _. split; [exact Heq|]. split; [reflexivity|].
  split; [exact Hn|].
  vm_compute in Hrun. injection Hrun as <- _. reflexivity.
Defined.



(** ** The redundancy diagnostic *)

(** X24.  When the probe of an explicit table entry prints its
    redundant-entry diagnostic.  The comparison is made against the default
    entry as the heuristic filled it in, and the heuristic writes [flags] and
    [num_ports] only, so the diagnostic is printed exactly when the heuristic
    succeeds, finds as many ports as the board has, and the board has base
    baud 115200, stride 8, register shift 0 and first offset 0; the board's
    [flags] do not matter.  Hence no device is ever reported for the entries
    of [serial_pci_tbl] that name the APCI-7800 slot or a PCIe board. *)
Theorem redundant_entry_diagnostic d :
  let g := serial_pci_guess_board d (board_entry FL_BASE0 1 115200 8 0) in
  (forall board,
     (fst g =? 0) && serial_pci_matches board (snd g) = true <->
     fst g = 0 /\ num_ports board = num_ports (snd g) /\
     base_baud board = 115200 /\ uart_offset board = 8 /\
     reg_shift board = 0 /\ first_offset board = 0) /\
  (forall e board,
     In e serial_pci_tbl -> pbn_b1_8_115200 <= driver_data e ->
     pci_boards !! Z.to_nat (driver_data e) = Some board ->
     (fst g =? 0) && serial_pci_matches board (snd g) = false).
Proof.
  intros g.
  destruct (guess_board_frame d (board_entry FL_BASE0 1 115200 8 0))
    as (Hb & Hu & Hr & Hf).
  fold g in Hb, Hu, Hr, Hf. cbn [base_baud uart_offset reg_shift first_offset
                                 board_entry] in Hb, Hu, Hr, Hf.
  assert (Hiff : forall board,
     (fst g =? 0) && serial_pci_matches board (snd g) = true <->
     fst g = 0 /\ num_ports board = num_ports (snd g) /\
     base_baud board = 115200 /\ uart_offset board = 8 /\
     reg_shift board = 0 /\ first_offset board = 0).
  { intros board. unfold serial_pci_matches.
    rewrite !andb_true_iff, !Z.eqb_eq, Hb, Hu, Hr, Hf. tauto. }
  split; [exact Hiff|].
  intros e board Hin Hdd Hboard.
  destruct (_ && _) eqn:Hdiag; [|reflexivity].
  apply Hiff in Hdiag as (_ & _ & Hbaud & _).
  unfold serial_pci_tbl, pbn_b1_8_115200 in *. simpl in Hin.
  repeat (destruct Hin as [<- | Hin];
          [first [ simpl in Hdd; unfold pbn_b0_1_115200, pbn_b0_2_115200,
                     pbn_b0_4_115200, pbn_b0_8_115200, pbn_b0_bt_2_115200
                     in Hdd; lia
                 | vm_compute in Hboard; injection Hboard as <-;
                   discriminate Hbaud ]|]).
  destruct Hin.
Qed.
